(** * vscode-multi-agent: task registry, process executor and session daemons

    A shallow embedding of [src/executors/TaskManager.ts],
    [src/executors/CLIExecutor.ts], [src/executors/GeminiDaemon.ts] and
    [src/executors/ClaudeDaemon.ts], of what the input panel and the task
    views do with the registry, and the properties of the orchestration
    layer established over it.

    Conventions.
    - JavaScript strings are [string]; every character is a code unit
      below 256.  All character classes used by the source ([\s], [\d],
      [.], the [i] flag on ASCII patterns) are modelled on that range.
    - [Date.now()] and [new Date()] are millisecond counts in [Z].
    - An exception is a value [Throw msg] carrying the [Error]'s message.
    - Objects that the source shares by reference (tasks, executors) live
      in an explicit store and are named by their index in it. *)

From Stdlib Require Import ZArith Ascii String Decimal DecimalString Bool Lia.
From Stdlib Require DecimalPos Sorted.
From stdpp Require Import base option list gmap strings relations.

Local Open Scope string_scope.
Local Open Scope Z_scope.

(** ** Strings and characters *)

Module Str.

Definition code (c : ascii) : N := N_of_ascii c.

(** [\n] and [\r]: the line terminators below 256. *)
Definition isLineTerminator (c : ascii) : bool :=
  (code c =? 10)%N || (code c =? 13)%N.

(** [\s], also what [trim] strips: TAB, LF, VT, FF, CR, SP, NBSP. *)
Definition isSpace (c : ascii) : bool :=
  ((9 <=? code c)%N && (code c <=? 13)%N) || (code c =? 32)%N || (code c =? 160)%N.

Definition isDigit (c : ascii) : bool :=
  (48 <=? code c)%N && (code c <=? 57)%N.

Definition isUpper (c : ascii) : bool :=
  (65 <=? code c)%N && (code c <=? 90)%N.

Definition isLower (c : ascii) : bool :=
  (97 <=? code c)%N && (code c <=? 122)%N.

Definition isAlpha (c : ascii) : bool := isUpper c || isLower c.

(** ASCII case folding: all that the [i] flag can identify with an
    ASCII pattern character. *)
Definition lower (c : ascii) : ascii :=
  if isUpper c then ascii_of_N (code c + 32) else c.

Definition eqci (a b : ascii) : bool := Ascii.eqb (lower a) (lower b).

Fixpoint toLowerCase (s : string) : string :=
  match s with
  | EmptyString => EmptyString
  | String c s' => String (lower c) (toLowerCase s')
  end.

(** [String.prototype.includes]. *)
Fixpoint includes (s needle : string) : bool :=
  String.prefix needle s ||
  match s with
  | EmptyString => false
  | String _ s' => includes s' needle
  end.

Fixpoint dropSpaces (s : string) : string :=
  match s with
  | String c s' => if isSpace c then dropSpaces s' else s
  | EmptyString => EmptyString
  end.

(** Drops the trailing white space: a character is kept when something
    that is kept follows it or when it is not white space. *)
Fixpoint dropTrailing (s : string) : string :=
  match s with
  | EmptyString => EmptyString
  | String c s' =>
      match dropTrailing s' with
      | EmptyString => if isSpace c then EmptyString else String c EmptyString
      | t => String c t
      end
  end.

(** [String.prototype.trim]. *)
Definition trim (s : string) : string := dropTrailing (dropSpaces s).

(** Decimal rendering of an integer, as template literals and
    [toString] print it. *)
Definition ofZ (z : Z) : string := NilZero.string_of_int (Z.to_int z).
Definition ofNat (n : nat) : string := ofZ (Z.of_nat n).

Fixpoint digits (acc : Z) (seen : bool) (s : string) : option Z :=
  match s with
  | String c s' =>
      if isDigit c then digits (10 * acc + Z.of_N (code c - 48)) true s'
      else if seen then Some acc else None
  | EmptyString => if seen then Some acc else None
  end.

(** [parseInt(s, 10)]: leading white space, an optional sign, the
    longest run of digits; [None] is [NaN].  The result is the integer
    that the digits denote.  The number that the code gets is the
    double nearest to it: the same integer up to 2^53 in magnitude, a
    rounded one beyond. *)
Definition parseInt (s : string) : option Z :=
  match dropSpaces s with
  | String "-" s' => Z.opp <$> digits 0 false s'
  | String "+" s' => digits 0 false s'
  | s' => digits 0 false s'
  end.

End Str.

(** ** A backtracking matcher for the regular expressions of the source

    Priorities follow ECMAScript: alternatives left to right, greedy
    repetition, an iteration that consumes nothing is abandoned.  A
    position is the remaining input together with a flag telling whether
    it is at the start of a line, which is what [^] needs under the [m]
    flag. *)

Module Regex.

Inductive regex : Type :=
| Eps
| Chr (p : ascii -> bool)
| Seq (r1 r2 : regex)
| Alt (r1 r2 : regex)
| Star (r : regex)
| Bol
| Eol.

Definition Opt (r : regex) : regex := Alt r Eps.
Definition Plus (r : regex) : regex := Seq r (Star r).

Fixpoint seqs (rs : list regex) : regex :=
  match rs with
  | [] => Eps
  | r :: rs' => Seq r (seqs rs')
  end.

(** A literal, compared character by character; [ci] is the [i] flag. *)
Fixpoint lit (ci : bool) (s : string) : regex :=
  match s with
  | EmptyString => Eps
  | String c s' =>
      Seq (Chr (if ci then Str.eqci c else Ascii.eqb c)) (lit ci s')
  end.

Definition oneOf (cs : string) : regex :=
  Chr (fun c => Str.includes cs (String c EmptyString)).

Section Matcher.
Context {A : Type}.

(** A continuation: what is still to be matched, from a position. *)
Definition cont : Type := bool -> string -> option A.

(** Greedy repetition: the body once more if that leads to a match,
    the continuation otherwise.  Each iteration must consume input, so
    the length of the input bounds their number [n]. *)
Fixpoint iter (body : cont -> cont) (k : cont) (n : nat) : cont :=
  fun bol s =>
    match n with
    | O => k bol s
    | S n' =>
        let again : cont := fun bol' s' =>
          if (String.length s' <? String.length s)%nat
          then iter body k n' bol' s' else None in
        match body again bol s with
        | Some a => Some a
        | None => k bol s
        end
    end.

(** The first match of [r] followed by [k], in priority order. *)
Fixpoint run (r : regex) (k : cont) {struct r} : cont :=
  fun bol s =>
    match r with
    | Eps => k bol s
    | Chr p =>
        match s with
        | String c s' => if p c then k (Str.isLineTerminator c) s' else None
        | EmptyString => None
        end
    | Seq r1 r2 => run r1 (run r2 k) bol s
    | Alt r1 r2 =>
        match run r1 k bol s with
        | Some a => Some a
        | None => run r2 k bol s
        end
    | Star r' => iter (run r') k (String.length s) bol s
    | Bol => if bol then k bol s else None
    | Eol =>
        match s with
        | EmptyString => k bol s
        | String c _ => if Str.isLineTerminator c then k bol s else None
        end
    end.
End Matcher.

(** The match that starts at the current position, if any: what is
    left of the input after it. *)
Definition exec (r : regex) (bol : bool) (s : string) : option string :=
  run r (fun _ rest => Some rest) bol s.

Fixpoint search (r : regex) (bol : bool) (s : string) : bool :=
  match exec r bol s with
  | Some _ => true
  | None =>
      match s with
      | EmptyString => false
      | String c s' => search r (Str.isLineTerminator c) s'
      end
  end.

(** [re.test(s)] for a regular expression without the [g] flag. *)
Definition test (r : regex) (s : string) : bool := search r true s.

(** What the [g] flag does: matches are taken left to right, the next
    search starts where the last match ended (one further when the
    match was empty).  [skip] counts the characters still inside the
    last match. *)
Fixpoint scan (r : regex) (skip : nat) (bol : bool) (s : string) : list string :=
  match skip with
  | S n =>
      match s with
      | String c s' => scan r n (Str.isLineTerminator c) s'
      | EmptyString => []
      end
  | O =>
      match exec r bol s with
      | Some rest =>
          let n := (String.length s - String.length rest)%nat in
          substring 0 n s ::
            match s with
            | String c s' => scan r (Nat.pred n) (Str.isLineTerminator c) s'
            | EmptyString => []
            end
      | None =>
          match s with
          | String c s' => scan r 0 (Str.isLineTerminator c) s'
          | EmptyString => []
          end
      end
  end.

(** [s.match(re)] with the [g] flag: [None] is [null]. *)
Definition matchAll (r : regex) (s : string) : option (list string) :=
  match scan r 0 true s with
  | [] => None
  | ms => Some ms
  end.

Fixpoint subst (r : regex) (rep : string) (skip : nat) (bol : bool) (s : string)
  : string :=
  match skip with
  | S n =>
      match s with
      | String c s' => subst r rep n (Str.isLineTerminator c) s'
      | EmptyString => EmptyString
      end
  | O =>
      match exec r bol s with
      | Some rest =>
          let n := (String.length s - String.length rest)%nat in
          rep +:+
            match s with
            | String c s' =>
                let t := subst r rep (Nat.pred n) (Str.isLineTerminator c) s' in
                if (n =? 0)%nat then String c t else t
            | EmptyString => EmptyString
            end
      | None =>
          match s with
          | String c s' => String c (subst r rep 0 (Str.isLineTerminator c) s')
          | EmptyString => EmptyString
          end
      end
  end.

(** [s.replace(re, rep)] with the [g] flag, for a replacement string
    that is taken literally. *)
Definition replaceAll (r : regex) (rep : string) (s : string) : string :=
  subst r rep 0 true s.

End Regex.

(** The outcome of a call that may throw, or of a promise that settles:
    a value, or the message of the [Error]. *)
Inductive Res (A : Type) : Type :=
| Ok (a : A)
| Throw (msg : string).
Arguments Ok {A} a.
Arguments Throw {A} msg.

(** [AgentType] of TaskManager.ts; each agent has its own daemon class. *)
Inductive AgentType : Type := claude | gemini.

#[global] Instance AgentType_eq_dec : EqDecision AgentType.
Proof. solve_decision. Defined.

(** ** The session daemons (GeminiDaemon.ts, ClaudeDaemon.ts)

    The two classes differ in their constants, in the choice patterns, in
    the key table and in one branch of the polling loop; every definition
    below takes the agent and follows the class of that agent. *)

Module Daemon.

Inductive InteractionMode : Type := interactive | auto.

Record PendingChoice : Type := {
  options : list string;
  prompt : string
}.

(** The fields of a daemon object. *)
Record Daemon : Type := {
  isRunning : bool;
  mode : InteractionMode
}.

Definition fresh_daemon : Daemon :=
  {| isRunning := false; mode := interactive |}.

Definition dq : string := String "034"%char EmptyString.
Definition bs : string := String "092"%char EmptyString.

Definition label (a : AgentType) : string :=
  match a with gemini => "Gemini" | claude => "Claude" end.

Definition SESSION_NAME (a : AgentType) : string :=
  match a with gemini => "gemini-daemon" | claude => "claude-daemon" end.

Definition OUTPUT_FILE (a : AgentType) : string :=
  match a with
  | gemini => "/tmp/gemini-daemon-output.txt"
  | claude => "/tmp/claude-daemon-output.txt"
  end.

(** The bound handed to the polling loop by [sendPrompt]. *)
Definition promptTimeout (a : AgentType) : Z :=
  match a with gemini => 60000 | claude => 120000 end.

(** *** The outside world

    What [execSync] answers, how long a sleep really lasts and what the
    operator picks are inputs; they are read from oracles indexed by
    the number of calls made so far.  The commands handed to
    [execSync] are recorded in [issued], oldest first.

    The clock moves when the daemon sleeps.  The loop reads it once per
    turn, before the sleep, so the lateness [lag] of a sleep stands for
    all the time that the rest of the turn takes.

    A method is followed along one chain of calls: nothing else touches
    the daemon's fields while the method sleeps or waits for the
    operator (the source does not protect a daemon against concurrent
    calls). *)

Inductive ExecOutcome : Type :=
| ExecOk (stdout : string)
| ExecErr (stdout : string) (message : string).

Record World : Type := {
  now : Z;
  exec_out : nat -> ExecOutcome;
  exec_n : nat;
  lag : nat -> N;
  sleep_n : nat;
  pick : nat -> option nat;
  pick_n : nat;
  issued : list string
}.

(** A method of a daemon: it reads and writes the daemon's fields and
    the world, and returns or throws. *)
Definition M (A : Type) : Type := Daemon -> World -> Res A * Daemon * World.

Definition ret {A} (a : A) : M A := fun d w => (Ok a, d, w).
Definition throw {A} (msg : string) : M A := fun d w => (Throw msg, d, w).

Definition bind {A B} (m : M A) (k : A -> M B) : M B :=
  fun d w =>
    match m d w with
    | (Ok a, d', w') => k a d' w'
    | (Throw msg, d', w') => (Throw msg, d', w')
    end.

(** [try { m } catch (error) { h error.message }]: what [m] did before
    it threw stays done. *)
Definition try_catch {A} (m : M A) (h : string -> M A) : M A :=
  fun d w =>
    match m d w with
    | (Ok a, d', w') => (Ok a, d', w')
    | (Throw msg, d', w') => h msg d' w'
    end.

Notation "'let!' x ':=' m 'in' k" := (bind m (fun x => k))
  (at level 10, x pattern, m at level 100, k at level 200).
Notation "'do!' m 'in' k" := (bind m (fun _ => k))
  (at level 10, m at level 100, k at level 200).

Definition get_isRunning : M bool := fun d w => (Ok (isRunning d), d, w).
Definition set_isRunning (b : bool) : M unit :=
  fun d w => (Ok tt, {| isRunning := b; mode := mode d |}, w).
Definition get_mode : M InteractionMode := fun d w => (Ok (mode d), d, w).

Definition setMode (m : InteractionMode) : M unit :=
  fun d w => (Ok tt, {| isRunning := isRunning d; mode := m |}, w).

Definition dateNow : M Z := fun d w => (Ok (now w), d, w).

(** [await this.sleep(ms)]: the timer fires after [ms] or later. *)
Definition sleep (ms : Z) : M unit :=
  fun d w =>
    (Ok tt, d,
     {| now := now w + ms + Z.of_N (lag w (sleep_n w));
        exec_out := exec_out w; exec_n := exec_n w;
        lag := lag w; sleep_n := S (sleep_n w);
        pick := pick w; pick_n := pick_n w;
        issued := issued w |}).

(** The operator's answer to the next dialog: the index of the item
    chosen, or [None] when the dialog is dismissed. *)
Definition askOperator (items : list string) : M (option string) :=
  fun d w =>
    (Ok (i ← pick w (pick_n w); items !! i), d,
     {| now := now w;
        exec_out := exec_out w; exec_n := exec_n w;
        lag := lag w; sleep_n := sleep_n w;
        pick := pick w; pick_n := S (pick_n w);
        issued := issued w |}).

Definition wslLine (command : string) : string :=
  "wsl -d Ubuntu-24.04 -- bash -c " +:+ dq +:+ command +:+ dq.

(** [runWslCommand]: a failed [execSync] that still produced output
    returns that output, any other failure is thrown on. *)
Definition runWslCommand (command : string) : M string :=
  fun d w =>
    let w' :=
      {| now := now w;
         exec_out := exec_out w; exec_n := S (exec_n w);
         lag := lag w; sleep_n := sleep_n w;
         pick := pick w; pick_n := pick_n w;
         issued := issued w ++ [wslLine command] |} in
    match exec_out w (exec_n w) with
    | ExecOk out => (Ok out, d, w')
    | ExecErr EmptyString msg => (Throw msg, d, w')
    | ExecErr out _ => (Ok out, d, w')
    end.

(** *** start, stop *)

Definition listCommand (a : AgentType) : string :=
  "tmux list-sessions 2>/dev/null | grep " +:+ SESSION_NAME a +:+ " || true".

(** The command line of the tool that runs inside the session. *)
Definition toolName (a : AgentType) : string :=
  match a with gemini => "gemini" | claude => "claude" end.

Definition newSessionCommand (a : AgentType) : string :=
  "tmux new-session -d -s " +:+ SESSION_NAME a +:+ " " +:+ dq +:+
  toolName a +:+ " 2>&1 | tee " +:+ OUTPUT_FILE a +:+ dq.

Definition start (a : AgentType) : M bool :=
  try_catch
    (let! sessions := runWslCommand (listCommand a) in
     if Str.includes sessions (SESSION_NAME a)
     then do! set_isRunning true in ret true
     else
       do! runWslCommand (newSessionCommand a) in
       do! sleep 3000 in
       do! set_isRunning true in
       ret true)
    (fun _ => ret false).

Definition killCommand (a : AgentType) : string :=
  "tmux kill-session -t " +:+ SESSION_NAME a +:+ " 2>/dev/null || true".

Definition stop (a : AgentType) : M unit :=
  try_catch
    (do! runWslCommand (killCommand a) in set_isRunning false)
    (fun _ => ret tt).

(** *** sendKey *)

Definition keyMap (a : AgentType) : list (string * string) :=
  [("enter", "Enter"); ("escape", "Escape"); ("tab", "Tab"); ("up", "Up");
   ("down", "Down"); ("ctrl+c", "C-c"); ("ctrl+d", "C-d")]
  ++ match a with
     | claude => [("y", "y"); ("n", "n")]
     | gemini => []
     end.

Fixpoint assoc (k : string) (l : list (string * string)) : option string :=
  match l with
  | [] => None
  | (k', v) :: l' => if String.eqb k k' then Some v else assoc k l'
  end.

(** [keyMap[key.toLowerCase()] || key], for keys that do not name a
    member of [Object.prototype]. *)
Definition tmuxKey (a : AgentType) (key : string) : string :=
  default key (assoc (Str.toLowerCase key) (keyMap a)).

Definition sendKeysCommand (a : AgentType) (quoted : string) : string :=
  "tmux send-keys -t " +:+ SESSION_NAME a +:+ " " +:+ dq +:+ quoted +:+ dq.

Definition sendKey (a : AgentType) (key : string) : M unit :=
  let! r := get_isRunning in
  if negb r then throw (label a +:+ " daemon is not running")
  else do! runWslCommand (sendKeysCommand a (tmuxKey a key)) in ret tt.

(** *** Choice detection *)

(** The three yes/no tests of [detectChoice], each with the [i] flag:
    a parenthesised y/n and the two bracketed spellings. *)
Definition re_yn_paren : Regex.regex := Regex.lit true "(y/n)".
Definition re_yn_bracket1 : Regex.regex := Regex.lit true "[y/N]".
Definition re_yn_bracket2 : Regex.regex := Regex.lit true "[Y/n]".

Definition hasYesNo (output : string) : bool :=
  Regex.test re_yn_paren output
  || Regex.test re_yn_bracket1 output
  || Regex.test re_yn_bracket2 output.

(** allow, deny or permit, with the [i] flag; and a question mark. *)
Definition re_allow : Regex.regex :=
  Regex.Alt (Regex.lit true "allow")
    (Regex.Alt (Regex.lit true "deny") (Regex.lit true "permit")).
Definition re_question : Regex.regex := Regex.lit false "?".

(** The numbered line, flags [g] and [m]: start of line, white space,
    an optional opening bracket, digits, an optional closing bracket,
    white space, one of dot, closing parenthesis and colon, white
    space, at least one character of the line, end of line. *)
Definition re_numbered : Regex.regex :=
  Regex.seqs
    [Regex.Bol;
     Regex.Star (Regex.Chr Str.isSpace);
     Regex.Opt (Regex.oneOf "[");
     Regex.Plus (Regex.Chr Str.isDigit);
     Regex.Opt (Regex.oneOf "]");
     Regex.Star (Regex.Chr Str.isSpace);
     Regex.oneOf ".):";
     Regex.Star (Regex.Chr Str.isSpace);
     Regex.Plus (Regex.Chr (fun c => negb (Str.isLineTerminator c)));
     Regex.Eol].

(** The continue prompts, with the [i] flag. *)
Definition re_enter (a : AgentType) : Regex.regex :=
  match a with
  | gemini => Regex.Alt (Regex.lit true "press enter") (Regex.lit true "hit enter")
  | claude => Regex.Alt (Regex.lit true "press enter") (Regex.lit true "continue?")
  end.

(** [numberedMatches.map((_, i) => (i + 1).toString())]. *)
Definition indices {A} (l : list A) : list string :=
  imap (fun i _ => Str.ofNat (i + 1)) l.

Definition numberedChoice (output : string) : option PendingChoice :=
  match Regex.matchAll re_numbered output with
  | Some numberedMatches =>
      if (2 <=? length numberedMatches)%nat then
        let opts := indices numberedMatches in
        Some {| options := opts;
                prompt := "Select an option (1-" +:+ Str.ofNat (length opts) +:+ ")" |}
      else None
  | None => None
  end.

Definition enterChoice (a : AgentType) (output : string) : option PendingChoice :=
  if Regex.test (re_enter a) output
  then Some {| options := ["enter"]; prompt := "Press Enter to continue" |}
  else None.

(** [detectChoice] of the two classes.  The [patterns] array that the
    Gemini class builds first is never read and has no counterpart. *)
Definition detectChoice (a : AgentType) (output : string) : option PendingChoice :=
  match a with
  | gemini =>
      if hasYesNo output
      then Some {| options := ["y"; "n"]; prompt := "Yes or No?" |}
      else
        match numberedChoice output with
        | Some c => Some c
        | None => enterChoice gemini output
        end
  | claude =>
      if hasYesNo output
      then Some {| options := ["y"; "n"];
                   prompt := "Permission required - Yes or No?" |}
      else if Regex.test re_allow output && Regex.test re_question output
      then Some {| options := ["y"; "n"]; prompt := "Allow this action?" |}
      else
        match numberedChoice output with
        | Some c => Some c
        | None => enterChoice claude output
        end
  end.

(** [Array.prototype.includes] on an array of strings. *)
Definition has (l : list string) (x : string) : bool :=
  existsb (String.eqb x) l.

Definition autoRespond (a : AgentType) (choice : PendingChoice) : M unit :=
  if has (options choice) "y" then
    do! sendKey a "y" in sendKey a "enter"
  else if has (options choice) "enter" then
    sendKey a "enter"
  else
    match options choice with
    | first :: _ => do! sendKey a first in sendKey a "enter"
    | [] => ret tt
    end.

(** The operator is asked through a message with one button for a
    continue prompt, and through a list of items otherwise. *)
Definition askUserForChoice (a : AgentType) (choice : PendingChoice)
  : M (option string) :=
  if has (options choice) "enter" then
    let! result := askOperator ["Continue"] in
    ret (match result with Some _ => Some "enter" | None => None end)
  else if has (options choice) "y" && has (options choice) "n" then
    askOperator ["y"; "n"]
  else
    askOperator (options choice).

(** *** Text helpers *)

Definition replaceChar (c : ascii) (rep : string) : string -> string :=
  Regex.replaceAll (Regex.Chr (Ascii.eqb c)) rep.

(** Backslash, double quote, dollar and backquote each get a backslash
    in front, one pass per character, in this order. *)
Definition escapeForTmux (text : string) : string :=
  replaceChar "`" (bs +:+ "`")
    (replaceChar "$" (bs +:+ "$")
       (replaceChar "034" (bs +:+ dq)
          (replaceChar "092" (bs +:+ bs) text))).

(** ESC, an opening bracket, digits and semicolons, one letter. *)
Definition re_ansi : Regex.regex :=
  Regex.seqs
    [Regex.Chr (Ascii.eqb "027");
     Regex.oneOf "[";
     Regex.Star (Regex.oneOf "0123456789;");
     Regex.Chr Str.isAlpha].

Definition cleanOutput (output : string) : string :=
  Str.trim
    (Regex.replaceAll (Regex.Chr (Ascii.eqb "013")) ""
       (Regex.replaceAll re_ansi "" output)).

Definition statCommand (a : AgentType) : string :=
  "stat -c%s " +:+ OUTPUT_FILE a +:+ " 2>/dev/null || echo 0".

(** [parseInt(result.trim(), 10) || 0], and 0 when the command throws. *)
Definition getOutputSize (a : AgentType) : M Z :=
  try_catch
    (let! result := runWslCommand (statCommand a) in
     ret (default 0 (Str.parseInt (Str.trim result))))
    (fun _ => ret 0).

Definition tailCommand (a : AgentType) (beforeSize : Z) : string :=
  "tail -c +" +:+ Str.ofZ (beforeSize + 1) +:+ " " +:+ OUTPUT_FILE a +:+
  " 2>/dev/null || true".

(** *** The completion-detection loop *)

(** The three variables of [waitForOutputWithChoiceDetection]. *)
Record Poll : Type := {
  stableCount : Z;
  lastSize : Z;
  lastOutput : string
}.

(** How one turn of the [while] body ends: [continue] or falling off
    the end of the body, or [return]. *)
Inductive Turn : Type :=
| Again (st : Poll)
| Return (text : string).

Definition resetCount (st : Poll) : Poll :=
  {| stableCount := 0; lastSize := lastSize st; lastOutput := lastOutput st |}.

(** The last statement of the body: the stability test. *)
Definition settle (beforeSize currentSize : Z) (cleaned : string) (st : Poll) : Turn :=
  if (beforeSize <? currentSize) && (currentSize =? lastSize st)
     && String.eqb cleaned (lastOutput st)
  then
    let n := stableCount st + 1 in
    if 4 <=? n then Return cleaned
    else Again {| stableCount := n; lastSize := lastSize st;
                  lastOutput := lastOutput st |}
  else
    Again {| stableCount := 0; lastSize := currentSize; lastOutput := cleaned |}.

(** The keys sent once the operator has chosen: the Gemini class
    always adds enter, the Claude class only after another key. *)
Definition sendUserChoice (a : AgentType) (userChoice : string) : M unit :=
  do! sendKey a userChoice in
  match a with
  | gemini => sendKey a "enter"
  | claude => if String.eqb userChoice "enter" then ret tt else sendKey a "enter"
  end.

(** The first statements of the [while] body: sleep, then read the
    size of the file and its text from the baseline on. *)
Definition observe (a : AgentType) (beforeSize : Z) : M (Z * string) :=
  do! sleep 500 in
  let! currentSize := getOutputSize a in
  let! currentOutput := runWslCommand (tailCommand a beforeSize) in
  ret (currentSize, cleanOutput currentOutput).

(** The rest of the body: the choice, if one is detected, then the
    stability test unless the body was left by [continue]. *)
Definition react (a : AgentType) (beforeSize currentSize : Z) (cleaned : string)
           (st : Poll) : M Turn :=
  match detectChoice a cleaned with
  | Some choice =>
      let! m := get_mode in
      match m with
      | auto =>
          do! autoRespond a choice in
          ret (Again (resetCount st))
      | interactive =>
          let! userChoice := askUserForChoice a choice in
          match userChoice with
          | Some (String c rest) =>
              do! sendUserChoice a (String c rest) in
              ret (Again (resetCount st))
          | _ => ret (settle beforeSize currentSize cleaned st)
          end
      end
  | None => ret (settle beforeSize currentSize cleaned st)
  end.

(** One turn of the [while] body. *)
Definition turn (a : AgentType) (beforeSize : Z) (st : Poll) : M Turn :=
  let! seen := observe a beforeSize in
  react a beforeSize (fst seen) (snd seen) st.

(** What follows the loop: whatever can be read on timeout. *)
Definition finalRead (a : AgentType) (beforeSize : Z) : M string :=
  let! finalOutput := runWslCommand (tailCommand a beforeSize) in
  ret (cleanOutput finalOutput).

(** The [while] loop.  Every turn sleeps for 500 ms at least, so
    [fuel] turns are more than the loop can make when
    [timeoutMs <= 500 * fuel] (lemma [poll_fuel] below). *)
Fixpoint poll (a : AgentType) (beforeSize startTime timeoutMs : Z)
         (fuel : nat) (st : Poll) : M string :=
  fun d w =>
    match fuel with
    | O => finalRead a beforeSize d w
    | S fuel' =>
        if now w - startTime <? timeoutMs then
          match turn a beforeSize st d w with
          | (Ok (Again st'), d', w') =>
              poll a beforeSize startTime timeoutMs fuel' st' d' w'
          | (Ok (Return text), d', w') => (Ok text, d', w')
          | (Throw msg, d', w') => (Throw msg, d', w')
          end
        else finalRead a beforeSize d w
    end.

Definition turnsWithin (timeoutMs : Z) : nat := S (Z.to_nat (timeoutMs / 500)).

(** The variables as they are declared before the loop. *)
Definition initialPoll (beforeSize : Z) : Poll :=
  {| stableCount := 0; lastSize := beforeSize; lastOutput := "" |}.

Definition waitForOutputWithChoiceDetection
           (a : AgentType) (beforeSize timeoutMs : Z) : M string :=
  let! startTime := dateNow in
  poll a beforeSize startTime timeoutMs (turnsWithin timeoutMs)
    (initialPoll beforeSize).

(** *** sendPrompt *)

Definition clearCommand (a : AgentType) : string :=
  "echo " +:+ dq +:+ dq +:+ " > " +:+ OUTPUT_FILE a.

Definition promptCommand (a : AgentType) (prompt : string) : string :=
  sendKeysCommand a (escapeForTmux prompt) +:+ " Enter".

(** The statements of [sendPrompt] that come before the loop. *)
Definition prepare (a : AgentType) (prompt : string) : M Z :=
  do! runWslCommand (clearCommand a) in
  let! beforeSize := getOutputSize a in
  do! runWslCommand (promptCommand a prompt) in
  ret beforeSize.

(** [if (!this.isRunning) await this.start()]; the result of [start]
    is not looked at. *)
Definition ensureStarted (a : AgentType) : M unit :=
  let! r := get_isRunning in
  if negb r then do! start a in ret tt else ret tt.

Definition sendPrompt (a : AgentType) (prompt : string) : M string :=
  do! ensureStarted a in
  try_catch
    (let! beforeSize := prepare a prompt in
     waitForOutputWithChoiceDetection a beforeSize (promptTimeout a))
    (fun msg => throw (label a +:+ " daemon error: " +:+ msg)).

End Daemon.

(** ** The one-shot process executor (CLIExecutor.ts)

    An executor object and the call of [execute] in flight on it.  The
    child process speaks through events; each handler below is the body
    of the listener that [execute] installs for that event. *)

Module CLIExecutor.

Inductive ProgressType : Type := output_t | error_t | complete_t.

Record TaskProgress : Type := {
  type : ProgressType;
  data : string;
  timestamp : Z
}.

Record ChildProcess : Type := {
  pid : Z;
  killed : bool
}.

Record t : Type := {
  command : string;
  args : list string;
  process : option ChildProcess;
  output : string;
  isRunning : bool;
  (** the timer of the call in flight, with its bound, while armed *)
  timeoutId : option Z;
  (** the promise of the call in flight, [None] while pending *)
  promise : option (Res string)
}.

Definition new (command : string) (args : list string) : t :=
  {| command := command; args := args; process := None; output := "";
     isRunning := false; timeoutId := None; promise := None |}.

(** What the events of the child process are. *)
Inductive ProcEvent : Type :=
| Stdout (chunk : string)
| Stderr (chunk : string)
| Close (code : option Z)
| SpawnError (message : string)
| TimerFired.

(** The body of [execute] up to the point where it waits for events:
    the process is spawned and the timer armed when a bound is given. *)
Definition execute (timeout : Z) (child : Z) (ex : t) : t :=
  {| command := command ex; args := args ex;
     process := Some {| pid := child; killed := false |};
     output := "";
     isRunning := true;
     timeoutId := if timeout =? 0 then None else Some timeout;
     promise := None |}.

Definition cancel (ex : t) : t :=
  match process ex with
  | Some p =>
      if isRunning ex then
        {| command := command ex; args := args ex;
           process := Some {| pid := pid p; killed := true |};
           output := output ex;
           isRunning := false;
           timeoutId := timeoutId ex;
           promise := promise ex |}
      else ex
  | None => ex
  end.

Definition append (text : string) (ex : t) : t :=
  {| command := command ex; args := args ex; process := process ex;
     output := output ex +:+ text;
     isRunning := isRunning ex; timeoutId := timeoutId ex;
     promise := promise ex |}.

(** [clearTimeout], [isRunning = false], [process = null]. *)
Definition finished (ex : t) : t :=
  {| command := command ex; args := args ex; process := None;
     output := output ex;
     isRunning := false; timeoutId := None;
     promise := promise ex |}.

Definition disarm (ex : t) : t :=
  {| command := command ex; args := args ex; process := process ex;
     output := output ex;
     isRunning := isRunning ex; timeoutId := None;
     promise := promise ex |}.

Definition showCode (code : option Z) : string :=
  match code with
  | Some n => Str.ofZ n
  | None => "null"
  end.

Definition nl : string := String "010"%char EmptyString.

Definition failureMessage (code : option Z) (buffer : string) : string :=
  "Command failed with exit code " +:+ showCode code +:+ nl +:+ buffer.

Definition timeoutMessage (ms : Z) : string :=
  "Command timed out after " +:+ Str.ofZ ms +:+ "ms".

(** A listener: the executor afterwards, the progress events emitted,
    and the call of [resolve] or [reject] it makes, if any. *)
Definition handle (ev : ProcEvent) (time : Z) (ex : t)
  : t * list TaskProgress * option (Res string) :=
  match ev with
  | Stdout text =>
      (append text ex,
       [{| type := output_t; data := text; timestamp := time |}], None)
  | Stderr text =>
      (append text ex,
       [{| type := error_t; data := text; timestamp := time |}], None)
  | Close code =>
      (finished ex,
       [{| type := complete_t; data := "Exit code: " +:+ showCode code;
           timestamp := time |}],
       Some (match code with
             | Some 0 => Ok (output ex)
             | _ => Throw (failureMessage code (output ex))
             end))
  | SpawnError message =>
      (finished ex, [], Some (Throw message))
  | TimerFired =>
      match timeoutId ex with
      | Some ms => (disarm (cancel ex), [], Some (Throw (timeoutMessage ms)))
      | None => (ex, [], None)
      end
  end.

(** A promise settles once: later calls of [resolve] and [reject] are
    ignored.  The result tells whether this call settled it. *)
Definition settle (r : option (Res string)) (ex : t) : t * option (Res string) :=
  match r, promise ex with
  | Some v, None =>
      ({| command := command ex; args := args ex; process := process ex;
          output := output ex;
          isRunning := isRunning ex; timeoutId := timeoutId ex;
          promise := Some v |}, Some v)
  | _, _ => (ex, None)
  end.

End CLIExecutor.

(** ** The task registry (TaskManager.ts)

    Task objects and executor objects are shared by reference: the
    registry's maps, the listeners installed by [executeTask] and every
    value handed to a caller name the same object.  [store] holds the
    task objects and [procs] the executor objects; a reference is an
    index into them.  Nothing is ever removed from either.

    The output channels are a presentation sink and are left out. *)

Module TaskManager.

Inductive TaskStatus : Type := pending | running | completed | failed | cancelled.

#[global] Instance TaskStatus_eq_dec : EqDecision TaskStatus.
Proof. solve_decision. Defined.

Record Task : Type := {
  id : string;
  agent : AgentType;
  prompt : string;
  status : TaskStatus;
  progress : Z;
  output : string;
  createdAt : Z;
  completedAt : option Z;
  error : option string
}.

(** An executor object together with what the closures made by
    [executeTask] for it captured: the id and the task object. *)
Record Proc : Type := {
  executor : CLIExecutor.t;
  forId : string;
  forTask : nat
}.

Inductive Notification : Type :=
| tasksChanged
| taskProgress (taskId : string) (p : CLIExecutor.TaskProgress).

Record TaskManager : Type := {
  store : list Task;
  procs : list Proc;
  (** [Map<string, Task>], in insertion order *)
  tasks : list (string * nat);
  (** [Map<string, CLIExecutor>] *)
  executors : gmap string nat;
  taskIdCounter : Z;
  (** what [emit] was called with, oldest first *)
  emitted : list Notification
}.

Definition empty : TaskManager :=
  {| store := []; procs := []; tasks := []; executors := ∅;
     taskIdCounter := 0; emitted := [] |}.

(** The configuration read by [executeTask]. *)
Record Config : Type := {
  useDaemon : bool;
  claudePath : string;
  geminiPath : string
}.

(** *** Field updates *)

Definition with_store (f : list Task -> list Task) (tm : TaskManager) : TaskManager :=
  {| store := f (store tm); procs := procs tm; tasks := tasks tm;
     executors := executors tm; taskIdCounter := taskIdCounter tm;
     emitted := emitted tm |}.

Definition with_procs (f : list Proc -> list Proc) (tm : TaskManager) : TaskManager :=
  {| store := store tm; procs := f (procs tm); tasks := tasks tm;
     executors := executors tm; taskIdCounter := taskIdCounter tm;
     emitted := emitted tm |}.

Definition with_executors (f : gmap string nat -> gmap string nat) (tm : TaskManager)
  : TaskManager :=
  {| store := store tm; procs := procs tm; tasks := tasks tm;
     executors := f (executors tm); taskIdCounter := taskIdCounter tm;
     emitted := emitted tm |}.

Definition emit (n : Notification) (tm : TaskManager) : TaskManager :=
  {| store := store tm; procs := procs tm; tasks := tasks tm;
     executors := executors tm; taskIdCounter := taskIdCounter tm;
     emitted := emitted tm ++ [n] |}.

(** An assignment to fields of the task object at [l]. *)
Definition update (l : nat) (f : Task -> Task) : TaskManager -> TaskManager :=
  with_store (alter f l).

Definition set_status (s : TaskStatus) (t : Task) : Task :=
  {| id := id t; agent := agent t; prompt := prompt t; status := s;
     progress := progress t; output := output t; createdAt := createdAt t;
     completedAt := completedAt t; error := error t |}.

Definition set_progress (p : Z) (t : Task) : Task :=
  {| id := id t; agent := agent t; prompt := prompt t; status := status t;
     progress := p; output := output t; createdAt := createdAt t;
     completedAt := completedAt t; error := error t |}.

Definition set_output (o : string) (t : Task) : Task :=
  {| id := id t; agent := agent t; prompt := prompt t; status := status t;
     progress := progress t; output := o; createdAt := createdAt t;
     completedAt := completedAt t; error := error t |}.

Definition set_completedAt (time : Z) (t : Task) : Task :=
  {| id := id t; agent := agent t; prompt := prompt t; status := status t;
     progress := progress t; output := output t; createdAt := createdAt t;
     completedAt := Some time; error := error t |}.

Definition set_error (e : string) (t : Task) : Task :=
  {| id := id t; agent := agent t; prompt := prompt t; status := status t;
     progress := progress t; output := output t; createdAt := createdAt t;
     completedAt := completedAt t; error := Some e |}.

(** *** The task map *)

Fixpoint lookupTask (taskId : string) (m : list (string * nat)) : option nat :=
  match m with
  | [] => None
  | (k, l) :: m' => if String.eqb taskId k then Some l else lookupTask taskId m'
  end.

(** [Map.prototype.set]: an existing key keeps its place. *)
Fixpoint setTask (taskId : string) (l : nat) (m : list (string * nat))
  : list (string * nat) :=
  match m with
  | [] => [(taskId, l)]
  | (k, l') :: m' =>
      if String.eqb taskId k then (k, l) :: m' else (k, l') :: setTask taskId l m'
  end.

(** *** createTask *)

Definition generateTaskId (time : Z) (tm : TaskManager) : string * TaskManager :=
  let n := taskIdCounter tm + 1 in
  ("task-" +:+ Str.ofZ n +:+ "-" +:+ Str.ofZ time,
   {| store := store tm; procs := procs tm; tasks := tasks tm;
      executors := executors tm; taskIdCounter := n; emitted := emitted tm |}).

(** Returns the task object itself: the reference that the map holds.
    The clock is read twice, for the id and for [createdAt]. *)
Definition createTask (a : AgentType) (text : string) (idTime createdTime : Z)
           (tm : TaskManager) : nat * TaskManager :=
  let '(taskId, tm1) := generateTaskId idTime tm in
  let task :=
    {| id := taskId; agent := a; prompt := text; status := pending;
       progress := 0; output := ""; createdAt := createdTime;
       completedAt := None; error := None |} in
  let l := length (store tm1) in
  (l,
   emit tasksChanged
     {| store := store tm1 ++ [task]; procs := procs tm1;
        tasks := setTask taskId l (tasks tm1);
        executors := executors tm1; taskIdCounter := taskIdCounter tm1;
        emitted := emitted tm1 |}).

(** *** executeTask *)

Definition buildArgs (a : AgentType) (text : string) : list string :=
  match a with
  | claude => [text; "-p"; "--output-format"; "text"]
  | gemini => ["-p"; text; "--output-format"; "stream-json"; "--yolo"]
  end.

(** What a call of [executeTask] waits for after its first part: the
    [sendPrompt] of an agent's daemon, or the executor it made. *)
Inductive Awaiting : Type :=
| AwaitDaemon (a : AgentType) (text : string) (taskId : string) (task : nat)
| AwaitExecutor (e : nat).

Definition executeTimeout : Z := 5 * 60 * 1000.

(** [executeTask] up to its [await].  [child] is the process that
    [spawn] creates when the executor is used. *)
Definition executeTask_begin (taskId : string) (cfg : Config) (child : Z)
           (tm : TaskManager) : Res Awaiting * TaskManager :=
  match lookupTask taskId (tasks tm) with
  | None => (Throw ("Task " +:+ taskId +:+ " not found"), tm)
  | Some l =>
      let tm1 := emit tasksChanged (update l (set_status running) tm) in
      match store tm1 !! l with
      | None =>
          (* no object behind the reference: the map holds no such one *)
          (Throw ("Task " +:+ taskId +:+ " not found"), tm)
      | Some task =>
          if useDaemon cfg then
            (Ok (AwaitDaemon (agent task) (prompt task) taskId l), tm1)
          else
            let command :=
              match agent task with
              | claude => claudePath cfg
              | gemini => geminiPath cfg
              end in
            let ex := CLIExecutor.new command (buildArgs (agent task) (prompt task)) in
            let e := length (procs tm1) in
            let p := {| executor := CLIExecutor.execute executeTimeout child ex;
                        forId := taskId; forTask := l |} in
            (Ok (AwaitExecutor e),
             with_executors <[taskId := e]> (with_procs (fun ps => (ps ++ [p])%list) tm1))
      end
  end.

(** The progress listener that [executeTask] puts on its executor. *)
Definition onProgress (taskId : string) (l : nat) (p : CLIExecutor.TaskProgress)
           (tm : TaskManager) : TaskManager :=
  let tm1 := update l (fun t => set_output (output t +:+ CLIExecutor.data p) t) tm in
  let tm2 :=
    match CLIExecutor.type p with
    | CLIExecutor.output_t =>
        update l (fun t => set_progress (Z.min (progress t + 5) 95) t) tm1
    | _ => tm1
    end in
  emit tasksChanged (emit (taskProgress taskId p) tm2).

(** [executeTask] after its [await]: the rest of the [try] block or
    the [catch] block, then the [finally] block.  The result is how
    the promise returned by [executeTask] settles. *)
Definition executeTask_end (taskId : string) (l : nat) (r : Res string) (time : Z)
           (tm : TaskManager) : Res string * TaskManager :=
  let tm1 :=
    match r with
    | Ok result =>
        emit tasksChanged
          (update l (fun t =>
             set_completedAt time
               (set_progress 100 (set_status completed (set_output result t)))) tm)
    | Throw message =>
        emit tasksChanged
          (update l (fun t =>
             set_completedAt time (set_error message (set_status failed t))) tm)
    end in
  (r, with_executors (delete taskId) tm1).

(** An event of the child process of the executor [e] arrives: the
    executor's listener runs at [time], the progress events it emits
    reach the registry's listener, and if the promise of [execute]
    settles, the call of [executeTask] that awaits it goes on, at
    [doneAt].  The result is the settlement of that call's promise, if
    it settles now. *)
Definition deliver (e : nat) (ev : CLIExecutor.ProcEvent) (time doneAt : Z)
           (tm : TaskManager) : option (Res string) * TaskManager :=
  match procs tm !! e with
  | None => (None, tm)
  | Some p =>
      let '(ex1, emits, attempt) := CLIExecutor.handle ev time (executor p) in
      let '(ex2, settled) := CLIExecutor.settle attempt ex1 in
      let p' := {| executor := ex2; forId := forId p; forTask := forTask p |} in
      let tm1 := with_procs <[e := p']> tm in
      let tm2 := foldl (fun acc pr => onProgress (forId p) (forTask p) pr acc) tm1 emits in
      match settled with
      | Some r =>
          let '(r', tm3) := executeTask_end (forId p) (forTask p) r doneAt tm2 in
          (Some r', tm3)
      | None => (None, tm2)
      end
  end.

(** *** cancelTask *)

Definition cancelTask (taskId : string) (time : Z) (tm : TaskManager)
  : bool * TaskManager :=
  match executors tm !! taskId, lookupTask taskId (tasks tm) with
  | Some e, Some l =>
      let tm1 :=
        with_procs
          (alter (fun p => {| executor := CLIExecutor.cancel (executor p);
                              forId := forId p; forTask := forTask p |}) e) tm in
      let tm2 := update l (fun t => set_completedAt time (set_status cancelled t)) tm1 in
      (true, emit tasksChanged (with_executors (delete taskId) tm2))
  | _, _ => (false, tm)
  end.

(** *** Queries: each returns references to the task objects *)

Definition getTask (taskId : string) (tm : TaskManager) : option nat :=
  lookupTask taskId (tasks tm).

Definition getAllTasks (tm : TaskManager) : list nat :=
  (tasks tm).*2.

Definition statusOf (tm : TaskManager) (l : nat) : option TaskStatus :=
  status <$> store tm !! l.

Definition getRunningTasks (tm : TaskManager) : list nat :=
  filter (fun l => statusOf tm l = Some running) (getAllTasks tm).

Definition getCompletedTasks (tm : TaskManager) : list nat :=
  filter (fun l => statusOf tm l = Some completed
                   ∨ statusOf tm l = Some failed
                   ∨ statusOf tm l = Some cancelled) (getAllTasks tm).

(** Reading a task object through a reference. *)
Definition read (tm : TaskManager) (l : nat) : option Task := store tm !! l.

(** *** dispose *)

(** Every tracked executor is cancelled and the map is cleared.  The
    source also disposes of the output channels here; they are not part
    of the model, and neither is what an append to a disposed channel
    does to a listener that runs after [dispose]. *)
Definition dispose (tm : TaskManager) : TaskManager :=
  let cancelled_procs :=
    map_fold (fun _ e ps =>
                alter (fun p => {| executor := CLIExecutor.cancel (executor p);
                                   forId := forId p; forTask := forTask p |}) e ps)
             (procs tm) (executors tm) in
  with_executors (fun _ => ∅) (with_procs (fun _ => cancelled_procs) tm).

End TaskManager.

(** ** A task handed to a daemon

    What a call of [executeTask] that waits for a daemon does when
    nothing else happens in between: the prompt goes to the daemon of
    the task's agent, whose fields are [d], and what [sendPrompt]
    returns or throws ends the task, at [doneAt]. *)
Definition executeTask_daemon (a : AgentType) (text taskId : string) (l : nat)
           (doneAt : Z) (tm : TaskManager.TaskManager)
           (d : Daemon.Daemon) (w : Daemon.World)
  : Res string * TaskManager.TaskManager * Daemon.Daemon * Daemon.World :=
  let '(r, d', w') := Daemon.sendPrompt a text d w in
  let '(r', tm') := TaskManager.executeTask_end taskId l r doneAt tm in
  (r', tm', d', w').

(** ** The callers of the registry (InputPanelProvider.ts,
       TaskTreeProvider.ts and the activation code)

    What they do with the registry; the messages to the webview and the
    tree items' decoration are presentation and are left out. *)

(** [Array.prototype.sort] with a comparison function, where
    [cmp a b > 0] puts [a] after [b].  The sort is stable, so for a
    consistent comparison function the result does not depend on the
    algorithm; this one inserts each element into the sorted rest. *)
Module JsArray.

Fixpoint insertBy {A} (cmp : A -> A -> Z) (x : A) (l : list A) : list A :=
  match l with
  | [] => [x]
  | y :: l' => if 0 <? cmp x y then y :: insertBy cmp x l' else x :: l
  end.

Fixpoint sort {A} (cmp : A -> A -> Z) (l : list A) : list A :=
  match l with
  | [] => []
  | x :: l' => insertBy cmp x (sort cmp l')
  end.

End JsArray.

Module TaskTreeItem.

(** The label of a tree item: the first 50 characters of the prompt,
    and an ellipsis when there are more. *)
Definition label (task : TaskManager.Task) : string :=
  String.substring 0 50 (TaskManager.prompt task)
  +:+ (if (50 <? String.length (TaskManager.prompt task))%nat then "..." else "").

End TaskTreeItem.

(** [task.createdAt.getTime()] through a reference. *)
Definition createdTime (tm : TaskManager.TaskManager) (task : nat) : Z :=
  default 0 (TaskManager.createdAt <$> TaskManager.read tm task).

Module TaskTreeProvider.

(** The root's children: all tasks, newest first. *)
Definition getChildren (tm : TaskManager.TaskManager) : list nat :=
  JsArray.sort (fun a b => createdTime tm b - createdTime tm a)
    (TaskManager.getAllTasks tm).

End TaskTreeProvider.

(** [activate]: one [TaskTreeProvider] is made and registered for both
    views of tasks.  The classes [RunningTasksProvider] and
    [TaskHistoryProvider] are not instantiated; the third view, of the
    automations, has a provider of its own, which does not list tasks. *)
Module Extension.

(** The views of tasks, each with the [getChildren] of the provider
    registered for it. *)
Definition treeDataProviders : list (string * (TaskManager.TaskManager -> list nat)) :=
  [("multiAgent.runningTasks", TaskTreeProvider.getChildren);
   ("multiAgent.taskHistory", TaskTreeProvider.getChildren)].

(** What a view of tasks lists at its root. *)
Definition rootItems (viewId : string) (tm : TaskManager.TaskManager)
  : option (list nat) :=
  (fun p => p.2 tm) <$> List.find (fun p => String.eqb p.1 viewId) treeDataProviders.

End Extension.

Module InputPanelProvider.

(** [task.id] through a reference. *)
Definition idOf (tm : TaskManager.TaskManager) (task : nat) : string :=
  default "" (TaskManager.id <$> TaskManager.read tm task).

(** [_runTask] up to the point where [executeTask] waits: nothing is
    created for a prompt that [trim] empties.  The result is the task
    and how the call of [executeTask] went on. *)
Definition _runTask (a : AgentType) (prompt : string) (idTime createdAt : Z)
           (cfg : TaskManager.Config) (child : Z) (tm : TaskManager.TaskManager)
  : option (nat * Res TaskManager.Awaiting) * TaskManager.TaskManager :=
  if String.eqb (Str.trim prompt) "" then (None, tm)
  else
    let '(task, tm1) := TaskManager.createTask a prompt idTime createdAt tm in
    let '(r, tm2) := TaskManager.executeTask_begin (idOf tm1 task) cfg child tm1 in
    (Some (task, r), tm2).

(** [_runBoth]: both tasks are created before either is executed. *)
Definition _runBoth (prompt : string) (idTime1 createdAt1 idTime2 createdAt2 : Z)
           (cfg : TaskManager.Config) (child1 child2 : Z) (tm : TaskManager.TaskManager)
  : option ((nat * Res TaskManager.Awaiting) * (nat * Res TaskManager.Awaiting))
    * TaskManager.TaskManager :=
  if String.eqb (Str.trim prompt) "" then (None, tm)
  else
    let '(claudeTask, tm1) := TaskManager.createTask claude prompt idTime1 createdAt1 tm in
    let '(geminiTask, tm2) := TaskManager.createTask gemini prompt idTime2 createdAt2 tm1 in
    let '(r1, tm3) := TaskManager.executeTask_begin (idOf tm2 claudeTask) cfg child1 tm2 in
    let '(r2, tm4) := TaskManager.executeTask_begin (idOf tm3 geminiTask) cfg child2 tm3 in
    (Some ((claudeTask, r1), (geminiTask, r2)), tm4).

(** The messages that the script of the panel posts to run agents. *)
Inductive Message : Type :=
| runClaude (prompt : string)
| runGemini (prompt : string)
| runBoth (prompt : string).

(** The value of the radio button of an agent. *)
Definition radioValue (a : AgentType) : string :=
  match a with claude => "claude" | gemini => "gemini" end.

(** [send] in the script of the panel, for the text [value] of the text
    area and the value [selected] of the radio button that is checked:
    the text is trimmed, and nothing is posted when nothing is left. *)
Definition send (selected : string) (value : string) : option Message :=
  let prompt := Str.trim value in
  if String.eqb prompt "" then None
  else if String.eqb selected "claude" then Some (runClaude prompt)
  else if String.eqb selected "gemini" then Some (runGemini prompt)
  else Some (runBoth prompt).

(** What the handler of the panel's messages has run. *)
Inductive Ran : Type :=
| ranOne (r : option (nat * Res TaskManager.Awaiting))
| ranBoth (r : option ((nat * Res TaskManager.Awaiting)
                       * (nat * Res TaskManager.Awaiting))).

(** The handler of [onDidReceiveMessage], for the messages that run
    agents. *)
Definition onDidReceiveMessage (data : Message)
           (idTime1 createdAt1 idTime2 createdAt2 : Z)
           (cfg : TaskManager.Config) (child1 child2 : Z) (tm : TaskManager.TaskManager)
  : Ran * TaskManager.TaskManager :=
  match data with
  | runClaude prompt =>
      let '(r, tm') := _runTask claude prompt idTime1 createdAt1 cfg child1 tm in
      (ranOne r, tm')
  | runGemini prompt =>
      let '(r, tm') := _runTask gemini prompt idTime1 createdAt1 cfg child1 tm in
      (ranOne r, tm')
  | runBoth prompt =>
      let '(r, tm') :=
        _runBoth prompt idTime1 createdAt1 idTime2 createdAt2 cfg child1 child2 tm in
      (ranBoth r, tm')
  end.

End InputPanelProvider.

(** * Vocabulary of the statements *)

Import Daemon.

(** The same text up to the case of ASCII letters. *)
Definition sameLetters (s t : string) : Prop :=
  Str.toLowerCase s = Str.toLowerCase t.

(** A yes/no pattern: y/n in parentheses or in brackets, in any case.
    These are the ones that [detectChoice] tests; the phrase yes/no
    stands only in an array of the Gemini class that is never read. *)
Definition yesNoPattern (pat : string) : Prop :=
  sameLetters pat "(y/n)" \/ sameLetters pat "[y/n]".

(** Three numbered lines. *)
Definition threeLines : string :=
  "1) a" +:+ CLIExecutor.nl +:+ "2) b" +:+ CLIExecutor.nl +:+ "3) c".

(** Text in which none of the patterns of an agent's [detectChoice]
    occurs. *)
Definition noPattern (a : AgentType) (text : string) : bool :=
  negb (hasYesNo text)
  && match a with
     | claude => negb (Regex.test re_allow text && Regex.test re_question text)
     | gemini => true
     end
  && (length (Regex.scan re_numbered 0 true text) <? 2)%nat
  && negb (Regex.test (re_enter a) text).

(** Sending keys one after the other. *)
Fixpoint sendKeys (a : AgentType) (keys : list string) : M unit :=
  match keys with
  | [] => ret tt
  | [key] => sendKey a key
  | key :: keys' => do! sendKey a key in sendKeys a keys'
  end.

(** The keys of the automatic response, by preference. *)
Definition preferred (opts : list string) : list string :=
  if has opts "y" then ["y"; "enter"]
  else if has opts "enter" then ["enter"]
  else [hd "" opts; "enter"].

(** The command lines that sending [keys] hands to [execSync]. *)
Definition keystrokes (a : AgentType) (keys : list string) : list string :=
  (fun key => wslLine (sendKeysCommand a (tmuxKey a key))) <$> keys.

(** What [runWslCommand] returns for an outcome of [execSync], if it
    returns. *)
Definition readable (o : ExecOutcome) : option string :=
  match o with
  | ExecOk out => Some out
  | ExecErr EmptyString _ => None
  | ExecErr out _ => Some out
  end.

(** The loop makes [n] turns, none of which returns or throws: where it
    stands afterwards. *)
Fixpoint steps (a : AgentType) (beforeSize startTime timeoutMs : Z) (n : nat)
         (st : Poll) (d : Daemon) (w : World) : option (Poll * Daemon * World) :=
  match n with
  | O => Some (st, d, w)
  | S n' =>
      if now w - startTime <? timeoutMs then
        match turn a beforeSize st d w with
        | (Ok (Again st'), d', w') => steps a beforeSize startTime timeoutMs n' st' d' w'
        | _ => None
        end
      else None
  end.

(** [k] turns in a row start within the bound and read the same size
    and the same cleaned text: the world afterwards. *)
Fixpoint calm (a : AgentType) (beforeSize startTime timeoutMs : Z)
         (size : Z) (text : string) (k : nat) (d : Daemon) (w : World)
  : option World :=
  match k with
  | O => Some w
  | S k' =>
      if now w - startTime <? timeoutMs then
        match observe a beforeSize d w with
        | (Ok (size', text'), _, w') =>
            if (size' =? size) && String.eqb text' text
            then calm a beforeSize startTime timeoutMs size text k' d w'
            else None
        | _ => None
        end
      else None
  end.

(** A world that answers from a script, then with [dflt]; no timer is
    late. *)
Definition scripted (script : list ExecOutcome) (dflt : ExecOutcome)
           (picks : list (option nat)) : World :=
  {| now := 0;
     exec_out := fun k => nth k script dflt; exec_n := 0;
     lag := fun _ => 0%N; sleep_n := 0;
     pick := fun k => nth k picks None; pick_n := 0;
     issued := [] |}.

(** Process events that carry output. *)
Definition chunkOf (ev : CLIExecutor.ProcEvent) : option string :=
  match ev with
  | CLIExecutor.Stdout text | CLIExecutor.Stderr text => Some text
  | _ => None
  end.

Definition isChunk (ev : CLIExecutor.ProcEvent) : bool :=
  match chunkOf ev with Some _ => true | None => false end.

(** The text of a sequence of events, in arrival order. *)
Fixpoint textOf (evs : list (CLIExecutor.ProcEvent * Z)) : string :=
  match evs with
  | [] => ""
  | (ev, _) :: evs' => default "" (chunkOf ev) +:+ textOf evs'
  end.

(** The events of [evs], each with its time, arrive at executor [e]. *)
Definition feed (e : nat) (evs : list (CLIExecutor.ProcEvent * Z))
           (tm : TaskManager.TaskManager) : TaskManager.TaskManager :=
  foldl (fun acc ev => snd (TaskManager.deliver e (fst ev) (snd ev) (snd ev) acc)) tm evs.

(** A caller assigns to fields of a task object that it was handed. *)
Definition callerWrites (l : nat) (f : TaskManager.Task -> TaskManager.Task)
  : TaskManager.TaskManager -> TaskManager.TaskManager :=
  TaskManager.update l f.

Definition cliConfig : TaskManager.Config :=
  {| TaskManager.useDaemon := false;
     TaskManager.claudePath := "claude";
     TaskManager.geminiPath := "gemini" |}.

Definition daemonConfig : TaskManager.Config :=
  {| TaskManager.useDaemon := true;
     TaskManager.claudePath := "claude";
     TaskManager.geminiPath := "gemini" |}.

(** Whether a command of [start] throws: the listing, or the creation
    when the session is not listed. *)
Definition startFails (a : AgentType) (w : World) : bool :=
  match readable (exec_out w (exec_n w)) with
  | None => true
  | Some sessions =>
      if Str.includes sessions (SESSION_NAME a) then false
      else
        match readable (exec_out w (S (exec_n w))) with
        | None => true
        | Some _ => false
        end
  end.

(** A method that leaves the clock alone. *)
Definition timeless {A} (m : M A) : Prop :=
  forall d w, now (snd (m d w)) = now w.

(** A daemon whose session is up, in auto mode. *)
Definition up : Daemon := {| isRunning := true; mode := auto |}.
(** The tool never writes anything: the file holds the one byte that
    clearing it leaves. *)
Definition silent : World := scripted [ExecOk ""; ExecOk "1"] (ExecOk "") [].

(** The tool never writes anything, and when the loop has timed out the
    command that reads the file fails without output: it is the 244th
    command, after the three that prepare and send the prompt and the
    two of each of the 120 turns. *)
Definition cutOff : World :=
  scripted ([ExecOk ""; ExecOk "1"] ++ replicate 241 (ExecOk ""))%list
           (ExecErr "" "spawnSync wsl ETIMEDOUT") [].

(** The tool is silent for one turn, then its output has grown to six
    bytes and stays as it is. *)
Definition answering : World :=
  scripted ([ExecOk ""; ExecOk "1"; ExecOk ""]
            ++ [ExecOk "1"; ExecOk ""]
            ++ concat (replicate 5 [ExecOk "6"; ExecOk "done"]))%list (ExecOk "") [].

(** A world in which every command succeeds without output. *)
Definition asking : World :=
  scripted [ExecOk ""; ExecOk ""] (ExecOk "") [].

(** The executor [e] serves the task object [l] under the id [taskId],
    its promise is pending, it has buffered [buf], and the task's output
    is [out]. *)
Definition live (e : nat) (taskId : string) (l : nat) (buf out : string)
           (tm : TaskManager.TaskManager) : Prop :=
  exists p t,
    TaskManager.procs tm !! e = Some p
    /\ TaskManager.forId p = taskId
    /\ TaskManager.forTask p = l
    /\ CLIExecutor.output (TaskManager.executor p) = buf
    /\ CLIExecutor.promise (TaskManager.executor p) = None
    /\ TaskManager.store tm !! l = Some t
    /\ TaskManager.output t = out.

(** The registry after one call of [createTask] with the prompt hello
    at time 1000, and the id that the task got. *)
Definition oneTask (a : AgentType) : TaskManager.TaskManager :=
  snd (TaskManager.createTask a "hello" 1000 1000 TaskManager.empty).
Definition firstId : string := "task-1-1000".

(** That task handed to its daemon. *)
Definition daemon1 : TaskManager.TaskManager :=
  snd (TaskManager.executeTask_begin firstId daemonConfig 42 (oneTask gemini)).

(** Whether a character with the property [p] occurs in [s]. *)
Fixpoint hasChar (p : ascii -> bool) (s : string) : bool :=
  match s with
  | EmptyString => false
  | String c s' => p c || hasChar p s'
  end.

(** The 256 characters. *)
Definition allChars : list ascii := ascii_of_nat <$> seq 0 256.

(** Every character accepted by [q] has the property [p]. *)
Definition within (q p : ascii -> bool) : bool :=
  forallb (fun c => implb (q c) (p c)) allChars.

(** Every match of [r] takes at least one character with the property
    [p]; a sufficient test on the shape of [r]. *)
Fixpoint needs (p : ascii -> bool) (r : Regex.regex) : bool :=
  match r with
  | Regex.Chr q => within q p
  | Regex.Seq r1 r2 => needs p r1 || needs p r2
  | Regex.Alt r1 r2 => needs p r1 && needs p r2
  | _ => false
  end.

(** Plain prose: no digit, slash or question mark, and nowhere the word
    enter, in any case. *)
Definition marks (c : ascii) : bool :=
  Str.isDigit c || Ascii.eqb c "/" || Ascii.eqb c "?".

Definition plain (text : string) : Prop :=
  hasChar marks text = false
  /\ Str.includes (Str.toLowerCase text) "enter" = false.

(** What a successful run means: the continuation succeeded on what
    is left after some prefix, which holds a character with the
    property [p] when that is needed. *)
Definition took {A} (p : ascii -> bool) (need : bool) (k : @Regex.cont A)
           (s : string) (x : A) : Prop :=
  exists bol' pre s',
    s = pre +:+ s' /\ k bol' s' = Some x
    /\ (need = true -> hasChar p pre = true).

(** ** Vocabulary of the further properties: text *)

(** A replacement made character by character. *)
Fixpoint mapChars (f : ascii -> string) (s : string) : string :=
  match s with
  | EmptyString => EmptyString
  | String c s' => f c +:+ mapChars f s'
  end.

(** The characters that [escapeForTmux] protects: backslash, double
    quote, dollar and backquote. *)
Definition special (c : ascii) : bool :=
  Ascii.eqb c "092" || Ascii.eqb c "034" || Ascii.eqb c "$" || Ascii.eqb c "`".

(** What [escapeForTmux] makes of one character. *)
Definition escaped (c : ascii) : string :=
  if special c then String "092" (String c EmptyString) else String c EmptyString.

(** Reading a protected text back: a backslash in front of a protected
    character stands for that character. *)
Fixpoint unquote (s : string) : string :=
  match s with
  | EmptyString => EmptyString
  | String c s' =>
      if Ascii.eqb c "092" then
        match s' with
        | String c2 s'' =>
            if special c2 then String c2 (unquote s'') else String c (unquote s')
        | EmptyString => String c EmptyString
        end
      else String c (unquote s')
  end.

(** Whether the first character of [s], if there is one, has the
    property [p]; and the same for the last. *)
Definition firstIs (p : ascii -> bool) (s : string) : bool :=
  match s with
  | String c _ => p c
  | EmptyString => false
  end.

Fixpoint lastIs (p : ascii -> bool) (s : string) : bool :=
  match s with
  | EmptyString => false
  | String c EmptyString => p c
  | String _ s' => lastIs p s'
  end.

(** White space only. *)
Definition blank (s : string) : Prop :=
  hasChar (fun c => negb (Str.isSpace c)) s = false.

(** The number that the digits of [d] denote after the digits that
    gave [acc]. *)
Fixpoint valueOf (d : uint) (acc : Z) : Z :=
  match d with
  | Nil => acc
  | D0 d' => valueOf d' (10 * acc + 0)
  | D1 d' => valueOf d' (10 * acc + 1)
  | D2 d' => valueOf d' (10 * acc + 2)
  | D3 d' => valueOf d' (10 * acc + 3)
  | D4 d' => valueOf d' (10 * acc + 4)
  | D5 d' => valueOf d' (10 * acc + 5)
  | D6 d' => valueOf d' (10 * acc + 6)
  | D7 d' => valueOf d' (10 * acc + 7)
  | D8 d' => valueOf d' (10 * acc + 8)
  | D9 d' => valueOf d' (10 * acc + 9)
  end.

(** ESC and CR, the characters that [cleanOutput] looks for. *)
Definition ctl (c : ascii) : bool := Ascii.eqb "027" c || Ascii.eqb "013" c.

(** ** Vocabulary of the further properties: the daemons *)

(** The keys that [sendUserChoice] sends for the operator's answer. *)
Definition answerKeys (a : AgentType) (key : string) : list string :=
  match a with
  | gemini => [key; "enter"]
  | claude => if String.eqb key "enter" then ["enter"] else [key; "enter"]
  end.

(** A world whose first command throws. *)
Definition broken : World := scripted [ExecErr "" "boom"] (ExecOk "") [].

(** A world in which every command succeeds without output and the
    operator picks the first item of the first dialog. *)
Definition confirming : World := scripted [] (ExecOk "") [Some 0%nat].

(** A daemon whose session is up, with the operator at the dialogs. *)
Definition attended : Daemon := {| isRunning := true; mode := interactive |}.

(** A method that leaves the daemon's fields alone. *)
Definition fixed {A} (m : M A) : Prop :=
  forall d w, snd (fst (m d w)) = d.

(** A method that keeps the mode and never turns the clock back. *)
Definition forward {A} (m : M A) : Prop :=
  forall d w, mode (snd (fst (m d w))) = mode d /\ now w <= now (snd (m d w)).

(** ** Vocabulary of the further properties: the registry *)

(** The executor [e] was made by [executeTask] for the task object [l]
    under the id [taskId] and is still tracked: its process [child]
    runs, its timer is armed with [ms], its promise is pending, it has
    buffered [buf], and the task object reads [t]. *)
Definition serving (e : nat) (taskId : string) (l : nat) (child ms : Z) (buf : string)
           (t : TaskManager.Task) (tm : TaskManager.TaskManager) : Prop :=
  exists cmd args,
    TaskManager.procs tm !! e
    = Some {| TaskManager.executor :=
                {| CLIExecutor.command := cmd; CLIExecutor.args := args;
                   CLIExecutor.process :=
                     Some {| CLIExecutor.pid := child; CLIExecutor.killed := false |};
                   CLIExecutor.output := buf; CLIExecutor.isRunning := true;
                   CLIExecutor.timeoutId := Some ms; CLIExecutor.promise := None |};
              TaskManager.forId := taskId; TaskManager.forTask := l |}
    /\ TaskManager.store tm !! l = Some t
    /\ TaskManager.executors tm !! taskId = Some e
    /\ TaskManager.lookupTask taskId (TaskManager.tasks tm) = Some l.

(** What the progress listener makes of a task when a chunk arrives. *)
Definition absorb (t : TaskManager.Task) (ev : CLIExecutor.ProcEvent) : TaskManager.Task :=
  match ev with
  | CLIExecutor.Stdout text =>
      TaskManager.set_progress (Z.min (TaskManager.progress t + 5) 95)
        (TaskManager.set_output (TaskManager.output t +:+ text) t)
  | CLIExecutor.Stderr text =>
      TaskManager.set_output (TaskManager.output t +:+ text) t
  | _ => t
  end.

(** Chunks on standard output. *)
Definition isStdout (ev : CLIExecutor.ProcEvent) : bool :=
  match ev with CLIExecutor.Stdout _ => true | _ => false end.

(** The number of chunks of [evs] that came on standard output. *)
Definition stdoutCount (evs : list (CLIExecutor.ProcEvent * Z)) : Z :=
  Z.of_nat (length (filter (fun ev => isStdout ev = true) evs.*1)).

(** How a task ended, as far as it is recorded: the fields that only
    [executeTask] and [cancelTask] assign. *)
Definition outcome (t : TaskManager.Task)
  : TaskManager.TaskStatus * option string * option Z :=
  (TaskManager.status t, TaskManager.error t, TaskManager.completedAt t).

(** The promise of the call in flight on the executor [e] has settled
    with [v]. *)
Definition settledWith (e : nat) (v : Res string) (tm : TaskManager.TaskManager) : Prop :=
  exists p,
    TaskManager.procs tm !! e = Some p
    /\ CLIExecutor.promise (TaskManager.executor p) = Some v.

(** The task hello of [oneTask], as created. *)
Definition helloTask (a : AgentType) : TaskManager.Task :=
  {| TaskManager.id := firstId; TaskManager.agent := a;
     TaskManager.prompt := "hello"; TaskManager.status := TaskManager.pending;
     TaskManager.progress := 0; TaskManager.output := "";
     TaskManager.createdAt := 1000; TaskManager.completedAt := None;
     TaskManager.error := None |}.

(** The registry after the task hello was executed, its process wrote
    hi and exited with code 0. *)
Definition finished1 : TaskManager.TaskManager :=
  snd (TaskManager.deliver 0 (CLIExecutor.Close (Some 0)) 1002 1003
         (feed 0 [(CLIExecutor.Stdout "hi", 1001)]
            (snd (TaskManager.executeTask_begin firstId cliConfig 42 (oneTask claude))))).

(** What [cancelTask] and [dispose] do to an executor object. *)
Definition cancelProc (p : TaskManager.Proc) : TaskManager.Proc :=
  {| TaskManager.executor := CLIExecutor.cancel (TaskManager.executor p);
     TaskManager.forId := TaskManager.forId p;
     TaskManager.forTask := TaskManager.forTask p |}.

(** The registry after the task hello was handed to an executor. *)
Definition running1 : TaskManager.TaskManager :=
  snd (TaskManager.executeTask_begin firstId cliConfig 42 (oneTask claude)).

(** The counter value inside an id [task-<n>-<time>]. *)
Definition idNumber (taskId : string) : option Z :=
  match taskId with
  | String "t" (String "a" (String "s" (String "k" (String "-" rest)))) =>
      Str.parseInt rest
  | _ => None
  end.

(** Every id in the task map carries a counter value that was handed
    out, and every reference in it names a task object. *)
Definition wellFormed (tm : TaskManager.TaskManager) : Prop :=
  forall k l,
    (k, l) ∈ TaskManager.tasks tm ->
    (exists n, idNumber k = Some n /\ n <= TaskManager.taskIdCounter tm)
    /\ (l < length (TaskManager.store tm))%nat.

(** One operation on the registry: a call of one of its methods, an
    event of a process, the end of a call that waited for a daemon, or,
    when [free] is set, a caller's write to a task it was handed. *)
Inductive Step (free : bool) : TaskManager.TaskManager -> TaskManager.TaskManager -> Prop :=
| step_create a text idTime createdAt tm :
    Step free tm (snd (TaskManager.createTask a text idTime createdAt tm))
| step_begin taskId cfg child tm :
    Step free tm (snd (TaskManager.executeTask_begin taskId cfg child tm))
| step_deliver e ev time doneAt tm :
    Step free tm (snd (TaskManager.deliver e ev time doneAt tm))
| step_daemon a text taskId l doneAt tm d w :
    Step free tm (snd (fst (fst (executeTask_daemon a text taskId l doneAt tm d w))))
| step_cancel taskId time tm :
    Step free tm (snd (TaskManager.cancelTask taskId time tm))
| step_dispose tm :
    Step free tm (TaskManager.dispose tm)
| step_write l f tm :
    free = true -> Step free tm (callerWrites l f tm).

(** What a new registry can become. *)
Definition reachable (free : bool) (tm : TaskManager.TaskManager) : Prop :=
  rtc (Step free) TaskManager.empty tm.

(** Characters other than white space. *)
Definition visible (c : ascii) : bool := negb (Str.isSpace c).

(** The statuses that end a task. *)
Definition ended (s : TaskManager.TaskStatus) : bool :=
  match s with
  | TaskManager.completed | TaskManager.failed | TaskManager.cancelled => true
  | _ => false
  end.

(** What the registry keeps true of a task record: the progress is a
    percentage, an ended task has its time of completion, a failed one
    its error, and a pending one is as it was created. *)
Definition goodTask (t : TaskManager.Task) : Prop :=
  0 <= TaskManager.progress t <= 100
  /\ (ended (TaskManager.status t) = true -> TaskManager.completedAt t <> None)
  /\ (TaskManager.status t = TaskManager.failed -> TaskManager.error t <> None)
  /\ (TaskManager.status t = TaskManager.pending ->
      TaskManager.progress t = 0 /\ TaskManager.output t = ""
      /\ TaskManager.completedAt t = None /\ TaskManager.error t = None).

(** Every task record is good, and every executor was made for a task
    that has left the pending status. *)
Definition sound (tm : TaskManager.TaskManager) : Prop :=
  (forall l t, TaskManager.store tm !! l = Some t -> goodTask t)
  /\ (forall e p,
        TaskManager.procs tm !! e = Some p ->
        exists t, TaskManager.store tm !! TaskManager.forTask p = Some t
                  /\ TaskManager.status t <> TaskManager.pending).

(** Goals about the fields of a record that was just built. *)
Ltac good_fields :=
  unfold goodTask; cbn;
  repeat match goal with
         | |- _ /\ _ => split
         | |- _ -> _ => intro
         end;
  try (discriminate || congruence || lia).

(** A daemon whose session is not up, in auto mode. *)
Definition stopped : Daemon := {| isRunning := false; mode := auto |}.

(** * Properties *)

(** ** Strings *)

Lemma append_assoc (s1 s2 s3 : string) : (s1 +:+ s2) +:+ s3 = s1 +:+ s2 +:+ s3.
Proof.
  induction s1 as [|c s1 IH]; [reflexivity|].
  change (String c ((s1 +:+ s2) +:+ s3) = String c (s1 +:+ s2 +:+ s3)).
  now rewrite IH.
Qed.

Lemma append_nil_r (s : string) : s +:+ "" = s.
Proof.
  induction s as [|c s IH]; [reflexivity|].
  change (String c (s +:+ "") = String c s). now rewrite IH.
Qed.

(** ** The matcher *)

(** Numbered lines are found line by line. *)
Example numbered_three_lines :
  Regex.matchAll re_numbered threeLines = Some ["1) a"; "2) b"; "3) c"].
Proof. reflexivity. Qed.

(** White space in the pattern may run over a line break: a number
    without text takes the next line as its text, in one match. *)
Example numbered_spans_a_break :
  Regex.matchAll re_numbered ("1)" +:+ CLIExecutor.nl +:+ "2) b")
  = Some ["1)" +:+ CLIExecutor.nl +:+ "2) b"].
Proof. reflexivity. Qed.

Example numbered_needs_a_separator :
  Regex.matchAll re_numbered "12 apples" = None.
Proof. reflexivity. Qed.

Example cleanOutput_strips :
  cleanOutput (String "027" "[1;31mdone" +:+ String "027" "[0m"
               +:+ String "013" "" +:+ CLIExecutor.nl +:+ "  ")
  = "done".
Proof. reflexivity. Qed.

Example escapeForTmux_quotes :
  escapeForTmux ("echo $HOME " +:+ dq +:+ "a`b" +:+ dq)
  = "echo " +:+ bs +:+ "$HOME " +:+ bs +:+ dq +:+ "a" +:+ bs +:+ "`b" +:+ bs +:+ dq.
Proof. reflexivity. Qed.

Example parseInt_prefix :
  Str.parseInt "42 bytes" = Some 42%Z /\ Str.parseInt "" = None.
Proof. split; reflexivity. Qed.

Lemma run_lit_ci {A} (w : string) :
  forall pat : string, sameLetters pat w ->
  forall (k : @Regex.cont A) bol post,
    exists bol', Regex.run (Regex.lit true w) k bol (pat +:+ post) = k bol' post.
Proof.
  induction w as [|c w IH]; intros [|c' pat] Heq k bol post; try discriminate.
  - exists bol. reflexivity.
  - unfold sameLetters in Heq. simpl in Heq. injection Heq as Hc Hrest.
    simpl. unfold Str.eqci. rewrite Hc, Ascii.eqb_refl.
    apply (IH pat Hrest).
Qed.

Lemma search_app (r : Regex.regex) (s : string) :
  (forall bol, is_Some (Regex.exec r bol s)) ->
  forall pre bol, Regex.search r bol (pre +:+ s) = true.
Proof.
  intros Hs. induction pre as [|c pre IH]; intros bol; simpl.
  - destruct (Hs bol) as [rest Hrest].
    destruct s; simpl; simpl in Hrest; rewrite Hrest; reflexivity.
  - destruct (Regex.exec r bol (String c (pre +:+ s))); [reflexivity | apply IH].
Qed.

(** A literal under the [i] flag is found wherever it stands, in any
    case. *)
Lemma test_lit_ci (w pat pre post : string) :
  sameLetters pat w -> Regex.test (Regex.lit true w) (pre +:+ pat +:+ post) = true.
Proof.
  intros Heq. apply search_app. intros bol.
  destruct (run_lit_ci (A:=string) w pat Heq (fun _ rest => Some rest) bol post)
    as [bol' H].
  unfold Regex.exec. rewrite H. eauto.
Qed.

Lemma hasYesNo_pattern (pre pat post : string) :
  yesNoPattern pat -> hasYesNo (pre +:+ pat +:+ post) = true.
Proof.
  intros [H | H]; unfold hasYesNo.
  - unfold re_yn_paren. rewrite (test_lit_ci "(y/n)" pat pre post H). reflexivity.
  - unfold re_yn_bracket1.
    rewrite (test_lit_ci "[y/N]" pat pre post) by exact H.
    rewrite orb_true_r. reflexivity.
Qed.

Lemma detectChoice_none (a : AgentType) (text : string) :
  noPattern a text = true -> detectChoice a text = None.
Proof.
  unfold noPattern. intros H.
  apply andb_prop in H as [H Henter]. apply andb_prop in H as [H Hnum].
  apply andb_prop in H as [Hyn Hallow].
  apply negb_true_iff in Hyn, Henter. apply Nat.ltb_lt in Hnum.
  assert (Hn : numberedChoice text = None).
  { unfold numberedChoice, Regex.matchAll.
    destruct (Regex.scan re_numbered 0 true text) as [|m ms] eqn:E; [reflexivity|].
    destruct (Nat.leb_spec 2 (length (m :: ms))) as [Hle|Hlt]; [lia | reflexivity]. }
  unfold detectChoice, enterChoice.
  destruct a; rewrite Hyn, Hn, Henter.
  - apply negb_true_iff in Hallow. rewrite Hallow. reflexivity.
  - reflexivity.
Qed.

(** *** What a match must contain *)

Lemma within_spec q p c : within q p = true -> q c = true -> p c = true.
Proof.
  unfold within. rewrite forallb_forall. intros H Hq.
  assert (Hin : In c allChars).
  { unfold allChars. rewrite <- (ascii_nat_embedding c).
    apply in_map, in_seq. pose proof (nat_ascii_bounded c). lia. }
  specialize (H c Hin). rewrite Hq in H. exact H.
Qed.

Lemma hasChar_app p s t : hasChar p (s +:+ t) = hasChar p s || hasChar p t.
Proof.
  induction s as [|c s IH]; [reflexivity|].
  change (p c || hasChar p (s +:+ t) = p c || hasChar p s || hasChar p t).
  rewrite IH. apply orb_assoc.
Qed.

Lemma length_app s t : String.length (s +:+ t) = (String.length s + String.length t)%nat.
Proof.
  induction s as [|c s IH]; [reflexivity|].
  change (S (String.length (s +:+ t)) = S (String.length s + String.length t)).
  now rewrite IH.
Qed.

Section Sound.
Context {A : Type} (p : ascii -> bool).

Lemma iter_sound (body : @Regex.cont A -> @Regex.cont A) :
  (forall k bol s x, body k bol s = Some x -> took p false k s x) ->
  forall n k bol s x, Regex.iter body k n bol s = Some x -> took p false k s x.
Proof.
  intros Hbody. induction n as [|n IH]; intros k bol s x H; simpl in H.
  - exists bol, "", s. repeat split; [exact H | discriminate].
  - destruct (body _ bol s) as [a|] eqn:E.
    + injection H as ->.
      destruct (Hbody _ _ _ _ E) as (bol1 & pre1 & s1 & -> & Hk & _).
      destruct (String.length s1 <? String.length (pre1 +:+ s1))%nat; [|discriminate].
      destruct (IH _ _ _ _ Hk) as (bol2 & pre2 & s2 & -> & Hk2 & _).
      exists bol2, (pre1 +:+ pre2), s2.
      rewrite append_assoc. repeat split; [exact Hk2 | discriminate].
    + exists bol, "", s. repeat split; [exact H | discriminate].
Qed.

Lemma took_weaken need (k : @Regex.cont A) s x :
  took p need k s x -> took p false k s x.
Proof.
  intros (bol' & pre & s' & E & Hk & _). exists bol', pre, s'.
  repeat split; [exact E | exact Hk | discriminate].
Qed.

Lemma run_sound (r : Regex.regex) :
  forall (k : @Regex.cont A) bol s x,
    Regex.run r k bol s = Some x -> took p (needs p r) k s x.
Proof.
  induction r as [|q|r1 IH1 r2 IH2|r1 IH1 r2 IH2|r IH| |]; intros k bol s x H; simpl in H.
  - exists bol, "", s. repeat split; [exact H | discriminate].
  - destruct s as [|c s]; [discriminate|].
    destruct (q c) eqn:Eq; [|discriminate].
    exists (Str.isLineTerminator c), (String c ""), s.
    repeat split; [exact H|]. simpl. intros Hw.
    rewrite (within_spec q p c Hw Eq). reflexivity.
  - destruct (IH1 _ _ _ _ H) as (bol1 & pre1 & s1 & -> & H1 & N1).
    destruct (IH2 _ _ _ _ H1) as (bol2 & pre2 & s2 & -> & H2 & N2).
    exists bol2, (pre1 +:+ pre2), s2. rewrite append_assoc.
    repeat split; [exact H2|]. simpl. rewrite hasChar_app.
    intros [N|N]%orb_prop; [rewrite (N1 N) | rewrite (N2 N), orb_true_r]; reflexivity.
  - destruct (Regex.run r1 k bol s) as [a|] eqn:E.
    + injection H as ->.
      destruct (IH1 _ _ _ _ E) as (bol1 & pre1 & s1 & -> & H1 & N1).
      exists bol1, pre1, s1. repeat split; [exact H1|]. simpl.
      intros [N _]%andb_prop. exact (N1 N).
    + destruct (IH2 _ _ _ _ H) as (bol1 & pre1 & s1 & -> & H1 & N1).
      exists bol1, pre1, s1. repeat split; [exact H1|]. simpl.
      intros [_ N]%andb_prop. exact (N1 N).
  - apply (iter_sound (Regex.run r)) in H; [exact H|].
    intros k' bol' s' x' H'. apply (took_weaken _ _ _ _ (IH _ _ _ _ H')).
  - destruct bol; [|discriminate].
    exists true, "", s. repeat split; [exact H | discriminate].
  - exists bol, "", s. repeat split; [|discriminate].
    destruct s as [|c s]; [exact H|].
    destruct (Str.isLineTerminator c); [exact H | discriminate].
Qed.
End Sound.

(** An expression that needs a marked character matches nowhere in a
    text without one. *)
Lemma exec_needs p r bol s :
  needs p r = true -> hasChar p s = false -> Regex.exec r bol s = None.
Proof.
  intros Hn Hs. unfold Regex.exec.
  destruct (Regex.run r _ bol s) as [rest|] eqn:E; [|reflexivity].
  destruct (run_sound p r _ _ _ _ E) as (bol' & pre & s' & -> & _ & N).
  rewrite hasChar_app, (N Hn) in Hs. discriminate.
Qed.

Lemma search_needs p r s :
  needs p r = true -> hasChar p s = false ->
  forall bol, Regex.search r bol s = false.
Proof.
  intros Hn. induction s as [|c s IH]; intros Hs bol; simpl.
  - rewrite (exec_needs p r bol "" Hn Hs). reflexivity.
  - rewrite (exec_needs p r bol (String c s) Hn Hs).
    simpl in Hs. apply orb_false_elim in Hs as [_ Hs]. apply IH, Hs.
Qed.

Lemma scan_needs p r s :
  needs p r = true -> hasChar p s = false ->
  forall skip bol, Regex.scan r skip bol s = [].
Proof.
  intros Hn. induction s as [|c s IH]; intros Hs skip bol.
  - destruct skip; simpl; [|reflexivity].
    rewrite (exec_needs p r bol "" Hn Hs). reflexivity.
  - assert (Hs' : hasChar p s = false).
    { simpl in Hs. apply orb_false_elim in Hs as [_ Hs]. exact Hs. }
    destruct skip; simpl.
    + rewrite (exec_needs p r bol (String c s) Hn Hs). apply IH, Hs'.
    + apply IH, Hs'.
Qed.

(** A literal under the [i] flag matches only where the text reads the
    same in lower case. *)
Lemma exec_lit_prefix w :
  forall bol s rest,
    Regex.exec (Regex.lit true w) bol s = Some rest ->
    String.prefix (Str.toLowerCase w) (Str.toLowerCase s) = true.
Proof.
  unfold Regex.exec.
  induction w as [|c w IH]; intros bol s rest H;
    [destruct s; reflexivity|].
  simpl in H. destruct s as [|c' s]; [discriminate|].
  unfold Str.eqci in H. destruct (Ascii.eqb_spec (Str.lower c) (Str.lower c')) as [E|]; [|discriminate].
  simpl. rewrite E. destruct (ascii_dec (Str.lower c') (Str.lower c')); [|congruence].
  apply (IH _ _ _ H).
Qed.

Lemma prefix_includes_tail w1 w2 :
  forall s, String.prefix (w1 +:+ w2) s = true -> Str.includes s w2 = true.
Proof.
  induction w1 as [|c w1 IH]; intros s H.
  - change ("" +:+ w2) with w2 in H.
    destruct s; cbn [Str.includes]; rewrite H; reflexivity.
  - destruct s as [|c' s]; [discriminate|].
    change (String.prefix (String c (w1 +:+ w2)) (String c' s) = true) in H.
    simpl in H. destruct (ascii_dec c c'); [|discriminate].
    simpl. rewrite (IH s H). apply orb_true_r.
Qed.

Lemma search_lit_includes w1 w2 :
  forall s bol,
    Str.includes (Str.toLowerCase s) w2 = false ->
    Str.toLowerCase (w1 +:+ w2) = w1 +:+ w2 ->
    Regex.search (Regex.lit true (w1 +:+ w2)) bol s = false.
Proof.
  induction s as [|c s IH]; intros bol Hs Hw.
  - simpl. destruct (Regex.exec _ bol "") as [rest|] eqn:E; [|reflexivity].
    apply exec_lit_prefix in E. rewrite Hw in E.
    apply prefix_includes_tail in E. simpl in E, Hs. congruence.
  - simpl. destruct (Regex.exec _ bol (String c s)) as [rest|] eqn:E.
    + apply exec_lit_prefix in E. rewrite Hw in E.
      apply prefix_includes_tail in E. congruence.
    + apply IH; [|exact Hw].
      simpl in Hs. apply orb_false_elim in Hs as [_ Hs]. exact Hs.
Qed.

Lemma search_alt r1 r2 :
  forall s bol,
    Regex.search r1 bol s = false -> Regex.search r2 bol s = false ->
    Regex.search (Regex.Alt r1 r2) bol s = false.
Proof.
  induction s as [|c s IH]; intros bol H1 H2; simpl in *.
  - unfold Regex.exec in *. simpl.
    destruct (Regex.run r1 _ bol ""); [discriminate|].
    destruct (Regex.run r2 _ bol ""); [discriminate | reflexivity].
  - unfold Regex.exec in *. simpl.
    destruct (Regex.run r1 _ bol (String c s)); [discriminate|].
    destruct (Regex.run r2 _ bol (String c s)); [discriminate|].
    apply IH; assumption.
Qed.

Lemma plain_noPattern a text : plain text -> noPattern a text = true.
Proof.
  intros [Hmarks Henter]. unfold noPattern.
  assert (Hyn : hasYesNo text = false).
  { unfold hasYesNo, Regex.test.
    rewrite !(search_needs marks) by (exact Hmarks || reflexivity). reflexivity. }
  assert (Hq : Regex.test re_question text = false).
  { apply (search_needs marks); [reflexivity | exact Hmarks]. }
  assert (Hnum : Regex.scan re_numbered 0 true text = []).
  { apply (scan_needs marks); [reflexivity | exact Hmarks]. }
  assert (Hpress : Regex.search (Regex.lit true "press enter") true text = false).
  { apply (search_lit_includes "press " "enter"); [exact Henter | reflexivity]. }
  assert (Henter' : Regex.test (re_enter a) text = false).
  { unfold Regex.test. destruct a; apply search_alt; try exact Hpress.
    - apply (search_needs marks); [reflexivity | exact Hmarks].
    - apply (search_lit_includes "hit " "enter"); [exact Henter | reflexivity]. }
  rewrite Hyn, Hq, Hnum, Henter', andb_false_r. destruct a; reflexivity.
Qed.


(** C6. The classification is a function of the text alone: the same
    text gives the same classification.  For both agents, a text in
    which y/n stands in parentheses or in brackets, in any letter case
    (at its end as anywhere else, as in Proceed? (y/n)), is a choice
    with the options y and n; the phrase yes/no written out is not such
    a pattern, and a text like Answer yes/no is no choice.  The three
    numbered lines 1) a, 2) b, 3) c are a choice with the options 1, 2
    and 3; a text in which none of the agent's patterns occurs is no
    choice, and so is plain prose: a text without digit, slash and
    question mark that nowhere reads enter. *)
Theorem choice_classification
        (a : AgentType) (t1 t2 pre pat post prose plainProse : string)
        (Hsame : t1 = t2)
        (Hpat : yesNoPattern pat)
        (Hprose : noPattern a prose = true)
        (Hplain : plain plainProse) :
  detectChoice a t1 = detectChoice a t2
  /\ options <$> detectChoice a (pre +:+ pat +:+ post) = Some ["y"; "n"]
  /\ options <$> detectChoice a "Proceed? (y/n)" = Some ["y"; "n"]
  /\ detectChoice a "Answer yes/no" = None
  /\ options <$> detectChoice a threeLines = Some ["1"; "2"; "3"]
  /\ detectChoice a prose = None
  /\ detectChoice a plainProse = None.
Proof.
  split; [now rewrite Hsame|].
  split.
  { unfold detectChoice.
    destruct a; rewrite (hasYesNo_pattern pre pat post Hpat); reflexivity. }
  split; [destruct a; reflexivity|].
  split; [destruct a; reflexivity|].
  split; [destruct a; reflexivity|].
  split; [apply detectChoice_none, Hprose|].
  apply detectChoice_none, plain_noPattern, Hplain.
Qed.

Lemma choice_classification_witness :
  detectChoice gemini "ok" = detectChoice gemini "ok"
  /\ options <$> detectChoice gemini ("Overwrite the file? " +:+ "[Y/n]" +:+ "")
     = Some ["y"; "n"]
  /\ options <$> detectChoice gemini "Proceed? (y/n)" = Some ["y"; "n"]
  /\ detectChoice gemini "Answer yes/no" = None
  /\ options <$> detectChoice gemini threeLines = Some ["1"; "2"; "3"]
  /\ detectChoice gemini "Step 2 of 3 is done." = None
  /\ detectChoice gemini "The build finished without errors." = None.
Proof.
  apply (choice_classification gemini "ok" "ok" "Overwrite the file? " "[Y/n]" ""
           "Step 2 of 3 is done." "The build finished without errors.").
  - reflexivity.
  - right. reflexivity.
  - reflexivity.
  - split; reflexivity.
Defined.

(** The phrase yes/no written out, alone or in parentheses, is no choice
    for either agent. *)
Lemma literal_yes_no_is_no_choice :
  detectChoice gemini "Answer yes/no" = None
  /\ detectChoice claude "Answer yes/no" = None
  /\ detectChoice gemini "Proceed (Yes/No)" = None
  /\ detectChoice claude "Proceed (Yes/No)" = None.
Proof. repeat split; vm_compute; reflexivity. Qed.

(** ** The daemons: commands, clock and fuel *)

(** What a call of [runWslCommand] does to the world. *)
Lemma runWslCommand_readable (command : string) (d : Daemon) (w : World) :
  exists w',
    runWslCommand command d w =
      (match readable (exec_out w (exec_n w)) with
       | Some out => Ok out
       | None => Throw (match exec_out w (exec_n w) with
                        | ExecErr _ msg => msg | ExecOk _ => "" end)
       end, d, w')
    /\ now w' = now w /\ exec_out w' = exec_out w /\ exec_n w' = S (exec_n w)
    /\ issued w' = (issued w ++ [wslLine command])%list.
Proof.
  unfold runWslCommand, readable.
  destruct (exec_out w (exec_n w)) as [out | [|c out] msg]; eexists; (split; [reflexivity|]); simpl; auto.
Qed.

(** C10. [start] never throws.  Whatever the listing query and the
    creation of the session do, throwing included, it returns a boolean:
    true, with the running flag set, when the session is listed or was
    created; false, with the daemon's fields as they were (the flag is
    left false when it was false), when one of the two commands threw. *)
Theorem start_never_raises (a : AgentType) (d : Daemon) (w : World) :
  exists w',
    start a d w =
      (Ok (negb (startFails a w)),
       (if startFails a w then d else {| isRunning := true; mode := mode d |}),
       w').
Proof.
  unfold start, startFails, try_catch, bind.
  destruct (runWslCommand_readable (listCommand a) d w) as (w1 & E1 & _ & Hout & Hn & _).
  rewrite E1.
  destruct (readable (exec_out w (exec_n w))) as [sessions|]; [|eexists; reflexivity].
  destruct (Str.includes sessions (SESSION_NAME a)); [eexists; reflexivity|].
  destruct (runWslCommand_readable (newSessionCommand a) d w1) as (w2 & E2 & _).
  rewrite E2, Hout, Hn.
  destruct (readable (exec_out w (S (exec_n w)))); eexists; reflexivity.
Qed.

Section Timeless.
Context {A B : Type}.

Lemma timeless_ret (x : A) : timeless (ret x).
Proof. intros d w. reflexivity. Qed.

Lemma timeless_throw (msg : string) : timeless (@throw A msg).
Proof. intros d w. reflexivity. Qed.

Lemma timeless_bind (m : M A) (k : A -> M B) :
  timeless m -> (forall x, timeless (k x)) -> timeless (bind m k).
Proof.
  intros Hm Hk d w. unfold bind. specialize (Hm d w).
  destruct (m d w) as [[[x|msg] d'] w']; simpl in *; [|exact Hm].
  rewrite Hk. exact Hm.
Qed.

Lemma timeless_try (m : M A) (h : string -> M A) :
  timeless m -> (forall msg, timeless (h msg)) -> timeless (try_catch m h).
Proof.
  intros Hm Hh d w. unfold try_catch. specialize (Hm d w).
  destruct (m d w) as [[[x|msg] d'] w']; simpl in *; [exact Hm|].
  rewrite Hh. exact Hm.
Qed.
End Timeless.

Lemma timeless_runWslCommand (command : string) : timeless (runWslCommand command).
Proof.
  intros d w. destruct (runWslCommand_readable command d w) as (w' & E & Hnow & _).
  rewrite E. exact Hnow.
Qed.

Lemma timeless_sendKey a key : timeless (sendKey a key).
Proof.
  unfold sendKey. apply timeless_bind; [intros d w; reflexivity|].
  intros r. destruct (negb r); [apply timeless_throw|].
  apply timeless_bind; [apply timeless_runWslCommand | intros; apply timeless_ret].
Qed.

Lemma timeless_askOperator items : timeless (askOperator items).
Proof. intros d w. reflexivity. Qed.

Create HintDb timeless.
#[local] Hint Resolve timeless_ret timeless_throw timeless_runWslCommand
  timeless_sendKey timeless_askOperator : timeless.

Lemma timeless_getOutputSize a : timeless (getOutputSize a).
Proof.
  unfold getOutputSize. apply timeless_try; [|auto with timeless].
  apply timeless_bind; auto with timeless.
Qed.

Lemma timeless_autoRespond a choice : timeless (autoRespond a choice).
Proof.
  unfold autoRespond.
  destruct (has (options choice) "y"); [apply timeless_bind; auto with timeless|].
  destruct (has (options choice) "enter"); [auto with timeless|].
  destruct (options choice); [auto with timeless|].
  apply timeless_bind; auto with timeless.
Qed.

Lemma timeless_askUserForChoice a choice : timeless (askUserForChoice a choice).
Proof.
  unfold askUserForChoice.
  destruct (has (options choice) "enter").
  { apply timeless_bind; auto with timeless. }
  destruct (has (options choice) "y" && has (options choice) "n"); auto with timeless.
Qed.

Lemma timeless_sendUserChoice a key : timeless (sendUserChoice a key).
Proof.
  unfold sendUserChoice. apply timeless_bind; [auto with timeless|].
  intros _. destruct a; [|auto with timeless].
  destruct (String.eqb key "enter"); auto with timeless.
Qed.

Lemma timeless_react a before size cleaned st : timeless (react a before size cleaned st).
Proof.
  unfold react. destruct (detectChoice a cleaned) as [choice|]; [|auto with timeless].
  apply timeless_bind; [intros d w; reflexivity|].
  intros [|].
  - apply timeless_bind; [apply timeless_askUserForChoice|].
    intros [[|c rest]|]; auto with timeless.
    apply timeless_bind; [apply timeless_sendUserChoice | auto with timeless].
  - apply timeless_bind; [apply timeless_autoRespond | auto with timeless].
Qed.

Lemma observe_time a before d w :
  now w + 500 <= now (snd (observe a before d w)).
Proof.
  unfold observe. unfold bind at 1. simpl.
  set (w1 := {| now := _ |}).
  assert (H : timeless (let! currentSize := getOutputSize a in
                        let! currentOutput := runWslCommand (tailCommand a before) in
                        ret (currentSize, cleanOutput currentOutput))).
  { apply timeless_bind; [apply timeless_getOutputSize|]. intros size.
    apply timeless_bind; auto with timeless. }
  rewrite H. subst w1. simpl. lia.
Qed.

(** A turn takes 500 ms at least. *)
Lemma turn_time a before st d w :
  now w + 500 <= now (snd (turn a before st d w)).
Proof.
  unfold turn, bind. pose proof (observe_time a before d w) as H.
  destruct (observe a before d w) as [[[seen|msg] d'] w']; simpl in *; [|exact H].
  rewrite timeless_react. exact H.
Qed.

(** Past the bound, the loop is left and the final read is made. *)
Lemma poll_timed_out a before start timeout fuel st d w :
  timeout <= now w - start ->
  poll a before start timeout fuel st d w = finalRead a before d w.
Proof.
  intros H. destruct fuel; simpl; [reflexivity|].
  destruct (Z.ltb_spec (now w - start) timeout); [lia | reflexivity].
Qed.

(** Fuel that covers the time left is never used up: more of it changes
    nothing. *)
Lemma poll_fuel a before start timeout :
  forall fuel st d w,
    timeout - (now w - start) <= 500 * Z.of_nat fuel ->
    forall fuel', (fuel <= fuel')%nat ->
      poll a before start timeout fuel' st d w = poll a before start timeout fuel st d w.
Proof.
  induction fuel as [|fuel IH]; intros st d w Hbound fuel' Hle.
  - rewrite !poll_timed_out by lia. reflexivity.
  - destruct fuel' as [|fuel']; [lia|]. simpl.
    destruct (Z.ltb_spec (now w - start) timeout) as [Hlt|Hge]; [|reflexivity].
    pose proof (turn_time a before st d w) as Ht.
    destruct (turn a before st d w) as [[[[st'|text]|msg] d'] w']; simpl in Ht; try reflexivity.
    apply IH; lia.
Qed.

(** After [n] turns that neither return nor throw, the loop goes on
    from where it stands. *)
Lemma poll_steps a before start timeout :
  forall n st d w st' d' w' fuel,
    steps a before start timeout n st d w = Some (st', d', w') ->
    poll a before start timeout (n + fuel) st d w
    = poll a before start timeout fuel st' d' w'.
Proof.
  induction n as [|n IH]; intros st d w st' d' w' fuel H; simpl in H.
  - injection H as -> -> ->. reflexivity.
  - simpl. destruct (now w - start <? timeout); [|discriminate].
    destruct (turn a before st d w) as [[[[st1|text]|msg] d1] w1]; try discriminate.
    apply IH, H.
Qed.

(** ** The loop on timeout *)

Lemma turnsWithin_enough (timeout : Z) :
  timeout <= 500 * Z.of_nat (turnsWithin timeout).
Proof.
  unfold turnsWithin. destruct (Z.le_gt_cases 0 timeout) as [H|H].
  - rewrite Nat2Z.inj_succ, Z2Nat.id by (apply Z.div_pos; lia).
    pose proof (Z.mod_pos_bound timeout 500 ltac:(lia)).
    pose proof (Z.div_mod timeout 500 ltac:(lia)). lia.
  - lia.
Qed.

(** [sendPrompt] once the session is there and the prompt is sent. *)
Lemma sendPrompt_poll a prompt d w d0 w0 before d1 w1 :
  ensureStarted a d w = (Ok tt, d0, w0) ->
  prepare a prompt d0 w0 = (Ok before, d1, w1) ->
  forall fuel, (turnsWithin (promptTimeout a) <= fuel)%nat ->
  sendPrompt a prompt d w =
    try_catch (poll a before (now w1) (promptTimeout a) fuel (initialPoll before))
              (fun msg => throw (label a +:+ " daemon error: " +:+ msg)) d1 w1.
Proof.
  intros Hs Hp fuel Hfuel.
  unfold sendPrompt. unfold bind at 1. rewrite Hs.
  unfold try_catch, bind. rewrite Hp.
  unfold waitForOutputWithChoiceDetection, bind, dateNow.
  rewrite <- (poll_fuel a before (now w1) (promptTimeout a)
                (turnsWithin (promptTimeout a)) (initialPoll before) d1 w1) with (fuel' := fuel).
  - reflexivity.
  - pose proof (turnsWithin_enough (promptTimeout a)). lia.
  - exact Hfuel.
Qed.

Lemma finalRead_outcome a before d w :
  exists w',
    finalRead a before d w
    = (match exec_out w (exec_n w) with
       | ExecErr EmptyString msg => Throw msg
       | ExecOk raw | ExecErr raw _ => Ok (cleanOutput raw)
       end, d, w').
Proof.
  unfold finalRead, bind, runWslCommand.
  destruct (exec_out w (exec_n w)) as [raw|[|c raw] msg]; eexists; reflexivity.
Qed.

(** C5. A call of [sendPrompt] whose loop reaches its overall timeout
    without having seen the output stable reads the file once more from
    the baseline offset.  When that command gives a text (it succeeds,
    or it fails having printed something), the call returns that text
    cleaned, which is the empty string for a tool that stayed silent.
    When that command fails without output, the call fails too, with
    the command's message behind the agent's daemon error prefix. *)
Theorem timeout_returns_partial_result
        (a : AgentType) (prompt : string) (d : Daemon) (w : World)
        (d0 : Daemon) (w0 : World) (before : Z) (d1 : Daemon) (w1 : World)
        (n : nat) (st : Poll) (d2 : Daemon) (w2 : World)
        (Hstart : ensureStarted a d w = (Ok tt, d0, w0))
        (Hprep : prepare a prompt d0 w0 = (Ok before, d1, w1))
        (Hsteps : steps a before (now w1) (promptTimeout a) n (initialPoll before) d1 w1
                  = Some (st, d2, w2))
        (Hout : promptTimeout a <= now w2 - now w1) :
  exists w',
    sendPrompt a prompt d w
    = (match exec_out w2 (exec_n w2) with
       | ExecErr EmptyString msg => Throw (label a +:+ " daemon error: " +:+ msg)
       | ExecOk raw | ExecErr raw _ => Ok (cleanOutput raw)
       end, d2, w').
Proof.
  rewrite (sendPrompt_poll a prompt d w d0 w0 before d1 w1 Hstart Hprep
             (n + turnsWithin (promptTimeout a))) by lia.
  unfold try_catch.
  rewrite (poll_steps _ _ _ _ _ _ _ _ _ _ _ _ Hsteps).
  rewrite poll_timed_out by exact Hout.
  destruct (finalRead_outcome a before d2 w2) as [w' E]. rewrite E.
  destruct (exec_out w2 (exec_n w2)) as [raw|[|c raw] msg]; exists w'; reflexivity.
Qed.

Lemma timeout_returns_partial_result_witness :
  exists w', sendPrompt gemini "hello" up silent = (Ok "", up, w').
Proof.
  pose proof (fun d0 w0 before d1 w1 =>
                timeout_returns_partial_result gemini "hello" up silent
                  d0 w0 before d1 w1 120) as T.
  edestruct T as [w' E].
  - vm_compute. reflexivity.
  - vm_compute. reflexivity.
  - vm_compute. reflexivity.
  - vm_compute. discriminate.
  - exists w'. exact E.
Defined.

(** A call that times out and fails: the tool stays silent for the 120
    turns that the 60 seconds of the Gemini class allow, and the read
    after the loop fails without output. *)
Lemma timeout_can_fail :
  exists w1 st w2 w',
    prepare gemini "hello" up cutOff = (Ok 1, up, w1)
    /\ steps gemini 1 (now w1) (promptTimeout gemini) 120 (initialPoll 1) up w1
       = Some (st, up, w2)
    /\ promptTimeout gemini <= now w2 - now w1
    /\ sendPrompt gemini "hello" up cutOff
       = (Throw "Gemini daemon error: spawnSync wsl ETIMEDOUT", up, w').
Proof.
  do 4 eexists.
  split; [vm_compute; reflexivity|].
  split; [vm_compute; reflexivity|].
  split; [vm_compute; discriminate|].
  vm_compute. reflexivity.
Qed.

(** ** Stability *)

Lemma observe_daemon a before d w : snd (fst (observe a before d w)) = d.
Proof.
  unfold observe, bind, sleep, getOutputSize, try_catch, bind.
  set (w1 := {| now := _ |}).
  destruct (runWslCommand_readable (statCommand a) d w1) as (w2 & E2 & _).
  rewrite E2.
  destruct (readable (exec_out w1 (exec_n w1))); simpl;
    match goal with
    | |- context [runWslCommand ?c ?d ?w] =>
        destruct (runWslCommand_readable c d w) as (w3 & E3 & _); rewrite E3
    end;
    destruct (readable _); reflexivity.
Qed.

Lemma turn_quiet a before st d w size text d' w' :
  observe a before d w = (Ok (size, text), d', w') ->
  detectChoice a text = None ->
  turn a before st d w = (Ok (settle before size text st), d', w').
Proof.
  intros Hobs Hnone. unfold turn, bind. rewrite Hobs. simpl.
  unfold react. rewrite Hnone. reflexivity.
Qed.

Lemma settle_stable before size text st :
  before < size -> lastSize st = size -> lastOutput st = text ->
  settle before size text st =
    if 4 <=? stableCount st + 1 then Return text
    else Again {| stableCount := stableCount st + 1;
                  lastSize := lastSize st; lastOutput := lastOutput st |}.
Proof.
  intros Hgrown Hsize Htext. unfold settle.
  rewrite Hsize, Htext, Z.eqb_refl, String.eqb_refl.
  destruct (Z.ltb_spec before size); [reflexivity | lia].
Qed.

Lemma settle_changed before size text st :
  size <= before \/ size <> lastSize st \/ text <> lastOutput st ->
  settle before size text st =
    Again {| stableCount := 0; lastSize := size; lastOutput := text |}.
Proof.
  intros H. unfold settle.
  destruct (Z.ltb_spec before size); [|reflexivity].
  destruct (Z.eqb_spec size (lastSize st)); [|reflexivity].
  destruct (String.eqb_spec text (lastOutput st)); [|reflexivity].
  exfalso. destruct H as [H|[H|H]]; [lia | auto | auto].
Qed.

(** Whatever the stability test decides, the size and text that the
    loop remembers afterwards are those that this turn read. *)
Lemma settle_records before size text st st' :
  settle before size text st = Again st' ->
  lastSize st' = size /\ lastOutput st' = text.
Proof.
  unfold settle.
  destruct ((before <? size) && (size =? lastSize st) && String.eqb text (lastOutput st)) eqn:E.
  - apply andb_prop in E as [E E3]. apply andb_prop in E as [E1 E2].
    apply Z.eqb_eq in E2. apply String.eqb_eq in E3.
    destruct (4 <=? stableCount st + 1); [discriminate|].
    intros [= <-]. simpl. auto.
  - intros [= <-]. simpl. auto.
Qed.

Lemma settle_count before size text st st' :
  0 <= stableCount st ->
  settle before size text st = Again st' ->
  0 <= stableCount st' /\
  (lastSize st' = size /\ lastOutput st' = text).
Proof.
  intros Hc. unfold settle.
  destruct ((before <? size) && (size =? lastSize st) && String.eqb text (lastOutput st)) eqn:E.
  - apply andb_prop in E as [E E3]. apply andb_prop in E as [E1 E2].
    apply Z.eqb_eq in E2. apply String.eqb_eq in E3.
    destruct (4 <=? stableCount st + 1); [discriminate|].
    intros [= <-]. simpl. split; [lia | auto].
  - intros [= <-]. simpl. split; [lia | auto].
Qed.

Lemma bind_ret_inv {A B} (m : M A) (x y : B) d w d' w' :
  bind m (fun _ => ret x) d w = (Ok y, d', w') -> y = x.
Proof.
  unfold bind, ret. destruct (m d w) as [[[v|msg] d1] w1]; congruence.
Qed.

Lemma turn_count a before st d w st' d' w' :
  0 <= stableCount st ->
  turn a before st d w = (Ok (Again st'), d', w') ->
  0 <= stableCount st'.
Proof.
  intros Hc. unfold turn. unfold bind at 1.
  destruct (observe a before d w) as [[[[size text]|msg] d1] w1]; [|discriminate].
  simpl. unfold react.
  assert (Hsettle : forall d2 w2, ret (settle before size text st) d2 w2 = (Ok (Again st'), d', w') ->
                          0 <= stableCount st').
  { unfold ret. intros d2 w2 H. injection H as H _ _.
    apply (settle_count _ _ _ _ _ Hc H). }
  destruct (detectChoice a text) as [choice|]; [|apply Hsettle].
  unfold bind at 1, get_mode. destruct (mode d1).
  - unfold bind at 1.
    destruct (askUserForChoice a choice d1 w1) as [[[[[|c rest]|]|msg] d2] w2];
      try discriminate; try apply Hsettle.
    intros H. apply bind_ret_inv in H. injection H as ->. simpl. lia.
  - intros H. apply bind_ret_inv in H. injection H as ->. simpl. lia.
Qed.

Lemma steps_count a before start timeout :
  forall n st d w st' d' w',
    0 <= stableCount st ->
    steps a before start timeout n st d w = Some (st', d', w') ->
    0 <= stableCount st'.
Proof.
  induction n as [|n IH]; intros st d w st' d' w' Hc H; simpl in H.
  - injection H as <- _ _. exact Hc.
  - destruct (now w - start <? timeout); [|discriminate].
    destruct (turn a before st d w) as [[[[st1|text]|msg] d1] w1] eqn:E; try discriminate.
    apply (IH _ _ _ _ _ _ (turn_count _ _ _ _ _ _ _ _ Hc E) H).
Qed.

Section Calm.
Variables (a : AgentType) (before start timeout size : Z) (text : string).
Hypothesis Hnone : detectChoice a text = None.
Hypothesis Hgrown : before < size.

Lemma calm_turn k d w w' st :
  calm a before start timeout size text (S k) d w = Some w' ->
  exists w1,
    now w - start < timeout
    /\ turn a before st d w = (Ok (settle before size text st), d, w1)
    /\ calm a before start timeout size text k d w1 = Some w'.
Proof.
  simpl. destruct (Z.ltb_spec (now w - start) timeout) as [Hlt|]; [|discriminate].
  pose proof (observe_daemon a before d w) as Hd.
  destruct (observe a before d w) as [[[[size' text']|msg] d1] w1] eqn:E; [|discriminate].
  simpl in Hd. subst d1.
  destruct ((size' =? size) && String.eqb text' text) eqn:Eq; [|discriminate].
  apply andb_prop in Eq as [E1 E2]. apply Z.eqb_eq in E1. apply String.eqb_eq in E2.
  subst size' text'. intros H. exists w1. split; [exact Hlt|]. split; [|exact H].
  apply turn_quiet; assumption.
Qed.

Lemma poll_calm :
  forall k st d w w' fuel,
    lastSize st = size -> lastOutput st = text ->
    4 <= stableCount st + Z.of_nat k -> (1 <= k)%nat -> (k <= fuel)%nat ->
    calm a before start timeout size text k d w = Some w' ->
    exists w'', poll a before start timeout fuel st d w = (Ok text, d, w'').
Proof.
  induction k as [|k IH]; intros st d w w' fuel Hs Ht Hcount Hk Hfuel Hcalm; [lia|].
  destruct (calm_turn k d w w' st Hcalm) as (w1 & Hlt & Hturn & Hrest).
  destruct fuel as [|fuel]; [lia|]. simpl.
  destruct (Z.ltb_spec (now w - start) timeout); [|lia].
  rewrite Hturn, (settle_stable before size text st Hgrown Hs Ht).
  destruct (Z.leb_spec 4 (stableCount st + 1)); [eexists; reflexivity|].
  apply (IH _ d w1 w'); simpl; auto; lia.
Qed.

Lemma poll_calm_any st d w w' fuel :
  0 <= stableCount st -> (5 <= fuel)%nat ->
  calm a before start timeout size text 5 d w = Some w' ->
  exists w'', poll a before start timeout fuel st d w = (Ok text, d, w'').
Proof.
  intros Hc Hfuel Hcalm.
  destruct (calm_turn 4 d w w' st Hcalm) as (w1 & Hlt & Hturn & Hrest).
  destruct fuel as [|fuel]; [lia|]. simpl.
  destruct (Z.ltb_spec (now w - start) timeout); [|lia].
  rewrite Hturn.
  destruct (settle before size text st) as [st1|text1] eqn:E.
  - destruct (settle_count _ _ _ _ _ Hc E) as (Hc1 & Hs1 & Ht1).
    apply (poll_calm 4 st1 d w1 w'); auto; lia.
  - unfold settle in E.
    destruct ((before <? size) && (size =? lastSize st) && String.eqb text (lastOutput st));
      [|discriminate].
    destruct (4 <=? stableCount st + 1); [|discriminate].
    injection E as <-. eexists. reflexivity.
Qed.
End Calm.

(** C4. In the completion-detection loop, a turn that detects no choice
    ends with the stability test on what it read.  When the size has
    grown past the baseline and size and cleaned text are those that the
    loop remembers, the stability counter goes up by one, and the text is
    returned as soon as the counter reaches 4; any change sets the
    counter to 0; and what the loop remembers after the test are the
    size and text of this turn, so that the next turn compares with the
    turn before it.  Hence, wherever the loop stands, when one turn reads
    a grown output without a choice and the next four turns, all started
    within the overall timeout, read the same, [sendPrompt] returns
    exactly that cleaned text. *)
Theorem stable_output_is_returned
        (a : AgentType) (prompt : string) (d : Daemon) (w : World)
        (d0 : Daemon) (w0 : World) (before : Z) (d1 : Daemon) (w1 : World)
        (n : nat) (st : Poll) (d2 : Daemon) (w2 : World)
        (size : Z) (text : string) (w3 : World)
        (Hstart : ensureStarted a d w = (Ok tt, d0, w0))
        (Hprep : prepare a prompt d0 w0 = (Ok before, d1, w1))
        (Hsteps : steps a before (now w1) (promptTimeout a) n (initialPoll before) d1 w1
                  = Some (st, d2, w2))
        (Hnone : detectChoice a text = None)
        (Hgrown : before < size)
        (Hcalm : calm a before (now w1) (promptTimeout a) size text 5 d2 w2 = Some w3) :
  (exists w', sendPrompt a prompt d w = (Ok text, d2, w'))
  /\ (forall st' d' w' w'',
        observe a before d' w' = (Ok (size, text), d', w'') ->
        turn a before st' d' w' = (Ok (settle before size text st'), d', w''))
  /\ (forall count,
        settle before size text
          {| stableCount := count; lastSize := size; lastOutput := text |}
        = if 4 <=? count + 1 then Return text
          else Again {| stableCount := count + 1; lastSize := size; lastOutput := text |})
  /\ (forall st' size' text',
        size' <= before \/ size' <> lastSize st' \/ text' <> lastOutput st' ->
        settle before size' text' st'
        = Again {| stableCount := 0; lastSize := size'; lastOutput := text' |})
  /\ (forall st' st'' size' text',
        settle before size' text' st' = Again st'' ->
        lastSize st'' = size' /\ lastOutput st'' = text').
Proof.
  split; [|split; [|split; [|split]]]; [| | | |intros st' st'' size' text'; apply settle_records].
  - rewrite (sendPrompt_poll a prompt d w d0 w0 before d1 w1 Hstart Hprep
               (n + (5 + turnsWithin (promptTimeout a)))) by lia.
    unfold try_catch.
    rewrite (poll_steps _ _ _ _ _ _ _ _ _ _ _ _ Hsteps).
    assert (Hc : 0 <= stableCount st).
    { eapply steps_count; [|exact Hsteps]. simpl. lia. }
    destruct (poll_calm_any a before (now w1) (promptTimeout a) size text Hnone Hgrown
                st d2 w2 w3 (5 + turnsWithin (promptTimeout a)) Hc ltac:(lia) Hcalm)
      as [w' E].
    rewrite E. exists w'. reflexivity.
  - intros st' d' w' w'' Hobs. apply turn_quiet; assumption.
  - intros count. apply settle_stable; auto.
  - intros st' size' text'. apply settle_changed.
Qed.

Lemma stable_output_is_returned_witness :
  exists w', sendPrompt gemini "hello" up answering = (Ok "done", up, w').
Proof.
  eapply (stable_output_is_returned gemini "hello" up answering _ _ _ _ _ 1 _ _ _ 6 "done").
  - vm_compute. reflexivity.
  - vm_compute. reflexivity.
  - vm_compute. reflexivity.
  - vm_compute. reflexivity.
  - vm_compute. reflexivity.
  - vm_compute. reflexivity.
Defined.

(** ** The automatic response *)

(** A decimal rendering starts with a digit or with the minus sign. *)
Lemma ofZ_head (z : Z) :
  exists c rest, Str.ofZ z = String c rest /\ c <> "y"%char /\ c <> "e"%char.
Proof.
  unfold Str.ofZ.
  destruct (Z.to_int z) as [[]|[]]; simpl; eexists _, _;
    (split; [reflexivity | split; discriminate]).
Qed.

Lemma has_numbers (key : string) {A} (f : nat -> A -> string) (ms : list A) :
  (forall i x, exists c rest, f i x = String c rest /\ c <> "y"%char /\ c <> "e"%char) ->
  key = "y" \/ key = "enter" ->
  has (imap f ms) key = false.
Proof.
  intros Hf Hkey. revert f Hf. induction ms as [|m ms IH]; intros f Hf; [reflexivity|].
  unfold has in *. cbn [imap existsb]. rewrite (IH (f ∘ S)) by (intros i x; apply Hf).
  destruct (Hf 0%nat m) as (c & rest & E & Hy & He). rewrite E, orb_false_r.
  apply String.eqb_neq. destruct Hkey as [-> | ->]; intros [= Hc _]; congruence.
Qed.

Lemma has_indices {A} (ms : list A) (key : string) :
  key = "y" \/ key = "enter" -> has (indices ms) key = false.
Proof.
  intros Hkey. unfold indices. apply has_numbers; [|exact Hkey].
  intros i x. apply ofZ_head.
Qed.

Lemma indices_head {A} (ms : list A) :
  (1 <= length ms)%nat -> hd "" (indices ms) = "1" /\ indices ms <> [].
Proof.
  destruct ms as [|m ms]; simpl; [lia|]. intros _. split; [reflexivity | discriminate].
Qed.

(** What [detectChoice] can offer. *)
Lemma detectChoice_options a text choice :
  detectChoice a text = Some choice ->
  options choice = ["y"; "n"]
  \/ options choice = ["enter"]
  \/ exists ms : list string, (2 <= length ms)%nat /\ options choice = indices ms.
Proof.
  assert (Hnum : forall c, numberedChoice text = Some c ->
                   exists ms : list string, (2 <= length ms)%nat /\ options c = indices ms).
  { unfold numberedChoice. intros c.
    destruct (Regex.matchAll re_numbered text) as [ms|]; [|discriminate].
    destruct (Nat.leb_spec 2 (length ms)); [|discriminate].
    intros [= <-]. exists ms. split; [assumption | reflexivity]. }
  assert (Henter : forall c, enterChoice a text = Some c -> options c = ["enter"]).
  { unfold enterChoice. intros c.
    destruct (Regex.test (re_enter a) text); [|discriminate].
    intros [= <-]. reflexivity. }
  unfold detectChoice.
  destruct a.
  - destruct (hasYesNo text); [intros [= <-]; auto|].
    destruct (Regex.test re_allow text && Regex.test re_question text);
      [intros [= <-]; auto|].
    destruct (numberedChoice text) as [c|] eqn:E.
    + intros [= <-]. right; right. apply Hnum. reflexivity.
    + intros H. right; left. apply Henter, H.
  - destruct (hasYesNo text); [intros [= <-]; auto|].
    destruct (numberedChoice text) as [c|] eqn:E.
    + intros [= <-]. right; right. apply Hnum. reflexivity.
    + intros H. right; left. apply Henter, H.
Qed.

Lemma preferred_detected a text choice :
  detectChoice a text = Some choice ->
  options choice <> []
  /\ (preferred (options choice) = ["y"; "enter"]
      \/ preferred (options choice) = ["enter"]
      \/ preferred (options choice) = ["1"; "enter"])
  /\ autoRespond a choice = sendKeys a (preferred (options choice)).
Proof.
  intros H. destruct (detectChoice_options a text choice H) as [E | [E | (ms & Hlen & E)]].
  - unfold autoRespond, preferred. rewrite E. simpl. split; [discriminate|]. auto.
  - unfold autoRespond, preferred. rewrite E. simpl. split; [discriminate|]. auto.
  - destruct (indices_head ms ltac:(lia)) as [Hhd Hne].
    unfold autoRespond, preferred. rewrite E.
    rewrite !has_indices by auto. rewrite Hhd.
    split; [exact Hne|]. split; [auto|].
    destruct (indices ms) as [|first rest]; [congruence|].
    simpl in Hhd. subst first. reflexivity.
Qed.

Lemma sendKey_running a key d w :
  isRunning d = true ->
  exists w',
    sendKey a key d w =
      (match readable (exec_out w (exec_n w)) with
       | Some _ => Ok tt
       | None => Throw (match exec_out w (exec_n w) with
                        | ExecErr _ msg => msg | ExecOk _ => "" end)
       end, d, w')
    /\ issued w' = (issued w ++ keystrokes a [key])%list.
Proof.
  intros Hrun. unfold sendKey, bind, get_isRunning. rewrite Hrun. simpl.
  destruct (runWslCommand_readable (sendKeysCommand a (tmuxKey a key)) d w)
    as (w' & E & _ & _ & _ & Hissued).
  rewrite E. exists w'. split; [|exact Hissued].
  destruct (readable (exec_out w (exec_n w))); reflexivity.
Qed.

Lemma sendKeys_issued a :
  forall keys d w d' w',
    isRunning d = true ->
    sendKeys a keys d w = (Ok tt, d', w') ->
    issued w' = (issued w ++ keystrokes a keys)%list.
Proof.
  induction keys as [|key keys IH]; intros d w d' w' Hrun H.
  - injection H as _ <-. simpl. rewrite app_nil_r. reflexivity.
  - destruct (sendKey_running a key d w Hrun) as (w1 & E & Hissued).
    destruct keys as [|key2 keys].
    + simpl in H. rewrite E in H.
      destruct (readable (exec_out w (exec_n w))); [|discriminate].
      injection H as _ <-. exact Hissued.
    + change (sendKeys a (key :: key2 :: keys))
        with (do! sendKey a key in sendKeys a (key2 :: keys)) in H.
      unfold bind in H. rewrite E in H.
      destruct (readable (exec_out w (exec_n w))); [|discriminate].
      rewrite (IH d w1 d' w' Hrun H), Hissued.
      unfold keystrokes. simpl. rewrite <- app_assoc. reflexivity.
Qed.

(** C9. When a choice is detected in auto mode, the response is chosen
    in this order: if y is among the options, y then enter; otherwise,
    if enter is among the options, enter alone; otherwise the first
    option then enter.  The options that [detectChoice] offers are never
    empty, and for a numbered list the first option is 1; so one of
    three key sequences is sent, by the command lines that [keystrokes]
    gives. *)
Theorem auto_response_policy
        (a : AgentType) (before size : Z) (text : string) (choice : PendingChoice)
        (st : Poll) (d : Daemon) (w : World)
        (Hauto : mode d = auto)
        (Hdet : detectChoice a text = Some choice) :
  react a before size text st d w
  = (do! sendKeys a (preferred (options choice)) in ret (Again (resetCount st))) d w
  /\ options choice <> []
  /\ (preferred (options choice) = ["y"; "enter"]
      \/ preferred (options choice) = ["enter"]
      \/ preferred (options choice) = ["1"; "enter"])
  /\ (forall d' w',
        isRunning d = true ->
        sendKeys a (preferred (options choice)) d w = (Ok tt, d', w') ->
        issued w' = (issued w ++ keystrokes a (preferred (options choice)))%list).
Proof.
  destruct (preferred_detected a text choice Hdet) as (Hne & Hkeys & Hresp).
  split; [|split; [exact Hne|split; [exact Hkeys|]]].
  - unfold react. rewrite Hdet. unfold bind at 1, get_mode. rewrite Hauto, Hresp.
    reflexivity.
  - intros d' w' Hrun H. apply (sendKeys_issued a _ d w d' w' Hrun H).
Qed.

Lemma auto_response_policy_witness :
  react claude 1 20 threeLines (initialPoll 1) up asking
  = (do! sendKeys claude ["1"; "enter"] in
     ret (Again (resetCount (initialPoll 1)))) up asking
  /\ issued (snd (sendKeys claude ["1"; "enter"] up asking))
     = keystrokes claude ["1"; "enter"].
Proof.
  destruct (auto_response_policy claude 1 20 threeLines
              {| options := ["1"; "2"; "3"]; prompt := "Select an option (1-3)" |}
              (initialPoll 1) up asking eq_refl eq_refl) as (Hreact & _ & _ & Hsent).
  split; [exact Hreact|].
  apply (Hsent up (snd (sendKeys claude ["1"; "enter"] up asking)) eq_refl).
  reflexivity.
Defined.

(** ** The registry and its executors *)

Lemma begin_live taskId cfg child tm l t :
  TaskManager.useDaemon cfg = false ->
  TaskManager.getTask taskId tm = Some l ->
  TaskManager.read tm l = Some t ->
  exists e tm1,
    TaskManager.executeTask_begin taskId cfg child tm = (Ok (TaskManager.AwaitExecutor e), tm1)
    /\ live e taskId l "" (TaskManager.output t) tm1
    /\ TaskManager.statusOf tm1 l = Some TaskManager.running
    /\ TaskManager.executors tm1 !! taskId = Some e.
Proof.
  unfold TaskManager.getTask, TaskManager.read. intros Hcfg Hl Ht.
  unfold TaskManager.executeTask_begin. rewrite Hl. cbn.
  rewrite list_lookup_alter_eq, Ht, Hcfg. cbn.
  eexists _, _. split; [reflexivity|]. split; [|split].
  - eexists _, _. cbn. rewrite lookup_app_r, Nat.sub_diag by lia. cbn.
    rewrite list_lookup_alter_eq, Ht. cbn. repeat split; reflexivity.
  - unfold TaskManager.statusOf. cbn. rewrite list_lookup_alter_eq, Ht. reflexivity.
  - cbn. apply lookup_insert_eq.
Qed.

Lemma deliver_chunk e taskId l buf out tm ev text time :
  live e taskId l buf out tm ->
  chunkOf ev = Some text ->
  exists tm',
    TaskManager.deliver e ev time time tm = (None, tm')
    /\ live e taskId l (buf +:+ text) (out +:+ text) tm'.
Proof.
  intros (p & t & Hp & Hid & Hl & Hbuf & Hpend & Ht & Hout) Hev.
  unfold TaskManager.deliver. rewrite Hp.
  subst taskId l buf out.
  pose proof (lookup_lt_Some _ _ _ Hp) as Hlt.
  destruct ev as [chunk|chunk| | |]; try discriminate; injection Hev as ->;
    cbn; eexists; (split; [reflexivity|]);
    eexists _, _; cbn;
    rewrite list_lookup_insert_eq by exact Hlt;
    rewrite ?list_lookup_alter_eq, Ht; cbn;
    repeat split; try reflexivity; assumption.
Qed.

Lemma feed_chunks e taskId l :
  forall evs buf out tm,
    live e taskId l buf out tm ->
    forallb isChunk evs.*1 = true ->
    live e taskId l (buf +:+ textOf evs) (out +:+ textOf evs) (feed e evs tm).
Proof.
  induction evs as [|[ev time] evs IH]; intros buf out tm Hlive Hall.
  - cbn. rewrite !append_nil_r. exact Hlive.
  - cbn in Hall. apply andb_prop in Hall as [Hev Hall].
    unfold isChunk in Hev. destruct (chunkOf ev) as [text|] eqn:E; [|discriminate].
    destruct (deliver_chunk e taskId l buf out tm ev text time Hlive E) as (tm' & Hd & Hlive').
    unfold feed. cbn. rewrite Hd. cbn. rewrite E. cbn.
    rewrite <- !append_assoc. apply (IH _ _ _ Hlive' Hall).
Qed.

Lemma deliver_close e taskId l buf out tm code time doneAt :
  live e taskId l buf out tm ->
  exists tm' t',
    TaskManager.deliver e (CLIExecutor.Close code) time doneAt tm
    = (Some (match code with
             | Some 0 => Ok buf
             | _ => Throw (CLIExecutor.failureMessage code buf)
             end), tm')
    /\ (CLIExecutor.promise ∘ TaskManager.executor) <$> TaskManager.procs tm' !! e
       = Some (Some (match code with
                     | Some 0 => Ok buf
                     | _ => Throw (CLIExecutor.failureMessage code buf)
                     end))
    /\ TaskManager.read tm' l = Some t'
    /\ TaskManager.completedAt t' = Some doneAt
    /\ TaskManager.executors tm' !! taskId = None
    /\ match code with
       | Some 0 =>
           TaskManager.status t' = TaskManager.completed
           /\ TaskManager.progress t' = 100
           /\ TaskManager.output t' = buf
       | _ =>
           TaskManager.status t' = TaskManager.failed
           /\ TaskManager.error t' = Some (CLIExecutor.failureMessage code buf)
           /\ TaskManager.output t' = out +:+ "Exit code: " +:+ CLIExecutor.showCode code
       end.
Proof.
  intros (p & t & Hp & Hid & Hl & Hbuf & Hpend & Ht & Hout).
  subst taskId l buf out.
  pose proof (lookup_lt_Some _ _ _ Hp) as Hlt.
  unfold TaskManager.deliver. rewrite Hp. cbn.
  unfold CLIExecutor.settle. cbn. rewrite Hpend.
  assert (Hcases : code = Some 0 \/ code <> Some 0).
  { destruct code as [[| |]|]; auto; right; discriminate. }
  destruct Hcases as [-> | Hne].
  - cbn. eexists _, _. split; [reflexivity|].
    unfold TaskManager.read. cbn.
    rewrite list_lookup_insert_eq by exact Hlt.
    rewrite !list_lookup_alter_eq, Ht. cbn.
    split; [reflexivity|].
    split; [reflexivity|]. split; [reflexivity|]. split; [apply lookup_delete_eq|].
    repeat split; reflexivity.
  - assert (E : match code with
                | Some 0 => Ok (CLIExecutor.output (TaskManager.executor p))
                | _ => Throw (CLIExecutor.failureMessage code
                                (CLIExecutor.output (TaskManager.executor p)))
                end
                = Throw (CLIExecutor.failureMessage code
                           (CLIExecutor.output (TaskManager.executor p)))).
    { destruct code as [[| |]|]; congruence. }
    rewrite E. cbn. eexists _, _. split.
    { destruct code as [[| |]|]; try congruence; reflexivity. }
    unfold TaskManager.read. cbn.
    rewrite list_lookup_insert_eq by exact Hlt.
    rewrite !list_lookup_alter_eq, Ht. cbn.
    split; [destruct code as [[| |]|]; try congruence; reflexivity|].
    split; [reflexivity|]. split; [reflexivity|]. split; [apply lookup_delete_eq|].
    destruct code as [[| |]|]; try congruence; repeat split; reflexivity.
Qed.





(** ** Cancellation *)

Lemma cancel_keeps_live e taskId l buf out tm time :
  live e taskId l buf out tm ->
  TaskManager.executors tm !! taskId = Some e ->
  TaskManager.getTask taskId tm = Some l ->
  exists tm',
    TaskManager.cancelTask taskId time tm = (true, tm')
    /\ live e taskId l buf out tm'
    /\ TaskManager.statusOf tm' l = Some TaskManager.cancelled.
Proof.
  intros (p & t & Hp & Hid & Hl & Hbuf & Hpend & Ht & Hout) He Hget.
  unfold TaskManager.getTask in Hget.
  unfold TaskManager.cancelTask. rewrite He, Hget.
  eexists. split; [reflexivity|]. split.
  - eexists _, _. cbn. rewrite !list_lookup_alter_eq, Hp, Ht. cbn.
    repeat split; try assumption.
    + unfold CLIExecutor.cancel.
      destruct (CLIExecutor.process _); [destruct (CLIExecutor.isRunning _)|]; assumption.
    + unfold CLIExecutor.cancel.
      destruct (CLIExecutor.process _); [destruct (CLIExecutor.isRunning _)|]; assumption.
  - unfold TaskManager.statusOf. cbn. rewrite list_lookup_alter_eq, Ht. reflexivity.
Qed.

(** A task cancelled while its process runs does not stay cancelled:
    when the process ends, the awaiting [executeTask] overwrites the
    status with failed, or with completed if the exit code is 0. *)
Lemma cancelled_is_overwritten e taskId l buf out tm time code time' doneAt :
  live e taskId l buf out tm ->
  TaskManager.executors tm !! taskId = Some e ->
  TaskManager.getTask taskId tm = Some l ->
  let tm1 := snd (TaskManager.cancelTask taskId time tm) in
  let tm2 := snd (TaskManager.deliver e (CLIExecutor.Close code) time' doneAt tm1) in
  TaskManager.statusOf tm1 l = Some TaskManager.cancelled
  /\ TaskManager.statusOf tm2 l
     = Some (match code with
             | Some 0 => TaskManager.completed
             | _ => TaskManager.failed
             end).
Proof.
  intros Hlive He Hget.
  destruct (cancel_keeps_live e taskId l buf out tm time Hlive He Hget)
    as (tm1 & Hc & Hlive1 & Hs1).
  destruct (deliver_close e taskId l buf out tm1 code time' doneAt Hlive1)
    as (tm2 & t' & Hd & _ & Hr & _ & _ & Hrest).
  cbn zeta. rewrite Hc. cbn [snd]. rewrite Hd. cbn [snd].
  split; [exact Hs1|].
  unfold TaskManager.statusOf. unfold TaskManager.read in Hr. rewrite Hr. cbn.
  destruct code as [[| |]|]; destruct Hrest as (-> & _); reflexivity.
Qed.

(** C1. The status of a task is meant to move along pending, running,
    then one of completed, failed and cancelled, and to stay there.  The
    code does not keep to it: a task is created and executed with the
    process executor, its process writes a chunk, the task is cancelled
    (status cancelled, the process is killed), and when the killed
    process closes, the [catch] block of the awaiting [executeTask] sets
    the status to failed.  The statuses read after each step are pending,
    running, running, cancelled, failed. *)
Theorem cancelled_task_ends_failed :
  let tm0 := oneTask claude in
  let tm1 := snd (TaskManager.executeTask_begin firstId cliConfig 42 tm0) in
  let tm2 := snd (TaskManager.deliver 0 (CLIExecutor.Stdout "par") 1001 1001 tm1) in
  let tm3 := snd (TaskManager.cancelTask firstId 1002 tm2) in
  let tm4 := snd (TaskManager.deliver 0 (CLIExecutor.Close None) 1003 1003 tm3) in
  TaskManager.getTask firstId tm0 = Some 0%nat
  /\ fst (TaskManager.cancelTask firstId 1002 tm2) = true
  /\ (fun tm => TaskManager.statusOf tm 0) <$> [tm0; tm1; tm2; tm3; tm4]
     = Some <$> [TaskManager.pending; TaskManager.running; TaskManager.running;
                 TaskManager.cancelled; TaskManager.failed]
  /\ fst (TaskManager.deliver 0 (CLIExecutor.Close None) 1003 1003 tm3)
     = Some (Throw ("Command failed with exit code null" +:+ CLIExecutor.nl +:+ "par")).
Proof. vm_compute. auto. Qed.

(** ** Tasks handed to a daemon *)

(** The task ends as [sendPrompt] ends: completed with the text
    returned, or failed with the message of the daemon's error. *)
Lemma executeTask_daemon_ends a text taskId l doneAt tm d w t :
  TaskManager.read tm l = Some t ->
  let r := fst (fst (sendPrompt a text d w)) in
  let tm' := snd (fst (fst (executeTask_daemon a text taskId l doneAt tm d w))) in
  fst (fst (fst (executeTask_daemon a text taskId l doneAt tm d w))) = r
  /\ TaskManager.read tm' l
     = Some (match r with
             | Ok result =>
                 TaskManager.set_completedAt doneAt
                   (TaskManager.set_progress 100
                      (TaskManager.set_status TaskManager.completed
                         (TaskManager.set_output result t)))
             | Throw message =>
                 TaskManager.set_completedAt doneAt
                   (TaskManager.set_error message
                      (TaskManager.set_status TaskManager.failed t))
             end).
Proof.
  unfold TaskManager.read. intros Ht. unfold executeTask_daemon.
  destruct (sendPrompt a text d w) as [[[result|message] d'] w']; cbn;
    rewrite list_lookup_alter_eq, Ht; split; reflexivity.
Qed.

(** C2, as stated, fails: a running task that was handed to the Gemini
    daemon is still running after [cancelTask], which returns false. *)
Lemma daemon_task_is_not_cancelled :
  fst (TaskManager.executeTask_begin firstId daemonConfig 42 (oneTask gemini))
  = Ok (TaskManager.AwaitDaemon gemini "hello" firstId 0)
  /\ TaskManager.statusOf daemon1 0 = Some TaskManager.running
  /\ fst (TaskManager.cancelTask firstId 1001 daemon1) = false
  /\ TaskManager.statusOf (snd (TaskManager.cancelTask firstId 1001 daemon1)) 0
     <> Some TaskManager.cancelled.
Proof. vm_compute. repeat split; discriminate. Qed.

(** C2, amended.  For a running task that was handed to a daemon and
    has no executor tracked, [cancelTask] is a no-operation: it returns
    false and leaves the registry as it was, the recorded status
    (running) included.  No executor is tracked for such a task, and the
    registry holds no handle on the daemon or its loop. *)
Theorem cancel_daemon_task_is_noop
        (tm : TaskManager.TaskManager) (taskId : string) (cfg : TaskManager.Config)
        (child : Z) (a : AgentType) (text : string) (l : nat)
        (tm1 : TaskManager.TaskManager) (time : Z)
        (Hfree : TaskManager.executors tm !! taskId = None)
        (Hbegin : TaskManager.executeTask_begin taskId cfg child tm
                  = (Ok (TaskManager.AwaitDaemon a text taskId l), tm1)) :
  TaskManager.statusOf tm1 l = Some TaskManager.running
  /\ TaskManager.executors tm1 !! taskId = None
  /\ TaskManager.cancelTask taskId time tm1 = (false, tm1).
Proof.
  unfold TaskManager.executeTask_begin in Hbegin.
  destruct (TaskManager.lookupTask taskId (TaskManager.tasks tm)) as [l'|]; [|discriminate].
  cbn in Hbegin. rewrite list_lookup_alter_eq in Hbegin.
  destruct (TaskManager.store tm !! l') as [t|] eqn:Et; [|discriminate].
  cbn in Hbegin. destruct (TaskManager.useDaemon cfg); [|discriminate].
  injection Hbegin as _ _ <- <-.
  split; [|split].
  - unfold TaskManager.statusOf. cbn. rewrite list_lookup_alter_eq, Et. reflexivity.
  - exact Hfree.
  - unfold TaskManager.cancelTask. cbn. rewrite Hfree. reflexivity.
Qed.

Lemma cancel_daemon_task_is_noop_witness :
  TaskManager.statusOf daemon1 0 = Some TaskManager.running
  /\ TaskManager.executors daemon1 !! firstId = None
  /\ TaskManager.cancelTask firstId 1001 daemon1 = (false, daemon1).
Proof.
  apply (cancel_daemon_task_is_noop (oneTask gemini) firstId daemonConfig 42
           gemini "hello" 0 daemon1 1001); reflexivity.
Defined.

(** ** References to task objects *)

Lemma lookupTask_elem taskId l m :
  TaskManager.lookupTask taskId m = Some l -> l ∈ m.*2.
Proof.
  induction m as [|[k l'] m IH]; cbn; [discriminate|].
  destruct (String.eqb taskId k).
  - intros [= ->]. apply list_elem_of_here.
  - intros H. apply list_elem_of_further, IH, H.
Qed.

Lemma lookupTask_setTask taskId l m :
  TaskManager.lookupTask taskId (TaskManager.setTask taskId l m) = Some l.
Proof.
  induction m as [|[k l'] m IH]; cbn.
  - rewrite String.eqb_refl. reflexivity.
  - destruct (String.eqb taskId k) eqn:E; cbn; rewrite E; [reflexivity | exact IH].
Qed.

(** C3, as stated, fails: the task returned by [createTask] is the
    object that the registry stores.  After the caller sets its status,
    [getTask] and [getCompletedTasks] answer differently; and after the
    registry starts executing the task, the value returned earlier reads
    differently. *)
Lemma returned_task_is_the_stored_one :
  let created := TaskManager.createTask claude "hello" 1000 1000 TaskManager.empty in
  let task := fst created in
  let tm1 := snd created in
  let tm2 := callerWrites task (TaskManager.set_status TaskManager.completed) tm1 in
  let tm3 := snd (TaskManager.executeTask_begin firstId cliConfig 42 tm1) in
  TaskManager.getTask firstId tm1 = Some task
  /\ TaskManager.getAllTasks tm1 = [task]
  /\ (TaskManager.getTask firstId tm2 ≫= TaskManager.read tm2)
     <> (TaskManager.getTask firstId tm1 ≫= TaskManager.read tm1)
  /\ TaskManager.getCompletedTasks tm2 <> TaskManager.getCompletedTasks tm1
  /\ TaskManager.read tm3 task <> TaskManager.read tm1 task.
Proof. vm_compute. repeat split; discriminate. Qed.

(** C3, amended.  [createTask] and [getTask] return the registry's own
    task object, and [getAllTasks], [getRunningTasks] and
    [getCompletedTasks] return a new array of such objects: a write made
    through a returned task is a write to the stored task, seen by every
    later query (which tasks are listed under which id does not change),
    and a later mutation by the registry, such as [executeTask] setting
    the status to running, is seen through a task returned earlier. *)
Theorem queries_return_shared_records
        (tm : TaskManager.TaskManager) (taskId : string) (l : nat)
        (f : TaskManager.Task -> TaskManager.Task)
        (a : AgentType) (text : string) (time time' : Z)
        (cfg : TaskManager.Config) (child : Z)
        (Hl : TaskManager.getTask taskId tm = Some l) :
  (exists t,
      TaskManager.read (snd (TaskManager.createTask a text time time' tm))
        (fst (TaskManager.createTask a text time time' tm)) = Some t
      /\ TaskManager.getTask (TaskManager.id t) (snd (TaskManager.createTask a text time time' tm))
         = Some (fst (TaskManager.createTask a text time time' tm))
      /\ TaskManager.status t = TaskManager.pending
      /\ TaskManager.progress t = 0)
  /\ l ∈ TaskManager.getAllTasks tm
  /\ TaskManager.getRunningTasks tm ⊆ TaskManager.getAllTasks tm
  /\ TaskManager.getCompletedTasks tm ⊆ TaskManager.getAllTasks tm
  /\ TaskManager.getTask taskId (callerWrites l f tm) = Some l
  /\ TaskManager.getAllTasks (callerWrites l f tm) = TaskManager.getAllTasks tm
  /\ TaskManager.read (callerWrites l f tm) l = f <$> TaskManager.read tm l
  /\ (forall aw tm1,
        TaskManager.executeTask_begin taskId cfg child tm = (Ok aw, tm1) ->
        TaskManager.status <$> TaskManager.read tm1 l = Some TaskManager.running).
Proof.
  split.
  { eexists. cbn. rewrite lookup_app_r, Nat.sub_diag by lia. cbn.
    split; [reflexivity|]. split; [|split; reflexivity].
    unfold TaskManager.getTask. cbn. apply lookupTask_setTask. }
  split; [apply (lookupTask_elem taskId), Hl|].
  split; [apply list_subseteq_filter|].
  split; [apply list_subseteq_filter|].
  split; [exact Hl|]. split; [reflexivity|].
  split; [apply list_lookup_alter_eq|].
  intros aw tm1 Hb. unfold TaskManager.getTask in Hl.
  unfold TaskManager.executeTask_begin in Hb. rewrite Hl in Hb.
  cbn in Hb. rewrite list_lookup_alter_eq in Hb.
  destruct (TaskManager.store tm !! l) as [t|] eqn:Et; [|discriminate].
  cbn in Hb. unfold TaskManager.read.
  destruct (TaskManager.useDaemon cfg); injection Hb as _ <-; cbn;
    rewrite list_lookup_alter_eq, Et; reflexivity.
Qed.

Lemma queries_return_shared_records_witness :
  TaskManager.getTask firstId
    (callerWrites 0 (TaskManager.set_status TaskManager.completed) (oneTask claude))
  = Some 0%nat
  /\ TaskManager.status
       <$> TaskManager.read
             (callerWrites 0 (TaskManager.set_status TaskManager.completed) (oneTask claude)) 0
     = Some TaskManager.completed
  /\ TaskManager.status
       <$> TaskManager.read
             (snd (TaskManager.executeTask_begin firstId cliConfig 42 (oneTask claude))) 0
     = Some TaskManager.running.
Proof.
  destruct (queries_return_shared_records (oneTask claude) firstId 0
              (TaskManager.set_status TaskManager.completed) claude "again" 2000 2001
              cliConfig 42 eq_refl)
    as (_ & _ & _ & _ & Hget & _ & Hread & Hrun).
  split; [exact Hget|]. split.
  - rewrite Hread. reflexivity.
  - apply (Hrun (TaskManager.AwaitExecutor 0)
             (snd (TaskManager.executeTask_begin firstId cliConfig 42 (oneTask claude)))).
    reflexivity.
Defined.

(** * Further properties

    Properties of the same code beyond the ones above, and of the code
    around it. *)

(** ** Escaping *)

Lemma mapChars_app f s t : mapChars f (s +:+ t) = mapChars f s +:+ mapChars f t.
Proof.
  induction s as [|c s IH].
  - reflexivity.
  - change (f c +:+ mapChars f (s +:+ t) = (f c +:+ mapChars f s) +:+ mapChars f t).
    rewrite IH. symmetry. apply append_assoc.
Qed.

Lemma mapChars_mapChars f g s :
  mapChars g (mapChars f s) = mapChars (fun c => mapChars g (f c)) s.
Proof.
  induction s as [|c s IH].
  - reflexivity.
  - cbn [mapChars]. rewrite mapChars_app, IH. reflexivity.
Qed.

Lemma mapChars_ext f g s : (forall c, f c = g c) -> mapChars f s = mapChars g s.
Proof.
  intros E. induction s as [|c s IH]; [reflexivity|].
  cbn [mapChars]. rewrite E, IH. reflexivity.
Qed.

Lemma subst_chr p rep bol s :
  Regex.subst (Regex.Chr p) rep 0 bol s
  = mapChars (fun x => if p x then rep else String x EmptyString) s.
Proof.
  revert bol. induction s as [|c s IH]; intros bol.
  - reflexivity.
  - cbn [Regex.subst Regex.exec Regex.run mapChars].
    destruct (p c) eqn:E.
    + cbn [String.length].
      replace (S (String.length s) - String.length s)%nat with 1%nat by lia.
      cbn [Nat.eqb Nat.pred]. rewrite IH. reflexivity.
    + rewrite IH. reflexivity.
Qed.

Lemma replaceChar_mapChars c rep s :
  replaceChar c rep s
  = mapChars (fun x => if Ascii.eqb c x then rep else String x EmptyString) s.
Proof. apply subst_chr. Qed.

Lemma escapeForTmux_escaped text : escapeForTmux text = mapChars escaped text.
Proof.
  unfold escapeForTmux. rewrite !replaceChar_mapChars, !mapChars_mapChars.
  apply mapChars_ext. intros c. unfold escaped, special.
  destruct (Ascii.eqb_spec c "092") as [->|N1]; [reflexivity|].
  destruct (Ascii.eqb_spec c "034") as [->|N2]; [reflexivity|].
  destruct (Ascii.eqb_spec c "$") as [->|N3]; [reflexivity|].
  destruct (Ascii.eqb_spec c "`") as [->|N4]; [reflexivity|].
  assert (F : forall x, c <> x -> Ascii.eqb x c = false).
  { intros x Hx. apply Ascii.eqb_neq. congruence. }
  cbn [orb].
  rewrite (F _ N1). cbn [mapChars]. change (String c "" +:+ "") with (String c "").
  rewrite (F _ N2). cbn [mapChars]. change (String c "" +:+ "") with (String c "").
  rewrite (F _ N3). cbn [mapChars]. change (String c "" +:+ "") with (String c "").
  rewrite (F _ N4). reflexivity.
Qed.

Lemma unquote_escaped c s :
  unquote (escaped c +:+ s) = String c (unquote s).
Proof.
  unfold escaped. destruct (special c) eqn:E.
  - change (unquote (String "092" (String c s)) = String c (unquote s)).
    cbn [unquote]. change (Ascii.eqb "092" "092") with true. cbn match.
    rewrite E. reflexivity.
  - change (unquote (String c s) = String c (unquote s)).
    unfold special in E. apply orb_false_elim in E as [E _].
    apply orb_false_elim in E as [E _]. apply orb_false_elim in E as [E _].
    destruct s; cbn [unquote]; rewrite E; reflexivity.
Qed.

Lemma unquote_mapChars s : unquote (mapChars escaped s) = s.
Proof.
  induction s as [|c s IH]; [reflexivity|].
  cbn [mapChars]. rewrite unquote_escaped, IH. reflexivity.
Qed.

(** X4. [escapeForTmux] works character by character: backslash, double
    quote, dollar and backquote each get one backslash in front, every
    other character is kept, and the four passes do not disturb each
    other (the backslashes that a later pass meets were put there for
    the characters it does not look for).  Reading the result back,
    taking a backslash in front of one of the four characters for that
    character, gives the prompt again: nothing of the prompt is lost, so
    distinct prompts have distinct escaped forms. *)
Theorem escapeForTmux_round_trip (text : string) :
  escapeForTmux text = mapChars escaped text
  /\ unquote (escapeForTmux text) = text.
Proof.
  split; [apply escapeForTmux_escaped|].
  rewrite escapeForTmux_escaped. apply unquote_mapChars.
Qed.

(** ** Reading numbers *)

Lemma valueOf_acc d acc : valueOf d (Z.pos acc) = Z.pos (Pos.of_uint_acc d acc).
Proof.
  revert acc. induction d; intros acc; cbn [valueOf Pos.of_uint_acc];
    [reflexivity| rewrite <- IHd; f_equal; lia ..].
Qed.

Lemma valueOf_of_uint d : valueOf d 0 = Z.of_N (Pos.of_uint d).
Proof.
  induction d; cbn [valueOf Pos.of_uint Z.of_N];
    first [reflexivity | exact IHd | (rewrite <- valueOf_acc; reflexivity)].
Qed.

Lemma valueOf_to_uint p : valueOf (Pos.to_uint p) 0 = Z.pos p.
Proof. rewrite valueOf_of_uint, DecimalPos.Unsigned.of_to. reflexivity. Qed.

Lemma digits_stop acc rest :
  firstIs Str.isDigit rest = false -> Str.digits acc true rest = Some acc.
Proof. destruct rest as [|c r]; cbn [firstIs Str.digits]; [reflexivity|]. intros ->. reflexivity. Qed.

Lemma digits_uint d : forall acc seen rest,
  firstIs Str.isDigit rest = false ->
  d <> Nil ->
  Str.digits acc seen (NilEmpty.string_of_uint d +:+ rest) = Some (valueOf d acc).
Proof.
  induction d; intros acc seen rest Hr Hd; [congruence| ..];
    cbn [NilEmpty.string_of_uint valueOf];
    match goal with
    | |- Str.digits _ _ (String ?c ?s +:+ _) = _ =>
        change (String c s +:+ rest) with (String c (s +:+ rest))
    end;
    cbn [Str.digits]; 
    match goal with
    | |- (if Str.isDigit ?c then _ else _) = _ =>
        change (Str.isDigit c) with true; cbn match;
        let v := eval vm_compute in (Z.of_N (Str.code c - 48)) in
        change (Z.of_N (Str.code c - 48)) with v
    end;
    (destruct d; [apply digits_stop, Hr | apply IHd; [exact Hr|discriminate] .. ]).
Qed.

Lemma to_uint_nonnil p : Pos.to_uint p <> Nil.
Proof. apply DecimalPos.Unsigned.to_uint_nonnil. Qed.

Lemma string_of_uint_nz d : d <> Nil -> NilZero.string_of_uint d = NilEmpty.string_of_uint d.
Proof. destruct d; [congruence|reflexivity..]. Qed.

Lemma uint_head d : d <> Nil ->
  exists c s, NilEmpty.string_of_uint d = String c s /\ Str.isDigit c = true.
Proof.
  destruct d; [congruence|..]; intros _; cbn [NilEmpty.string_of_uint];
    eexists _, _; (split; [reflexivity|reflexivity]).
Qed.

Lemma digit_not_special c :
  Str.isDigit c = true ->
  Str.isSpace c = false /\ c <> "-"%char /\ c <> "+"%char.
Proof.
  intros H. split; [|split; intros ->; discriminate H].
  unfold Str.isDigit, Str.isSpace, Str.code in *.
  apply andb_prop in H as [H1 H2]. apply N.leb_le in H1. apply N.leb_le in H2.
  apply orb_false_intro; [apply orb_false_intro|].
  - apply andb_false_intro2. apply N.leb_gt. lia.
  - apply N.eqb_neq. lia.
  - apply N.eqb_neq. lia.
Qed.

Lemma parseInt_digits c s :
  Str.isDigit c = true ->
  Str.parseInt (String c s) = Str.digits 0 false (String c s).
Proof.
  intros H. destruct (digit_not_special c H) as (Hs & Hm & Hp).
  unfold Str.parseInt. cbn [Str.dropSpaces]. rewrite Hs.
  destruct c as [[] [] [] [] [] [] [] []]; try reflexivity; congruence.
Qed.

Lemma parseInt_ofZ_then z rest :
  firstIs Str.isDigit rest = false ->
  Str.parseInt (Str.ofZ z +:+ rest) = Some z.
Proof.
  intros Hr. unfold Str.ofZ. destruct z as [|p|p]; cbn [Z.to_int NilZero.string_of_int].
  - change (Str.parseInt (String "0" rest) = Some 0).
    rewrite parseInt_digits by reflexivity. cbn [Str.digits].
    change (Str.isDigit "0") with true. cbn match. apply digits_stop, Hr.
  - rewrite string_of_uint_nz by apply to_uint_nonnil.
    destruct (uint_head (Pos.to_uint p) (to_uint_nonnil p)) as (c & s & E & Hc).
    pose proof (digits_uint (Pos.to_uint p) 0 false rest Hr (to_uint_nonnil p)) as D.
    rewrite E in D |- *. change (String c s +:+ rest) with (String c (s +:+ rest)) in *.
    rewrite parseInt_digits by exact Hc. rewrite D, valueOf_to_uint. reflexivity.
  - rewrite string_of_uint_nz by apply to_uint_nonnil.
    change (Str.parseInt (String "-" (NilEmpty.string_of_uint (Pos.to_uint p) +:+ rest))
            = Some (Z.neg p)).
    unfold Str.parseInt. cbn [Str.dropSpaces]. change (Str.isSpace "-") with false.
    cbn match.
    rewrite (digits_uint (Pos.to_uint p) 0 false rest Hr (to_uint_nonnil p)).
    rewrite valueOf_to_uint. reflexivity.
Qed.

(** ** White space *)

Lemma dropSpaces_blank pre s : blank pre -> Str.dropSpaces (pre +:+ s) = Str.dropSpaces s.
Proof.
  unfold blank. induction pre as [|c pre IH]; [reflexivity|].
  cbn [hasChar]. intros H. apply orb_false_elim in H as [Hc H].
  apply negb_false_iff in Hc.
  change (Str.dropSpaces (String c (pre +:+ s)) = Str.dropSpaces s).
  cbn [Str.dropSpaces]. rewrite Hc. apply IH, H.
Qed.

Lemma dropSpaces_keep s : firstIs Str.isSpace s = false -> Str.dropSpaces s = s.
Proof. destruct s as [|c s]; [reflexivity|]. cbn [firstIs Str.dropSpaces]. intros ->. reflexivity. Qed.

Lemma dropTrailing_blank post : blank post -> Str.dropTrailing post = "".
Proof.
  unfold blank. induction post as [|c post IH]; [reflexivity|].
  cbn [hasChar]. intros H. apply orb_false_elim in H as [Hc H].
  apply negb_false_iff in Hc. cbn [Str.dropTrailing]. rewrite (IH H), Hc. reflexivity.
Qed.

Lemma dropTrailing_app s post :
  blank post -> Str.dropTrailing (s +:+ post) = Str.dropTrailing s.
Proof.
  intros H. induction s as [|c s IH].
  - apply dropTrailing_blank, H.
  - change (Str.dropTrailing (String c (s +:+ post)) = Str.dropTrailing (String c s)).
    cbn [Str.dropTrailing]. rewrite IH. reflexivity.
Qed.

Lemma dropTrailing_keep s : lastIs Str.isSpace s = false -> Str.dropTrailing s = s.
Proof.
  induction s as [|c s IH]; [reflexivity|].
  destruct s as [|c2 s].
  - cbn [lastIs Str.dropTrailing]. intros ->. reflexivity.
  - intros H. change (lastIs Str.isSpace (String c2 s) = false) in H.
    cbn [Str.dropTrailing] in IH |- *. rewrite (IH H). reflexivity.
Qed.

Lemma lastIs_hasChar p s : hasChar p s = false -> lastIs p s = false.
Proof.
  induction s as [|c s IH]; [reflexivity|].
  cbn [hasChar]. intros H. apply orb_false_elim in H as [Hc H].
  destruct s; [exact Hc|]. apply IH, H.
Qed.

Lemma dropSpaces_first s : firstIs Str.isSpace (Str.dropSpaces s) = false.
Proof.
  induction s as [|c s IH]; [reflexivity|].
  cbn [Str.dropSpaces]. destruct (Str.isSpace c) eqn:E; [exact IH|exact E].
Qed.

Lemma dropTrailing_first s :
  firstIs Str.isSpace s = false -> firstIs Str.isSpace (Str.dropTrailing s) = false.
Proof.
  destruct s as [|c s]; [reflexivity|]. cbn [firstIs Str.dropTrailing]. intros E.
  destruct (Str.dropTrailing s); [rewrite E|]; exact E.
Qed.

Lemma dropTrailing_last s : lastIs Str.isSpace (Str.dropTrailing s) = false.
Proof.
  induction s as [|c s IH]; [reflexivity|].
  cbn [Str.dropTrailing]. destruct (Str.dropTrailing s) as [|c2 t] eqn:E.
  - destruct (Str.isSpace c) eqn:Ec; [reflexivity|exact Ec].
  - exact IH.
Qed.

Lemma hasChar_dropSpaces p s : hasChar p s = false -> hasChar p (Str.dropSpaces s) = false.
Proof.
  induction s as [|c s IH]; [reflexivity|].
  intros H. cbn [Str.dropSpaces]. destruct (Str.isSpace c); [|exact H].
  cbn [hasChar] in H. apply orb_false_elim in H as [_ H]. apply IH, H.
Qed.

Lemma hasChar_dropTrailing p s : hasChar p s = false -> hasChar p (Str.dropTrailing s) = false.
Proof.
  induction s as [|c s IH]; [reflexivity|].
  cbn [hasChar]. intros H. apply orb_false_elim in H as [Hc H].
  cbn [Str.dropTrailing]. specialize (IH H).
  destruct (Str.dropTrailing s) as [|c2 t].
  - destruct (Str.isSpace c); [reflexivity|]. cbn [hasChar]. rewrite Hc. reflexivity.
  - cbn [hasChar] in IH |- *. rewrite Hc. exact IH.
Qed.

Lemma hasChar_mapChars p f s :
  (forall c, hasChar p (f c) = false) -> hasChar p (mapChars f s) = false.
Proof.
  intros H. induction s as [|c s IH]; [reflexivity|].
  cbn [mapChars]. rewrite hasChar_app, H, IH. reflexivity.
Qed.

(** The matcher finds nothing to replace where the first character of
    the pattern does not occur. *)
Lemma subst_absent p r rep s :
  needs p r = true -> hasChar p s = false ->
  forall bol, Regex.subst r rep 0 bol s = s.
Proof.
  intros Hr. induction s as [|c s IH]; intros H bol.
  - cbn [Regex.subst]. rewrite (exec_needs p r bol "" Hr H). reflexivity.
  - cbn [Regex.subst]. rewrite (exec_needs p r bol _ Hr H).
    cbn [hasChar] in H. apply orb_false_elim in H as [_ H].
    rewrite (IH H). reflexivity.
Qed.

(** X5. Whatever the tool wrote, the text that [cleanOutput] returns
    holds no carriage return and neither starts nor ends with white
    space. *)
Theorem cleanOutput_trimmed (output : string) :
  hasChar (Ascii.eqb "013") (cleanOutput output) = false
  /\ firstIs Str.isSpace (cleanOutput output) = false
  /\ lastIs Str.isSpace (cleanOutput output) = false.
Proof.
  unfold cleanOutput, Str.trim. split; [|split].
  - apply hasChar_dropTrailing, hasChar_dropSpaces.
    change (Regex.replaceAll (Regex.Chr (Ascii.eqb "013")) "") with (replaceChar "013" "").
    rewrite replaceChar_mapChars. apply hasChar_mapChars.
    intros c. destruct (Ascii.eqb "013" c) eqn:E; [reflexivity|].
    cbn [hasChar]. rewrite E. reflexivity.
  - apply dropTrailing_first, dropSpaces_first.
  - apply dropTrailing_last.
Qed.


Lemma hasChar_or p q s :
  hasChar (fun c => p c || q c) s = false -> hasChar p s = false /\ hasChar q s = false.
Proof.
  induction s as [|c s IH]; [split; reflexivity|].
  cbn [hasChar]. intros H. apply orb_false_elim in H as [Hc H].
  apply orb_false_elim in Hc as [Hp Hq]. destruct (IH H) as [IHp IHq].
  rewrite Hp, Hq, IHp, IHq. split; reflexivity.
Qed.

Lemma trim_trim s : Str.trim (Str.trim s) = Str.trim s.
Proof.
  unfold Str.trim at 1.
  rewrite dropSpaces_keep by (apply dropTrailing_first, dropSpaces_first).
  apply dropTrailing_keep, dropTrailing_last.
Qed.

Lemma cleanOutput_no_ctl s : hasChar ctl s = false -> cleanOutput s = Str.trim s.
Proof.
  intros H. apply hasChar_or in H as [Hesc Hcr].
  unfold cleanOutput, Regex.replaceAll.
  rewrite (subst_absent (Ascii.eqb "027") re_ansi "" s) by (reflexivity || exact Hesc).
  rewrite (subst_absent (Ascii.eqb "013") (Regex.Chr (Ascii.eqb "013")) "" s)
    by (reflexivity || exact Hcr).
  reflexivity.
Qed.

(** X6. On a text without ESC and without carriage return,
    [cleanOutput] is [trim]: nothing inside the text is touched; and
    cleaning such a text twice is cleaning it once. *)
Theorem cleanOutput_plain_text (output : string)
        (Hplain : hasChar ctl output = false) :
  cleanOutput output = Str.trim output
  /\ cleanOutput (cleanOutput output) = cleanOutput output.
Proof.
  rewrite (cleanOutput_no_ctl output Hplain). split; [reflexivity|].
  rewrite cleanOutput_no_ctl; [apply trim_trim|].
  apply hasChar_dropTrailing, hasChar_dropSpaces, Hplain.
Qed.

Lemma cleanOutput_plain_text_witness :
  cleanOutput "  done  " = Str.trim "  done  "
  /\ cleanOutput (cleanOutput "  done  ") = cleanOutput "  done  ".
Proof. apply (cleanOutput_plain_text "  done  "). reflexivity. Defined.

(** ** The size of the output file *)

Lemma uint_no_space d : hasChar Str.isSpace (NilEmpty.string_of_uint d) = false.
Proof. induction d; cbn [NilEmpty.string_of_uint hasChar]; [reflexivity|exact IHd ..]. Qed.

Lemma ofZ_no_space z : hasChar Str.isSpace (Str.ofZ z) = false.
Proof.
  unfold Str.ofZ. destruct z as [|p|p]; cbn [Z.to_int NilZero.string_of_int]; [reflexivity| |].
  - rewrite string_of_uint_nz by apply to_uint_nonnil. apply uint_no_space.
  - rewrite string_of_uint_nz by apply to_uint_nonnil.
    cbn [hasChar]. apply uint_no_space.
Qed.

Lemma ofZ_cons z : exists c s, Str.ofZ z = String c s.
Proof.
  unfold Str.ofZ. destruct z as [|p|p]; cbn [Z.to_int NilZero.string_of_int];
    [eexists _, _; reflexivity| |eexists _, _; reflexivity].
  rewrite string_of_uint_nz by apply to_uint_nonnil.
  destruct (uint_head _ (to_uint_nonnil p)) as (c & s & E & _). eauto.
Qed.

Lemma trim_number pre z post :
  blank pre -> blank post -> Str.trim (pre +:+ Str.ofZ z +:+ post) = Str.ofZ z.
Proof.
  intros Hpre Hpost. unfold Str.trim. rewrite dropSpaces_blank by exact Hpre.
  pose proof (ofZ_no_space z) as Hz.
  destruct (ofZ_cons z) as (c & s & E).
  rewrite dropSpaces_keep.
  - rewrite dropTrailing_app by exact Hpost. apply dropTrailing_keep, lastIs_hasChar, Hz.
  - rewrite E in Hz |- *. cbn [hasChar] in Hz. apply orb_false_elim in Hz as [Hc _].
    exact Hc.
Qed.

Lemma parseInt_ofZ z : Str.parseInt (Str.ofZ z) = Some z.
Proof.
  rewrite <- (append_nil_r (Str.ofZ z)). apply parseInt_ofZ_then. reflexivity.
Qed.

(** X7. When the size query prints a number of at most 2^53 in
    magnitude (the integers that a double holds exactly), with white
    space around it or not (the line feed that [stat] prints, say),
    [getOutputSize] returns that number and leaves the daemon's fields
    alone: reading a decimal rendering back with [parseInt] gives the
    number rendered. *)
Theorem getOutputSize_reads (a : AgentType) (d : Daemon) (w : World)
        (z : Z) (pre post : string)
        (Hsafe : - 2 ^ 53 <= z <= 2 ^ 53)
        (Hpre : blank pre) (Hpost : blank post)
        (Hout : readable (exec_out w (exec_n w)) = Some (pre +:+ Str.ofZ z +:+ post)) :
  getOutputSize a d w = (Ok z, d, snd (runWslCommand (statCommand a) d w))
  /\ Str.parseInt (Str.ofZ z) = Some z.
Proof.
  split; [|apply parseInt_ofZ].
  unfold getOutputSize, try_catch, bind, ret.
  destruct (runWslCommand_readable (statCommand a) d w) as (w' & E & _).
  rewrite Hout in E. rewrite E. cbn [snd].
  rewrite trim_number by assumption. rewrite parseInt_ofZ. reflexivity.
Qed.

Lemma getOutputSize_reads_witness :
  getOutputSize gemini up (scripted [ExecOk ("1234" +:+ CLIExecutor.nl)] (ExecOk "") [])
  = (Ok 1234, up,
     snd (runWslCommand (statCommand gemini) up
            (scripted [ExecOk ("1234" +:+ CLIExecutor.nl)] (ExecOk "") [])))
  /\ Str.parseInt (Str.ofZ 1234) = Some 1234.
Proof.
  apply (getOutputSize_reads gemini up _ 1234 "" CLIExecutor.nl);
    [lia | reflexivity ..].
Defined.

(** ** What the daemons throw *)

Lemma start_ok a d w : exists b d' w', start a d w = (Ok b, d', w').
Proof.
  unfold start, try_catch.
  destruct (bind _ _ d w) as [[[b|msg] d'] w']; eauto.
Qed.

Lemma ensureStarted_ok a d w : exists d' w', ensureStarted a d w = (Ok tt, d', w').
Proof.
  unfold ensureStarted, bind, get_isRunning.
  destruct (negb (isRunning d)); [|eexists _, _; reflexivity].
  destruct (start_ok a d w) as (b & d' & w' & E). rewrite E. eexists _, _; reflexivity.
Qed.

Lemma sendPrompt_wrapped a prompt d w msg d' w' :
  sendPrompt a prompt d w = (Throw msg, d', w') ->
  exists cause, msg = label a +:+ " daemon error: " +:+ cause.
Proof.
  intros Hthrow.
  unfold sendPrompt in Hthrow. unfold bind at 1 in Hthrow.
  destruct (ensureStarted_ok a d w) as (d0 & w0 & E). rewrite E in Hthrow.
  unfold try_catch, throw in Hthrow.
  destruct (bind (prepare a prompt) _ d0 w0) as [[[text|cause] d1] w1]; [discriminate|].
  injection Hthrow as <- _ _. eauto.
Qed.

(** X3. Whatever makes [sendPrompt] throw (a command that fails, a key
    sent to a session that is not running), the message of the error it
    throws is that of the cause behind the agent's prefix, Gemini daemon
    error or Claude daemon error; starting the session never throws. *)
Theorem sendPrompt_errors_are_wrapped
        (a : AgentType) (prompt : string) (d : Daemon) (w : World)
        (msg : string) (d' : Daemon) (w' : World)
        (Hthrow : sendPrompt a prompt d w = (Throw msg, d', w')) :
  (exists cause, msg = label a +:+ " daemon error: " +:+ cause)
  /\ exists d0 w0, ensureStarted a d w = (Ok tt, d0, w0).
Proof.
  split; [apply (sendPrompt_wrapped a prompt d w msg d' w' Hthrow)|].
  apply ensureStarted_ok.
Qed.

Lemma sendPrompt_errors_are_wrapped_witness :
  (exists cause, "Gemini daemon error: boom" = label gemini +:+ " daemon error: " +:+ cause)
  /\ exists d0 w0, ensureStarted gemini up broken = (Ok tt, d0, w0).
Proof.
  eapply (sendPrompt_errors_are_wrapped gemini "hello" up broken).
  vm_compute. reflexivity.
Defined.

(** X2. [stop] never throws.  It issues the one command that kills
    the session; when that command does not throw the running flag is
    cleared, and when it throws the daemon's fields stay as they were,
    so the daemon still counts as running.  The mode is kept. *)
Theorem stop_never_raises (a : AgentType) (d : Daemon) (w : World) :
  exists w',
    stop a d w =
      (Ok tt,
       match readable (exec_out w (exec_n w)) with
       | Some _ => {| isRunning := false; mode := mode d |}
       | None => d
       end, w')
    /\ issued w' = (issued w ++ [wslLine (killCommand a)])%list.
Proof.
  unfold stop, try_catch, bind.
  destruct (runWslCommand_readable (killCommand a) d w) as (w1 & E & Hnow & _ & _ & Hiss).
  rewrite E. destruct (readable (exec_out w (exec_n w))); eexists; eauto.
Qed.

(** ** How long the loop can go on *)





(** ** The operator's answer *)

Lemma has_elem (l : list string) (x : string) : has l x = true -> x ∈ l.
Proof.
  unfold has. intros H. apply existsb_exists in H as (y & Hy & E).
  apply String.eqb_eq in E. subst y. apply list_elem_of_In, Hy.
Qed.

Lemma askOperator_elem items d w :
  exists w1,
    askOperator items d w = (Ok (i ← pick w (pick_n w); items !! i), d, w1)
    /\ now w1 = now w /\ issued w1 = issued w
    /\ exec_n w1 = exec_n w /\ exec_out w1 = exec_out w.
Proof. eexists. split; [reflexivity|]. cbn. auto. Qed.

Lemma askUserForChoice_elem a choice d w answer d1 w1 :
  askUserForChoice a choice d w = (Ok answer, d1, w1) ->
  d1 = d /\ now w1 = now w /\ issued w1 = issued w
  /\ exec_n w1 = exec_n w /\ exec_out w1 = exec_out w
  /\ forall key, answer = Some key -> key ∈ options choice.
Proof.
  unfold askUserForChoice.
  destruct (has (options choice) "enter") eqn:He.
  { unfold bind, askOperator, ret. intros [= <- <- <-]. cbn.
    repeat (split; [reflexivity|]).
    intros key. destruct (pick w (pick_n w) ≫= _); intros [= <-].
    apply has_elem, He. }
  destruct (has (options choice) "y" && has (options choice) "n") eqn:Hyn.
  - apply andb_prop in Hyn as [Hy Hn].
    unfold askOperator. intros [= <- <- <-]. cbn.
    repeat (split; [reflexivity|]).
    intros key. destruct (pick w (pick_n w)) as [[|[|i]]|]; cbn; intros [= <-].
    + apply has_elem, Hy.
    + apply has_elem, Hn.
  - unfold askOperator. intros [= <- <- <-]. cbn.
    repeat (split; [reflexivity|]).
    intros key. destruct (pick w (pick_n w)) as [i|]; cbn; [|discriminate].
    intros H. eapply list_elem_of_lookup_2, H.
Qed.

Lemma indices_elem {A} (ms : list A) key :
  key ∈ indices ms -> exists c rest, key = String c rest.
Proof.
  unfold indices. intros H. apply elem_of_lookup_imap in H as (i & x & -> & _).
  destruct (ofZ_head (Z.of_nat (i + 1))) as (c & rest & E & _). eauto.
Qed.

Lemma detected_option a text choice key :
  detectChoice a text = Some choice -> key ∈ options choice ->
  exists c rest, key = String c rest.
Proof.
  intros Hdet Hin.
  destruct (detectChoice_options a text choice Hdet) as [E | [E | (ms & _ & E)]];
    rewrite E in Hin.
  - apply elem_of_cons in Hin as [-> | Hin]; [eauto|].
    apply list_elem_of_singleton in Hin as ->. eauto.
  - apply list_elem_of_singleton in Hin as ->. eauto.
  - eapply indices_elem, Hin.
Qed.

Lemma sendUserChoice_keys a key d w :
  sendUserChoice a key d w = sendKeys a (answerKeys a key) d w.
Proof.
  unfold sendUserChoice, answerKeys. destruct a; [|reflexivity].
  destruct (String.eqb_spec key "enter") as [->|N]; [|reflexivity].
  cbn [sendKeys]. unfold bind, ret.
  destruct (sendKey claude "enter" d w) as [[[[]|msg] d1] w1]; reflexivity.
Qed.

(** X10. In interactive mode, when a choice is detected the operator
    is asked, which issues no command and leaves the daemon's fields
    alone.  An answer is always one of the options of the choice; it is sent and
    followed by enter, except that the Claude class sends enter only
    once when the answer is enter itself, where the Gemini class sends
    it twice; the turn then starts over with the stability counter at 0.
    When the operator dismisses the dialog, the turn goes on to the
    stability test as if there were no choice. *)
Theorem interactive_answer
        (a : AgentType) (before size : Z) (text : string) (choice : PendingChoice)
        (st : Poll) (d : Daemon) (w : World) (answer : option string)
        (d1 : Daemon) (w1 : World)
        (Hmode : mode d = interactive)
        (Hdet : detectChoice a text = Some choice)
        (Hans : askUserForChoice a choice d w = (Ok answer, d1, w1)) :
  d1 = d /\ issued w1 = issued w
  /\ match answer with
     | Some key =>
         key ∈ options choice
         /\ react a before size text st d w
            = (do! sendKeys a (answerKeys a key) in ret (Again (resetCount st))) d w1
         /\ forall d' w',
              isRunning d = true ->
              sendKeys a (answerKeys a key) d w1 = (Ok tt, d', w') ->
              issued w' = (issued w ++ keystrokes a (answerKeys a key))%list
     | None =>
         react a before size text st d w = (Ok (settle before size text st), d, w1)
     end.
Proof.
  destruct (askUserForChoice_elem a choice d w answer d1 w1 Hans)
    as (-> & Hnow & Hiss & _ & _ & Hin).
  repeat (split; [assumption || reflexivity|]).
  assert (R : react a before size text st d w
              = (let! userChoice := askUserForChoice a choice in
                 match userChoice with
                 | Some (String c rest) =>
                     do! sendUserChoice a (String c rest) in ret (Again (resetCount st))
                 | _ => ret (settle before size text st)
                 end) d w).
  { unfold react. rewrite Hdet. unfold bind at 1, get_mode. rewrite Hmode. reflexivity. }
  destruct answer as [key|]; rewrite R; unfold bind at 1; rewrite Hans; [|reflexivity].
  specialize (Hin key eq_refl). split; [exact Hin|].
  destruct (detected_option a text choice key Hdet Hin) as (c & rest & ->).
  split.
  - unfold bind. rewrite sendUserChoice_keys. reflexivity.
  - intros d' w' Hrun H. rewrite <- Hiss. apply (sendKeys_issued a _ d w1 d' w' Hrun H).
Qed.

Lemma interactive_answer_witness :
  exists w1,
    attended = attended /\ issued w1 = issued confirming
    /\ "enter" ∈ ["enter"]
    /\ react gemini 1 20 "Press Enter to continue" (initialPoll 1) attended confirming
       = (do! sendKeys gemini ["enter"; "enter"] in
          ret (Again (resetCount (initialPoll 1)))) attended w1
    /\ forall d' w',
         isRunning attended = true ->
         sendKeys gemini ["enter"; "enter"] attended w1 = (Ok tt, d', w') ->
         issued w' = (issued confirming ++ keystrokes gemini ["enter"; "enter"])%list.
Proof.
  eexists.
  eapply (interactive_answer gemini 1 20 "Press Enter to continue"
            {| options := ["enter"]; prompt := "Press Enter to continue" |}
            (initialPoll 1) attended confirming (Some "enter") attended).
  - reflexivity.
  - vm_compute. reflexivity.
  - vm_compute. reflexivity.
Defined.

(** ** What auto mode returns *)

Lemma settle_return before size text st out :
  settle before size text st = Return out -> out = text.
Proof.
  unfold settle.
  destruct ((before <? size) && (size =? lastSize st) && String.eqb text (lastOutput st));
    [|discriminate].
  destruct (4 <=? stableCount st + 1); [|discriminate]. intros [= <-]. reflexivity.
Qed.

Lemma sendKey_fixed a key : fixed (sendKey a key).
Proof.
  intros d w. unfold sendKey, bind, get_isRunning.
  destruct (negb (isRunning d)); [reflexivity|].
  destruct (runWslCommand_readable (sendKeysCommand a (tmuxKey a key)) d w) as (w' & E & _).
  rewrite E. destruct (readable (exec_out w (exec_n w))); reflexivity.
Qed.

Lemma bind_fixed {A B} (m : M A) (k : A -> M B) :
  fixed m -> (forall x, fixed (k x)) -> fixed (bind m k).
Proof.
  intros Hm Hk d w. unfold bind. specialize (Hm d w).
  destruct (m d w) as [[[x|msg] d1] w1]; cbn [fst snd] in *; subst d1; [apply Hk|reflexivity].
Qed.

Lemma autoRespond_fixed a choice : fixed (autoRespond a choice).
Proof.
  unfold autoRespond.
  destruct (has (options choice) "y");
    [apply bind_fixed; [|intros _]; apply sendKey_fixed|].
  destruct (has (options choice) "enter"); [apply sendKey_fixed|].
  destruct (options choice); [intros d w; reflexivity|].
  apply bind_fixed; [|intros _]; apply sendKey_fixed.
Qed.

(** In auto mode a turn returns only a text in which no choice is
    detected, and leaves the daemon as it is. *)
Lemma turn_auto a before st d w r d' w' :
  mode d = auto ->
  turn a before st d w = (r, d', w') ->
  d' = d /\ forall text, r = Ok (Return text) -> detectChoice a text = None.
Proof.
  intros Hmode. unfold turn. unfold bind at 1.
  pose proof (observe_daemon a before d w) as Hd.
  destruct (observe a before d w) as [[[[size text]|msg] d0] w0]; cbn [fst snd] in *; subst d0.
  2:{ intros [= <- <- <-]. split; [reflexivity|discriminate]. }
  unfold react. destruct (detectChoice a text) as [choice|] eqn:Hdet.
  - unfold bind at 1, get_mode. rewrite Hmode.
    unfold bind, ret. pose proof (autoRespond_fixed a choice d w0) as Hf.
    destruct (autoRespond a choice d w0) as [[[[]|msg] d1] w1]; cbn [fst snd] in Hf; subst d1;
      intros [= <- <- <-]; (split; [reflexivity|discriminate]).
  - unfold ret. intros [= <- <- <-]. split; [reflexivity|].
    intros out [= H]. apply settle_return in H. subst out. exact Hdet.
Qed.

Lemma finalRead_time a before : timeless (finalRead a before).
Proof.
  unfold finalRead. apply timeless_bind; [apply timeless_runWslCommand|].
  intros x. apply timeless_ret.
Qed.

Lemma poll_auto a before start timeout :
  forall fuel st d w text d' w',
    mode d = auto ->
    timeout - (now w - start) <= 500 * Z.of_nat fuel ->
    poll a before start timeout fuel st d w = (Ok text, d', w') ->
    detectChoice a text = None \/ timeout <= now w' - start.
Proof.
  assert (Hfinal : forall d w text d' w',
             timeout <= now w - start ->
             finalRead a before d w = (Ok text, d', w') -> timeout <= now w' - start).
  { intros d w text d' w' Hout H. pose proof (finalRead_time a before d w) as T.
    rewrite H in T. cbn [snd] in T. lia. }
  induction fuel as [|fuel IH]; intros st d w text d' w' Hmode Hbound H.
  - right. apply (Hfinal d w text d' w'); [lia | exact H].
  - cbn [poll] in H.
    destruct (Z.ltb_spec (now w - start) timeout) as [Hlt|Hge];
      [|right; apply (Hfinal d w text d' w'); [lia | exact H]].
    pose proof (turn_time a before st d w) as Ht.
    destruct (turn a before st d w) as [[r d1] w1] eqn:E.
    destruct (turn_auto a before st d w r d1 w1 Hmode E) as [-> Hret].
    cbn [snd] in Ht.
    destruct r as [[st1|out]|msg]; [| |discriminate].
    + apply (IH st1 d w1 text d' w'); [exact Hmode | lia | exact H].
    + injection H as <- _ _. left. apply Hret. reflexivity.
Qed.

Lemma start_forward a : forward (start a).
Proof.
  intros d w. unfold start, try_catch, bind.
  destruct (runWslCommand_readable (listCommand a) d w) as (w1 & E1 & N1 & _).
  rewrite E1. destruct (readable (exec_out w (exec_n w))) as [sessions|]; cbn;
    [|split; [reflexivity|lia]].
  destruct (Str.includes sessions (SESSION_NAME a)); cbn; [split; [reflexivity|lia]|].
  destruct (runWslCommand_readable (newSessionCommand a) d w1) as (w2 & E2 & N2 & _).
  rewrite E2. destruct (readable (exec_out w1 (exec_n w1))); cbn; (split; [reflexivity|lia]).
Qed.

Lemma ensureStarted_forward a : forward (ensureStarted a).
Proof.
  intros d w. unfold ensureStarted, bind, get_isRunning.
  destruct (negb (isRunning d)); [|cbn; split; [reflexivity|lia]].
  pose proof (start_forward a d w) as H.
  destruct (start a d w) as [[[b|msg] d1] w1]; exact H.
Qed.

Lemma runWslCommand_fixed command : fixed (runWslCommand command).
Proof.
  intros d w. destruct (runWslCommand_readable command d w) as (w' & E & _).
  rewrite E. reflexivity.
Qed.

Lemma getOutputSize_fixed a : fixed (getOutputSize a).
Proof.
  intros d w. unfold getOutputSize, try_catch, bind.
  destruct (runWslCommand_readable (statCommand a) d w) as (w2 & E2 & _).
  rewrite E2. destruct (readable (exec_out w (exec_n w))); reflexivity.
Qed.

Lemma prepare_keeps a prompt d w :
  snd (fst (prepare a prompt d w)) = d /\ now (snd (prepare a prompt d w)) = now w.
Proof.
  split.
  - apply bind_fixed; [apply runWslCommand_fixed|]. intros _.
    apply bind_fixed; [apply getOutputSize_fixed|]. intros size.
    apply bind_fixed; [apply runWslCommand_fixed|]. intros _ d1 w1. reflexivity.
  - apply timeless_bind; [apply timeless_runWslCommand|]. intros _.
    apply timeless_bind; [apply timeless_getOutputSize|]. intros size.
    apply timeless_bind; [apply timeless_runWslCommand|]. intros _. apply timeless_ret.
Qed.

(** X9. In auto mode, a text that [sendPrompt] returns holds no
    pending choice, unless the whole bound (60 seconds for Gemini, 120
    for Claude) has passed: as long as a choice is detected the loop
    answers and polls again, it never takes such a text for the final
    output. *)
Theorem auto_mode_returns_settled_text
        (a : AgentType) (prompt : string) (d : Daemon) (w : World)
        (text : string) (d' : Daemon) (w' : World)
        (Hmode : mode d = auto)
        (Hret : sendPrompt a prompt d w = (Ok text, d', w')) :
  detectChoice a text = None \/ promptTimeout a <= now w' - now w.
Proof.
  unfold sendPrompt in Hret. unfold bind at 1 in Hret.
  destruct (ensureStarted_ok a d w) as (d0 & w0 & E).
  pose proof (ensureStarted_forward a d w) as [Hm0 Hn0].
  rewrite E in Hret, Hm0, Hn0. cbn [fst snd] in Hm0, Hn0.
  unfold try_catch in Hret.
  destruct (bind (prepare a prompt) _ d0 w0) as [[[out|msg] d2] w2] eqn:B;
    [|discriminate].
  injection Hret as -> -> ->.
  unfold bind in B. pose proof (prepare_keeps a prompt d0 w0) as [Hd1 Hn1].
  destruct (prepare a prompt d0 w0) as [[[before|msg] d1] w1]; [|discriminate].
  cbn [fst snd] in Hd1, Hn1. subst d1.
  unfold waitForOutputWithChoiceDetection, bind, dateNow in B.
  apply poll_auto in B.
  - destruct B as [B|B]; [left; exact B|right; lia].
  - congruence.
  - pose proof (turnsWithin_enough (promptTimeout a)). lia.
Qed.

Lemma auto_mode_returns_settled_text_witness :
  exists w',
    detectChoice gemini "done" = None \/ promptTimeout gemini <= now w' - now answering.
Proof.
  eexists. eapply (auto_mode_returns_settled_text gemini "hello" up answering "done" up).
  - reflexivity.
  - vm_compute. reflexivity.
Defined.

(** ** The patterns of the two agents *)

Lemma search_alt_or r1 r2 :
  forall s bol,
    Regex.search (Regex.Alt r1 r2) bol s = Regex.search r1 bol s || Regex.search r2 bol s.
Proof.
  induction s as [|c s IH]; intros bol;
    cbn [Regex.search]; unfold Regex.exec; cbn [Regex.run];
    fold (Regex.exec r1 bol); fold (Regex.exec r2 bol).
  - destruct (Regex.run r1 _ bol ""); [reflexivity|].
    destruct (Regex.run r2 _ bol ""); reflexivity.
  - destruct (Regex.run r1 _ bol (String c s)); [reflexivity|].
    destruct (Regex.run r2 _ bol (String c s)); [rewrite orb_true_r; reflexivity|].
    apply IH.
Qed.

Lemma search_question s :
  forall bol, Regex.search re_question bol s = hasChar (Ascii.eqb "?") s.
Proof.
  induction s as [|c s IH]; intros bol; [reflexivity|].
  cbn [Regex.search hasChar]. unfold Regex.exec, re_question. cbn [Regex.lit Regex.run].
  destruct (Ascii.eqb "?" c); [reflexivity|]. apply IH.
Qed.

Lemma test_allow pre word post :
  sameLetters word "allow" \/ sameLetters word "deny" \/ sameLetters word "permit" ->
  Regex.test re_allow (pre +:+ word +:+ post) = true.
Proof.
  unfold Regex.test, re_allow. rewrite !search_alt_or.
  intros [H | [H | H]].
  - fold (Regex.test (Regex.lit true "allow") (pre +:+ word +:+ post)).
    rewrite (test_lit_ci _ _ pre post H). reflexivity.
  - fold (Regex.test (Regex.lit true "deny") (pre +:+ word +:+ post)).
    rewrite (test_lit_ci _ _ pre post H), orb_true_r. reflexivity.
  - fold (Regex.test (Regex.lit true "permit") (pre +:+ word +:+ post)).
    rewrite (test_lit_ci _ _ pre post H), !orb_true_r. reflexivity.
Qed.

(** X11. The Claude class takes a text that holds one of the words
    allow, deny and permit, in any case, and a question mark, and no
    y/n pattern, for a permission question with the options y and n.
    The Gemini class has no such rule: for the same text it goes on to
    the numbered lines and the continue prompt. *)
Theorem claude_permission_question
        (pre word post : string)
        (Hword : sameLetters word "allow" \/ sameLetters word "deny"
                 \/ sameLetters word "permit")
        (Hq : hasChar (Ascii.eqb "?") (pre +:+ word +:+ post) = true)
        (Hyn : hasYesNo (pre +:+ word +:+ post) = false) :
  detectChoice claude (pre +:+ word +:+ post)
  = Some {| options := ["y"; "n"]; prompt := "Allow this action?" |}
  /\ detectChoice gemini (pre +:+ word +:+ post)
     = match numberedChoice (pre +:+ word +:+ post) with
       | Some c => Some c
       | None => enterChoice gemini (pre +:+ word +:+ post)
       end.
Proof.
  unfold detectChoice. rewrite Hyn, (test_allow pre word post Hword).
  unfold Regex.test at 1. rewrite search_question, Hq. split; reflexivity.
Qed.

Lemma claude_permission_question_witness :
  detectChoice claude ("" +:+ "Allow" +:+ " edits to main.ts?")
  = Some {| options := ["y"; "n"]; prompt := "Allow this action?" |}
  /\ detectChoice gemini ("" +:+ "Allow" +:+ " edits to main.ts?")
     = match numberedChoice ("" +:+ "Allow" +:+ " edits to main.ts?") with
       | Some c => Some c
       | None => enterChoice gemini ("" +:+ "Allow" +:+ " edits to main.ts?")
       end.
Proof.
  apply (claude_permission_question "" "Allow" " edits to main.ts?").
  - left. reflexivity.
  - reflexivity.
  - vm_compute. reflexivity.
Defined.

Lemma indices_seq {A} (ms : list A) :
  indices ms = (fun i => Str.ofNat (S i)) <$> seq 0 (length ms).
Proof.
  unfold indices. rewrite <- (imap_seq_0 ms (fun i => Str.ofNat (S i))).
  apply imap_ext. intros i x _. cbn. rewrite Nat.add_1_r. reflexivity.
Qed.

(** X12. The options of a numbered choice are the positions 1 to n of
    the lines matched, n being at least 2, whatever numbers the lines
    themselves carry, and the prompt names that range; in auto mode the
    answer to such a choice is 1 then enter. *)
Theorem numbered_labels
        (a : AgentType) (text : string) (ms : list string)
        (Hms : Regex.matchAll re_numbered text = Some ms)
        (Htwo : (2 <= length ms)%nat)
        (Hyn : hasYesNo text = false)
        (Hallow : a = claude ->
                  Regex.test re_allow text && Regex.test re_question text = false) :
  detectChoice a text
  = Some {| options := (fun i => Str.ofNat (S i)) <$> seq 0 (length ms);
            prompt := "Select an option (1-" +:+ Str.ofNat (length ms) +:+ ")" |}
  /\ preferred ((fun i => Str.ofNat (S i)) <$> seq 0 (length ms)) = ["1"; "enter"].
Proof.
  assert (N : numberedChoice text
              = Some {| options := (fun i => Str.ofNat (S i)) <$> seq 0 (length ms);
                        prompt := "Select an option (1-" +:+ Str.ofNat (length ms) +:+ ")" |}).
  { unfold numberedChoice. rewrite Hms.
    destruct (Nat.leb_spec 2 (length ms)); [|lia].
    rewrite indices_seq, length_fmap, length_seq. reflexivity. }
  split.
  - unfold detectChoice. rewrite Hyn, N. destruct a; [|reflexivity].
    rewrite (Hallow eq_refl). reflexivity.
  - rewrite <- indices_seq. unfold preferred. rewrite !has_indices by auto.
    destruct (indices_head ms ltac:(lia)) as [-> _]. reflexivity.
Qed.

Lemma numbered_labels_witness :
  detectChoice claude ("5) left" +:+ CLIExecutor.nl +:+ "9) right")
  = Some {| options := (fun i => Str.ofNat (S i)) <$> seq 0 2;
            prompt := "Select an option (1-" +:+ Str.ofNat 2 +:+ ")" |}
  /\ preferred ((fun i => Str.ofNat (S i)) <$> seq 0 2) = ["1"; "enter"].
Proof.
  apply (numbered_labels claude ("5) left" +:+ CLIExecutor.nl +:+ "9) right")
           ["5) left"; "9) right"]).
  - vm_compute. reflexivity.
  - cbn. lia.
  - vm_compute. reflexivity.
  - intros _. vm_compute. reflexivity.
Defined.

(** ** An executor at work *)

Lemma begin_serving taskId cfg child tm l t :
  TaskManager.useDaemon cfg = false ->
  TaskManager.getTask taskId tm = Some l ->
  TaskManager.read tm l = Some t ->
  exists tm1,
    TaskManager.executeTask_begin taskId cfg child tm
    = (Ok (TaskManager.AwaitExecutor (length (TaskManager.procs tm))), tm1)
    /\ serving (length (TaskManager.procs tm)) taskId l child TaskManager.executeTimeout ""
         (TaskManager.set_status TaskManager.running t) tm1
    /\ TaskManager.tasks tm1 = TaskManager.tasks tm
    /\ TaskManager.taskIdCounter tm1 = TaskManager.taskIdCounter tm
    /\ (forall l', l' <> l -> TaskManager.store tm1 !! l' = TaskManager.store tm !! l')
    /\ (forall e', (e' < length (TaskManager.procs tm))%nat ->
                   TaskManager.procs tm1 !! e' = TaskManager.procs tm !! e').
Proof.
  unfold TaskManager.getTask, TaskManager.read. intros Hcfg Hl Ht.
  unfold TaskManager.executeTask_begin. rewrite Hl. cbn.
  rewrite list_lookup_alter_eq, Ht, Hcfg. cbn.
  eexists. split; [reflexivity|]. split; [|split; [reflexivity|split; [reflexivity|split]]].
  - eexists _, _. cbn. rewrite lookup_app_r, Nat.sub_diag by lia. cbn.
    rewrite list_lookup_alter_eq, Ht. cbn.
    split; [reflexivity|]. split; [reflexivity|]. split; [apply lookup_insert_eq|exact Hl].
  - intros l' Hne. cbn. apply list_lookup_alter_ne. congruence.
  - intros e' He. cbn. apply lookup_app_l, He.
Qed.

Lemma chunk_serving e taskId l child ms buf t tm ev text time doneAt :
  serving e taskId l child ms buf t tm ->
  chunkOf ev = Some text ->
  exists tm',
    TaskManager.deliver e ev time doneAt tm = (None, tm')
    /\ serving e taskId l child ms (buf +:+ text) (absorb t ev) tm'.
Proof.
  intros (cmd & args & Hp & Ht & He & Hl) Hev.
  pose proof (lookup_lt_Some _ _ _ Hp) as Hlt.
  unfold TaskManager.deliver. rewrite Hp.
  destruct ev as [chunk|chunk| | |]; try discriminate; injection Hev as ->;
    cbn; eexists; (split; [reflexivity|]);
    eexists _, _; cbn;
    rewrite list_lookup_insert_eq by exact Hlt;
    rewrite ?list_lookup_alter_eq, Ht; cbn;
    (split; [reflexivity|]); (split; [reflexivity|]); split; assumption.
Qed.

Lemma feed_serving e taskId l child ms :
  forall evs buf t tm,
    serving e taskId l child ms buf t tm ->
    forallb isChunk evs.*1 = true ->
    serving e taskId l child ms (buf +:+ textOf evs) (foldl absorb t evs.*1) (feed e evs tm).
Proof.
  induction evs as [|[ev time] evs IH]; intros buf t tm Hs Hall.
  - cbn. rewrite append_nil_r. exact Hs.
  - cbn in Hall. apply andb_prop in Hall as [Hev Hall].
    unfold isChunk in Hev. destruct (chunkOf ev) as [text|] eqn:E; [|discriminate].
    destruct (chunk_serving e taskId l child ms buf t tm ev text time time Hs E)
      as (tm' & Hd & Hs').
    unfold feed. cbn. rewrite Hd. cbn. rewrite E. cbn.
    rewrite <- append_assoc. apply (IH _ _ _ Hs' Hall).
Qed.

(** What chunks leave of a task: everything but its output and its
    progress stays. *)
Lemma absorbed t evs :
  forallb isChunk evs.*1 = true ->
  let t' := foldl absorb t evs.*1 in
  TaskManager.output t' = TaskManager.output t +:+ textOf evs
  /\ TaskManager.progress t'
     = (if stdoutCount evs =? 0 then TaskManager.progress t
        else Z.min (TaskManager.progress t + 5 * stdoutCount evs) 95)
  /\ TaskManager.status t' = TaskManager.status t
  /\ TaskManager.error t' = TaskManager.error t
  /\ TaskManager.completedAt t' = TaskManager.completedAt t
  /\ TaskManager.id t' = TaskManager.id t
  /\ TaskManager.prompt t' = TaskManager.prompt t
  /\ TaskManager.agent t' = TaskManager.agent t
  /\ TaskManager.createdAt t' = TaskManager.createdAt t.
Proof.
  revert t. induction evs as [|[ev time] evs IH]; intros t Hall.
  - cbn. rewrite append_nil_r. repeat split; reflexivity.
  - cbn in Hall. apply andb_prop in Hall as [Hev Hall].
    specialize (IH (absorb t ev) Hall). cbn zeta in IH |- *.
    change (foldl absorb t ((ev, time) :: evs).*1) with (foldl absorb (absorb t ev) evs.*1).
    destruct IH as (Ho & Hp & Hs & He & Hc & Hi & Hpr & Ha & Hcr).
    rewrite Ho, Hp, Hs, He, Hc, Hi, Hpr, Ha, Hcr.
    assert (Hk : 0 <= stdoutCount evs) by (unfold stdoutCount; lia).
    destruct ev as [chunk|chunk| | |]; try discriminate; cbn [absorb].
    + assert (Hcount : stdoutCount ((CLIExecutor.Stdout chunk, time) :: evs)
                       = stdoutCount evs + 1).
      { unfold stdoutCount. cbn [fmap list_fmap fst]. rewrite filter_cons_True by reflexivity.
        cbn [length]. lia. }
      rewrite Hcount. cbn. rewrite append_assoc.
      repeat split; try reflexivity.
      destruct (Z.eqb_spec (stdoutCount evs) 0) as [E|E];
        destruct (Z.eqb_spec (stdoutCount evs + 1) 0); lia.
    + assert (Hcount : stdoutCount ((CLIExecutor.Stderr chunk, time) :: evs)
                       = stdoutCount evs).
      { unfold stdoutCount. cbn [fmap list_fmap fst].
        rewrite filter_cons_False by discriminate. reflexivity. }
      rewrite Hcount. cbn. rewrite append_assoc.
      repeat split; reflexivity.
Qed.

(** X15. While the process of a task runs, every chunk it writes, on
    standard output or on standard error, is appended to the task's
    output; a chunk on standard output adds 5 to the progress, up to 95,
    and one on standard error leaves the progress alone.  The task stays
    running, and a progress that started at 95 or below never goes down
    and never exceeds 95. *)
Theorem progress_while_running
        (tm : TaskManager.TaskManager) (taskId : string) (cfg : TaskManager.Config)
        (child : Z) (l : nat) (t : TaskManager.Task)
        (evs : list (CLIExecutor.ProcEvent * Z))
        (Hcli : TaskManager.useDaemon cfg = false)
        (Hl : TaskManager.getTask taskId tm = Some l)
        (Ht : TaskManager.read tm l = Some t)
        (Hev : forallb isChunk evs.*1 = true) :
  exists e tm1 t',
    TaskManager.executeTask_begin taskId cfg child tm
    = (Ok (TaskManager.AwaitExecutor e), tm1)
    /\ TaskManager.read (feed e evs tm1) l = Some t'
    /\ TaskManager.status t' = TaskManager.running
    /\ TaskManager.output t' = TaskManager.output t +:+ textOf evs
    /\ TaskManager.progress t'
       = (if stdoutCount evs =? 0 then TaskManager.progress t
          else Z.min (TaskManager.progress t + 5 * stdoutCount evs) 95)
    /\ (TaskManager.progress t <= 95 ->
        TaskManager.progress t <= TaskManager.progress t' <= 95).
Proof.
  destruct (begin_serving taskId cfg child tm l t Hcli Hl Ht) as (tm1 & Hb & Hs & _).
  pose proof (feed_serving _ _ _ _ _ evs _ _ _ Hs Hev) as (cmd & args & _ & Hst & _).
  destruct (absorbed (TaskManager.set_status TaskManager.running t) evs Hev)
    as (Ho & Hp & Hstat & _).
  eexists _, tm1, _. split; [exact Hb|]. split; [exact Hst|].
  split; [exact Hstat|]. split; [exact Ho|]. split; [exact Hp|].
  intros Hle. rewrite Hp. cbn [TaskManager.progress TaskManager.set_status].
  assert (0 <= stdoutCount evs) by (unfold stdoutCount; lia).
  destruct (Z.eqb_spec (stdoutCount evs) 0); lia.
Qed.

Lemma progress_while_running_witness :
  exists e tm1 t',
    TaskManager.executeTask_begin firstId cliConfig 42 (oneTask claude)
    = (Ok (TaskManager.AwaitExecutor e), tm1)
    /\ TaskManager.read
         (feed e [(CLIExecutor.Stdout "a", 1001); (CLIExecutor.Stderr "b", 1002);
                  (CLIExecutor.Stdout "c", 1003)] tm1) 0 = Some t'
    /\ TaskManager.status t' = TaskManager.running
    /\ TaskManager.output t' = "" +:+ "abc"
    /\ TaskManager.progress t' = 10
    /\ (0 <= 95 -> 0 <= TaskManager.progress t' <= 95).
Proof.
  apply (progress_while_running (oneTask claude) firstId cliConfig 42 0 (helloTask claude)
           [(CLIExecutor.Stdout "a", 1001); (CLIExecutor.Stderr "b", 1002);
            (CLIExecutor.Stdout "c", 1003)]); reflexivity.
Defined.

(** ** Once the promise has settled *)

Lemma onProgress_outcome taskId l pr tm l' :
  outcome <$> TaskManager.store (TaskManager.onProgress taskId l pr tm) !! l'
  = outcome <$> TaskManager.store tm !! l'.
Proof.
  unfold TaskManager.onProgress.
  destruct (decide (l = l')) as [->|Hne].
  - destruct (CLIExecutor.type pr); cbn;
      rewrite !list_lookup_alter_eq; destruct (TaskManager.store tm !! l'); reflexivity.
  - destruct (CLIExecutor.type pr); cbn;
      rewrite !list_lookup_alter_ne by exact Hne; reflexivity.
Qed.

Lemma deliver_settled e ev time doneAt tm v :
  settledWith e v tm ->
  exists tm',
    TaskManager.deliver e ev time doneAt tm = (None, tm')
    /\ settledWith e v tm'
    /\ TaskManager.executors tm' = TaskManager.executors tm
    /\ TaskManager.tasks tm' = TaskManager.tasks tm
    /\ forall l, outcome <$> TaskManager.store tm' !! l = outcome <$> TaskManager.store tm !! l.
Proof.
  intros (p & Hp & Hv).
  pose proof (lookup_lt_Some _ _ _ Hp) as Hlt.
  unfold TaskManager.deliver. rewrite Hp.
  destruct ev as [chunk|chunk|code|message|]; cbn;
    unfold CLIExecutor.settle; cbn.
  - eexists. split; [reflexivity|]. split; [|split; [reflexivity|split; [reflexivity|]]].
    + eexists. cbn. rewrite list_lookup_insert_eq by exact Hlt. split; [reflexivity|exact Hv].
    + intros l. apply (onProgress_outcome _ _ _ (TaskManager.with_procs _ tm)).
  - eexists. split; [reflexivity|]. split; [|split; [reflexivity|split; [reflexivity|]]].
    + eexists. cbn. rewrite list_lookup_insert_eq by exact Hlt. split; [reflexivity|exact Hv].
    + intros l. apply (onProgress_outcome _ _ _ (TaskManager.with_procs _ tm)).
  - rewrite Hv. cbn.
    eexists. split; [reflexivity|]. split; [|split; [reflexivity|split; [reflexivity|]]].
    + eexists. cbn. rewrite list_lookup_insert_eq by exact Hlt. split; [reflexivity|exact Hv].
    + intros l. apply (onProgress_outcome _ _ _ (TaskManager.with_procs _ tm)).
  - rewrite Hv. cbn.
    eexists. split; [reflexivity|]. split; [|split; [reflexivity|split; [reflexivity|]]].
    + eexists. cbn. rewrite list_lookup_insert_eq by exact Hlt. split; [reflexivity|exact Hv].
    + intros l. reflexivity.
  - destruct (CLIExecutor.timeoutId (TaskManager.executor p)) as [ms|] eqn:Et; cbn.
    + assert (Hc : CLIExecutor.promise (CLIExecutor.cancel (TaskManager.executor p)) = Some v).
      { unfold CLIExecutor.cancel.
        destruct (CLIExecutor.process _); [destruct (CLIExecutor.isRunning _)|]; exact Hv. }
      rewrite Hc. cbn.
      eexists. split; [reflexivity|]. split; [|split; [reflexivity|split; [reflexivity|]]].
      * eexists. cbn. rewrite list_lookup_insert_eq by exact Hlt. split; [reflexivity|exact Hc].
      * intros l. reflexivity.
    + eexists. split; [reflexivity|]. split; [|split; [reflexivity|split; [reflexivity|]]].
      * eexists. cbn. rewrite list_lookup_insert_eq by exact Hlt. split; [reflexivity|exact Hv].
      * intros l. reflexivity.
Qed.

(** X18. A call of [executeTask] ends once.  After the promise of an
    executor's call has settled, no event of its process, whatever it is
    and however many follow, settles it again, changes the status, the
    error or the completion time of any task, or changes which executors
    are tracked.  (The output and the progress are another matter: chunks
    that come late still reach them.) *)
Theorem outcome_is_decided_once
        (e : nat) (v : Res string) (tm : TaskManager.TaskManager)
        (evs : list (CLIExecutor.ProcEvent * Z))
        (Hsettled : settledWith e v tm) :
  settledWith e v (feed e evs tm)
  /\ TaskManager.executors (feed e evs tm) = TaskManager.executors tm
  /\ TaskManager.tasks (feed e evs tm) = TaskManager.tasks tm
  /\ forall l,
       outcome <$> TaskManager.read (feed e evs tm) l = outcome <$> TaskManager.read tm l.
Proof.
  revert tm Hsettled. induction evs as [|[ev time] evs IH]; intros tm Hs.
  - split; [exact Hs|]. split; [reflexivity|]. split; [reflexivity|]. intros l. reflexivity.
  - destruct (deliver_settled e ev time time tm v Hs) as (tm' & Hd & Hs' & He & Ht & Ho).
    destruct (IH tm' Hs') as (IHs & IHe & IHt & IHo).
    change (feed e ((ev, time) :: evs) tm)
      with (feed e evs (snd (TaskManager.deliver e ev time time tm))).
    rewrite Hd. cbn [snd].
    split; [exact IHs|]. split; [congruence|]. split; [congruence|].
    intros l. unfold TaskManager.read in *. rewrite IHo. apply Ho.
Qed.

Lemma outcome_is_decided_once_witness :
  settledWith 0 (Ok "hi")
    (feed 0 [(CLIExecutor.Stdout "late", 1004); (CLIExecutor.Close (Some 1), 1005);
             (CLIExecutor.TimerFired, 1006)] finished1)
  /\ TaskManager.executors
       (feed 0 [(CLIExecutor.Stdout "late", 1004); (CLIExecutor.Close (Some 1), 1005);
                (CLIExecutor.TimerFired, 1006)] finished1)
     = TaskManager.executors finished1
  /\ TaskManager.tasks
       (feed 0 [(CLIExecutor.Stdout "late", 1004); (CLIExecutor.Close (Some 1), 1005);
                (CLIExecutor.TimerFired, 1006)] finished1)
     = TaskManager.tasks finished1
  /\ forall l,
       outcome <$> TaskManager.read
                     (feed 0 [(CLIExecutor.Stdout "late", 1004);
                              (CLIExecutor.Close (Some 1), 1005);
                              (CLIExecutor.TimerFired, 1006)] finished1) l
       = outcome <$> TaskManager.read finished1 l.
Proof.
  apply (outcome_is_decided_once 0 (Ok "hi") finished1).
  eexists. split; reflexivity.
Defined.

(** ** The ways a call of execute ends *)

Lemma timer_serving e taskId l child ms buf t tm time doneAt :
  serving e taskId l child ms buf t tm ->
  exists tm' p',
    TaskManager.deliver e CLIExecutor.TimerFired time doneAt tm
    = (Some (Throw (CLIExecutor.timeoutMessage ms)), tm')
    /\ TaskManager.read tm' l
       = Some (TaskManager.set_completedAt doneAt
                 (TaskManager.set_error (CLIExecutor.timeoutMessage ms)
                    (TaskManager.set_status TaskManager.failed t)))
    /\ TaskManager.procs tm' !! e = Some p'
    /\ CLIExecutor.process (TaskManager.executor p')
       = Some {| CLIExecutor.pid := child; CLIExecutor.killed := true |}
    /\ CLIExecutor.isRunning (TaskManager.executor p') = false
    /\ CLIExecutor.promise (TaskManager.executor p')
       = Some (Throw (CLIExecutor.timeoutMessage ms))
    /\ TaskManager.executors tm' !! taskId = None.
Proof.
  intros (cmd & args & Hp & Ht & He & Hl).
  pose proof (lookup_lt_Some _ _ _ Hp) as Hlt.
  unfold TaskManager.deliver. rewrite Hp. cbn.
  eexists _, _. split; [reflexivity|].
  unfold TaskManager.read. cbn.
  rewrite list_lookup_alter_eq, Ht. cbn. split; [reflexivity|].
  rewrite list_lookup_insert_eq by exact Hlt.
  split; [reflexivity|]. cbn. repeat (split; [reflexivity|]). apply lookup_delete_eq.
Qed.

Lemma spawn_serving e taskId l child ms buf t tm message time doneAt :
  serving e taskId l child ms buf t tm ->
  exists tm' p',
    TaskManager.deliver e (CLIExecutor.SpawnError message) time doneAt tm
    = (Some (Throw message), tm')
    /\ TaskManager.read tm' l
       = Some (TaskManager.set_completedAt doneAt
                 (TaskManager.set_error message
                    (TaskManager.set_status TaskManager.failed t)))
    /\ TaskManager.procs tm' !! e = Some p'
    /\ CLIExecutor.process (TaskManager.executor p') = None
    /\ CLIExecutor.isRunning (TaskManager.executor p') = false
    /\ CLIExecutor.promise (TaskManager.executor p') = Some (Throw message)
    /\ TaskManager.executors tm' !! taskId = None
    /\ TaskManager.emitted tm' = (TaskManager.emitted tm ++ [TaskManager.tasksChanged])%list.
Proof.
  intros (cmd & args & Hp & Ht & He & Hl).
  pose proof (lookup_lt_Some _ _ _ Hp) as Hlt.
  unfold TaskManager.deliver. rewrite Hp. cbn.
  eexists _, _. split; [reflexivity|].
  unfold TaskManager.read. cbn.
  rewrite list_lookup_alter_eq, Ht. cbn. split; [reflexivity|].
  rewrite list_lookup_insert_eq by exact Hlt.
  split; [reflexivity|]. cbn. repeat (split; [reflexivity|]).
  split; [apply lookup_delete_eq|reflexivity].
Qed.

(** A command that cannot be started: the error event, then the close
    event that follows it. *)
Lemma spawn_close_serving e taskId l child ms buf t tm message time doneAt
      code time' doneAt' :
  serving e taskId l child ms buf t tm ->
  exists tm2 tm3 p',
    TaskManager.deliver e (CLIExecutor.SpawnError message) time doneAt tm
    = (Some (Throw message), tm2)
    /\ TaskManager.deliver e (CLIExecutor.Close code) time' doneAt' tm2 = (None, tm3)
    /\ TaskManager.read tm3 l
       = Some (TaskManager.set_output
                 (TaskManager.output t +:+ "Exit code: " +:+ CLIExecutor.showCode code)
                 (TaskManager.set_completedAt doneAt
                    (TaskManager.set_error message
                       (TaskManager.set_status TaskManager.failed t))))
    /\ TaskManager.procs tm3 !! e = Some p'
    /\ CLIExecutor.process (TaskManager.executor p') = None
    /\ CLIExecutor.isRunning (TaskManager.executor p') = false
    /\ TaskManager.executors tm3 !! taskId = None
    /\ TaskManager.emitted tm3
       = (TaskManager.emitted tm
          ++ [TaskManager.tasksChanged;
              TaskManager.taskProgress taskId
                {| CLIExecutor.type := CLIExecutor.complete_t;
                   CLIExecutor.data := "Exit code: " +:+ CLIExecutor.showCode code;
                   CLIExecutor.timestamp := time' |};
              TaskManager.tasksChanged])%list.
Proof.
  intros (cmd & args & Hp & Ht & He & Hl).
  pose proof (lookup_lt_Some _ _ _ Hp) as Hlt.
  unfold TaskManager.deliver at 1. rewrite Hp. cbn.
  eexists _, _, _. split; [reflexivity|].
  unfold TaskManager.deliver. cbn.
  rewrite list_lookup_insert_eq by exact Hlt. cbn.
  split; [reflexivity|].
  unfold TaskManager.read. cbn.
  rewrite !list_lookup_alter_eq, Ht. cbn. split; [reflexivity|].
  rewrite list_lookup_insert_eq by (rewrite length_insert; exact Hlt).
  split; [reflexivity|]. cbn. repeat (split; [reflexivity|]).
  split; [apply lookup_delete_eq|].
  rewrite <- !app_assoc. reflexivity.
Qed.

Lemma cancel_serving e taskId l child ms buf t tm time :
  serving e taskId l child ms buf t tm ->
  exists tm' p',
    TaskManager.cancelTask taskId time tm = (true, tm')
    /\ TaskManager.read tm' l
       = Some (TaskManager.set_completedAt time
                 (TaskManager.set_status TaskManager.cancelled t))
    /\ TaskManager.procs tm' !! e = Some p'
    /\ CLIExecutor.process (TaskManager.executor p')
       = Some {| CLIExecutor.pid := child; CLIExecutor.killed := true |}
    /\ CLIExecutor.isRunning (TaskManager.executor p') = false
    /\ CLIExecutor.promise (TaskManager.executor p') = None
    /\ TaskManager.executors tm' !! taskId = None
    /\ TaskManager.tasks tm' = TaskManager.tasks tm
    /\ forall e', e' <> e -> TaskManager.procs tm' !! e' = TaskManager.procs tm !! e'.
Proof.
  intros (cmd & args & Hp & Ht & He & Hl).
  unfold TaskManager.cancelTask. rewrite He, Hl.
  eexists _, _. split; [reflexivity|].
  unfold TaskManager.read. cbn.
  rewrite !list_lookup_alter_eq, Ht, Hp. cbn.
  repeat (split; [reflexivity|]). split; [apply lookup_delete_eq|].
  split; [reflexivity|].
  intros e' Hne. apply list_lookup_alter_ne. congruence.
Qed.

Lemma untracked_cancel taskId time tm :
  TaskManager.executors tm !! taskId = None ->
  TaskManager.cancelTask taskId time tm = (false, tm).
Proof. intros H. unfold TaskManager.cancelTask. rewrite H. reflexivity. Qed.

(** X16. The timeout of [executeTask], 300000 ms: when the timer
    fires while the process runs, the process is killed, the promise is
    rejected with the message Command timed out after 300000ms, and the
    task ends failed with that message as its error, its completion time
    set, and the output received so far kept.  The executor is no longer
    tracked, and when the killed process closes later, with whatever
    code, the status, the error and the completion time stay. *)
Theorem timeout_fails_task
        (tm : TaskManager.TaskManager) (taskId : string) (cfg : TaskManager.Config)
        (child : Z) (l : nat) (t : TaskManager.Task)
        (evs : list (CLIExecutor.ProcEvent * Z)) (time doneAt : Z)
        (Hcli : TaskManager.useDaemon cfg = false)
        (Hl : TaskManager.getTask taskId tm = Some l)
        (Ht : TaskManager.read tm l = Some t)
        (Hev : forallb isChunk evs.*1 = true) :
  exists e tm1 tm2 t' p',
    TaskManager.executeTask_begin taskId cfg child tm
    = (Ok (TaskManager.AwaitExecutor e), tm1)
    /\ TaskManager.deliver e CLIExecutor.TimerFired time doneAt (feed e evs tm1)
       = (Some (Throw "Command timed out after 300000ms"), tm2)
    /\ TaskManager.read tm2 l = Some t'
    /\ TaskManager.status t' = TaskManager.failed
    /\ TaskManager.error t' = Some "Command timed out after 300000ms"
    /\ TaskManager.completedAt t' = Some doneAt
    /\ TaskManager.output t' = TaskManager.output t +:+ textOf evs
    /\ TaskManager.procs tm2 !! e = Some p'
    /\ CLIExecutor.process (TaskManager.executor p')
       = Some {| CLIExecutor.pid := child; CLIExecutor.killed := true |}
    /\ CLIExecutor.isRunning (TaskManager.executor p') = false
    /\ TaskManager.executors tm2 !! taskId = None
    /\ forall code time' doneAt',
         exists tm3,
           TaskManager.deliver e (CLIExecutor.Close code) time' doneAt' tm2 = (None, tm3)
           /\ outcome <$> TaskManager.read tm3 l = Some (outcome t').
Proof.
  destruct (begin_serving taskId cfg child tm l t Hcli Hl Ht) as (tm1 & Hb & Hs & _).
  pose proof (feed_serving _ _ _ _ _ evs _ _ _ Hs Hev) as Hs2.
  destruct (absorbed (TaskManager.set_status TaskManager.running t) evs Hev)
    as (Ho & _).
  destruct (timer_serving _ _ _ _ _ _ _ _ time doneAt Hs2)
    as (tm2 & p' & Hd & Hr & Hp' & Hproc & Hrun & Hprom & Hex).
  eexists _, tm1, tm2, _, p'. split; [exact Hb|]. split; [exact Hd|].
  split; [exact Hr|]. cbn. repeat (split; [reflexivity|]).
  split; [exact Ho|]. split; [exact Hp'|]. split; [exact Hproc|]. split; [exact Hrun|].
  split; [exact Hex|].
  intros code time' doneAt'.
  destruct (deliver_settled (length (TaskManager.procs tm)) (CLIExecutor.Close code)
              time' doneAt' tm2 (Throw (CLIExecutor.timeoutMessage TaskManager.executeTimeout)))
    as (tm3 & Hd3 & _ & _ & _ & Hout).
  { exists p'. split; assumption. }
  exists tm3. split; [exact Hd3|].
  unfold TaskManager.read in *. rewrite Hout, Hr. reflexivity.
Qed.

Lemma timeout_fails_task_witness :
  exists e tm1 tm2 t' p',
    TaskManager.executeTask_begin firstId cliConfig 42 (oneTask claude)
    = (Ok (TaskManager.AwaitExecutor e), tm1)
    /\ TaskManager.deliver e CLIExecutor.TimerFired 301000 301001
         (feed e [(CLIExecutor.Stdout "par", 1001)] tm1)
       = (Some (Throw "Command timed out after 300000ms"), tm2)
    /\ TaskManager.read tm2 0 = Some t'
    /\ TaskManager.status t' = TaskManager.failed
    /\ TaskManager.error t' = Some "Command timed out after 300000ms"
    /\ TaskManager.completedAt t' = Some 301001
    /\ TaskManager.output t' = "" +:+ "par"
    /\ TaskManager.procs tm2 !! e = Some p'
    /\ CLIExecutor.process (TaskManager.executor p')
       = Some {| CLIExecutor.pid := 42; CLIExecutor.killed := true |}
    /\ CLIExecutor.isRunning (TaskManager.executor p') = false
    /\ TaskManager.executors tm2 !! firstId = None
    /\ forall code time' doneAt',
         exists tm3,
           TaskManager.deliver e (CLIExecutor.Close code) time' doneAt' tm2 = (None, tm3)
           /\ outcome <$> TaskManager.read tm3 0 = Some (outcome t').
Proof.
  apply (timeout_fails_task (oneTask claude) firstId cliConfig 42 0 (helloTask claude)
           [(CLIExecutor.Stdout "par", 1001)] 301000 301001); reflexivity.
Defined.

(** X17. When the command cannot be started (as for a command that is
    not installed), the process emits its error event and then its close
    event, with whatever code.  The error rejects the promise with its
    message and the task ends failed with it, at that time; the executor
    has no process any more and is no longer tracked.  The close that
    follows no longer changes status, error or completion time, but the
    progress listener still runs for it: the exit code line is appended
    to the task's output, the progress stays as it was, and three
    notifications have been emitted in all. *)
Theorem spawn_error_fails_task
        (tm : TaskManager.TaskManager) (taskId : string) (cfg : TaskManager.Config)
        (child : Z) (l : nat) (t : TaskManager.Task)
        (message : string) (time doneAt : Z) (code : option Z) (time' doneAt' : Z)
        (Hcli : TaskManager.useDaemon cfg = false)
        (Hl : TaskManager.getTask taskId tm = Some l)
        (Ht : TaskManager.read tm l = Some t) :
  exists e tm1 tm2 tm3 t' p',
    TaskManager.executeTask_begin taskId cfg child tm
    = (Ok (TaskManager.AwaitExecutor e), tm1)
    /\ TaskManager.deliver e (CLIExecutor.SpawnError message) time doneAt tm1
       = (Some (Throw message), tm2)
    /\ TaskManager.deliver e (CLIExecutor.Close code) time' doneAt' tm2 = (None, tm3)
    /\ TaskManager.read tm3 l = Some t'
    /\ TaskManager.status t' = TaskManager.failed
    /\ TaskManager.error t' = Some message
    /\ TaskManager.completedAt t' = Some doneAt
    /\ TaskManager.output t'
       = TaskManager.output t +:+ "Exit code: " +:+ CLIExecutor.showCode code
    /\ TaskManager.progress t' = TaskManager.progress t
    /\ TaskManager.procs tm3 !! e = Some p'
    /\ CLIExecutor.process (TaskManager.executor p') = None
    /\ CLIExecutor.isRunning (TaskManager.executor p') = false
    /\ TaskManager.executors tm3 !! taskId = None
    /\ TaskManager.emitted tm3
       = (TaskManager.emitted tm1
          ++ [TaskManager.tasksChanged;
              TaskManager.taskProgress taskId
                {| CLIExecutor.type := CLIExecutor.complete_t;
                   CLIExecutor.data := "Exit code: " +:+ CLIExecutor.showCode code;
                   CLIExecutor.timestamp := time' |};
              TaskManager.tasksChanged])%list.
Proof.
  destruct (begin_serving taskId cfg child tm l t Hcli Hl Ht) as (tm1 & Hb & Hs & _).
  destruct (spawn_close_serving _ _ _ _ _ _ _ _ message time doneAt code time' doneAt' Hs)
    as (tm2 & tm3 & p' & Hd & Hd' & Hr & Hp' & Hproc & Hrun & Hex & Hem).
  eexists _, tm1, tm2, tm3, _, p'. split; [exact Hb|]. split; [exact Hd|].
  split; [exact Hd'|]. split; [exact Hr|]. cbn. repeat (split; [reflexivity|]).
  auto 10.
Qed.

Lemma spawn_error_fails_task_witness :
  exists e tm1 tm2 tm3 t' p',
    TaskManager.executeTask_begin firstId cliConfig 42 (oneTask claude)
    = (Ok (TaskManager.AwaitExecutor e), tm1)
    /\ TaskManager.deliver e (CLIExecutor.SpawnError "spawn claude ENOENT") 1001 1002 tm1
       = (Some (Throw "spawn claude ENOENT"), tm2)
    /\ TaskManager.deliver e (CLIExecutor.Close (Some (-2))) 1003 1004 tm2 = (None, tm3)
    /\ TaskManager.read tm3 0 = Some t'
    /\ TaskManager.status t' = TaskManager.failed
    /\ TaskManager.error t' = Some "spawn claude ENOENT"
    /\ TaskManager.completedAt t' = Some 1002
    /\ TaskManager.output t' = "" +:+ "Exit code: " +:+ "-2"
    /\ TaskManager.progress t' = 0
    /\ TaskManager.procs tm3 !! e = Some p'
    /\ CLIExecutor.process (TaskManager.executor p') = None
    /\ CLIExecutor.isRunning (TaskManager.executor p') = false
    /\ TaskManager.executors tm3 !! firstId = None
    /\ TaskManager.emitted tm3
       = (TaskManager.emitted tm1
          ++ [TaskManager.tasksChanged;
              TaskManager.taskProgress firstId
                {| CLIExecutor.type := CLIExecutor.complete_t;
                   CLIExecutor.data := "Exit code: " +:+ "-2";
                   CLIExecutor.timestamp := 1003 |};
              TaskManager.tasksChanged])%list.
Proof.
  apply (spawn_error_fails_task (oneTask claude) firstId cliConfig 42 0 (helloTask claude)
           "spawn claude ENOENT" 1001 1002 (Some (-2)) 1003 1004); reflexivity.
Defined.

(** X19. [cancelTask] on a task whose process runs returns true,
    kills the process, sets the status to cancelled and the completion
    time to the time of the call, keeps the output received so far and
    the error, and stops tracking the executor; a second [cancelTask]
    for the same id returns false and changes nothing. *)
Theorem cancel_running_task
        (tm : TaskManager.TaskManager) (taskId : string) (cfg : TaskManager.Config)
        (child : Z) (l : nat) (t : TaskManager.Task)
        (evs : list (CLIExecutor.ProcEvent * Z)) (time : Z)
        (Hcli : TaskManager.useDaemon cfg = false)
        (Hl : TaskManager.getTask taskId tm = Some l)
        (Ht : TaskManager.read tm l = Some t)
        (Hev : forallb isChunk evs.*1 = true) :
  exists e tm1 tm2 t' p',
    TaskManager.executeTask_begin taskId cfg child tm
    = (Ok (TaskManager.AwaitExecutor e), tm1)
    /\ TaskManager.cancelTask taskId time (feed e evs tm1) = (true, tm2)
    /\ TaskManager.read tm2 l = Some t'
    /\ TaskManager.status t' = TaskManager.cancelled
    /\ TaskManager.completedAt t' = Some time
    /\ TaskManager.error t' = TaskManager.error t
    /\ TaskManager.output t' = TaskManager.output t +:+ textOf evs
    /\ TaskManager.procs tm2 !! e = Some p'
    /\ CLIExecutor.process (TaskManager.executor p')
       = Some {| CLIExecutor.pid := child; CLIExecutor.killed := true |}
    /\ CLIExecutor.isRunning (TaskManager.executor p') = false
    /\ TaskManager.executors tm2 !! taskId = None
    /\ forall time', TaskManager.cancelTask taskId time' tm2 = (false, tm2).
Proof.
  destruct (begin_serving taskId cfg child tm l t Hcli Hl Ht) as (tm1 & Hb & Hs & _).
  pose proof (feed_serving _ _ _ _ _ evs _ _ _ Hs Hev) as Hs2.
  destruct (absorbed (TaskManager.set_status TaskManager.running t) evs Hev)
    as (Ho & _ & _ & He & _).
  destruct (cancel_serving _ _ _ _ _ _ _ _ time Hs2)
    as (tm2 & p' & Hc & Hr & Hp' & Hproc & Hrun & _ & Hex & _ & _).
  eexists _, tm1, tm2, _, p'. split; [exact Hb|]. split; [exact Hc|].
  split; [exact Hr|]. cbn. repeat (split; [reflexivity|]).
  split; [exact He|]. split; [exact Ho|]. split; [exact Hp'|].
  split; [exact Hproc|]. split; [exact Hrun|]. split; [exact Hex|].
  intros time'. apply untracked_cancel, Hex.
Qed.

Lemma cancel_running_task_witness :
  exists e tm1 tm2 t' p',
    TaskManager.executeTask_begin firstId cliConfig 42 (oneTask claude)
    = (Ok (TaskManager.AwaitExecutor e), tm1)
    /\ TaskManager.cancelTask firstId 1002 (feed e [(CLIExecutor.Stdout "par", 1001)] tm1)
       = (true, tm2)
    /\ TaskManager.read tm2 0 = Some t'
    /\ TaskManager.status t' = TaskManager.cancelled
    /\ TaskManager.completedAt t' = Some 1002
    /\ TaskManager.error t' = None
    /\ TaskManager.output t' = "" +:+ "par"
    /\ TaskManager.procs tm2 !! e = Some p'
    /\ CLIExecutor.process (TaskManager.executor p')
       = Some {| CLIExecutor.pid := 42; CLIExecutor.killed := true |}
    /\ CLIExecutor.isRunning (TaskManager.executor p') = false
    /\ TaskManager.executors tm2 !! firstId = None
    /\ forall time', TaskManager.cancelTask firstId time' tm2 = (false, tm2).
Proof.
  apply (cancel_running_task (oneTask claude) firstId cliConfig 42 0 (helloTask claude)
           [(CLIExecutor.Stdout "par", 1001)] 1002); reflexivity.
Defined.

(** X20. A task whose process has closed cannot be cancelled: after
    the close event, with any exit code, the task is completed or
    failed, and [cancelTask] returns false and leaves the registry as it
    is. *)
Theorem finished_task_is_not_cancelled
        (tm : TaskManager.TaskManager) (taskId : string) (cfg : TaskManager.Config)
        (child : Z) (l : nat) (t : TaskManager.Task)
        (evs : list (CLIExecutor.ProcEvent * Z)) (code : option Z)
        (time doneAt time' : Z)
        (Hcli : TaskManager.useDaemon cfg = false)
        (Hl : TaskManager.getTask taskId tm = Some l)
        (Ht : TaskManager.read tm l = Some t)
        (Hev : forallb isChunk evs.*1 = true) :
  exists e tm1 r tm2,
    TaskManager.executeTask_begin taskId cfg child tm
    = (Ok (TaskManager.AwaitExecutor e), tm1)
    /\ TaskManager.deliver e (CLIExecutor.Close code) time doneAt (feed e evs tm1)
       = (Some r, tm2)
    /\ TaskManager.statusOf tm2 l
       = Some (match code with
               | Some 0 => TaskManager.completed
               | _ => TaskManager.failed
               end)
    /\ TaskManager.cancelTask taskId time' tm2 = (false, tm2).
Proof.
  destruct (begin_live taskId cfg child tm l t Hcli Hl Ht) as (e & tm1 & Hb & Hlive & _).
  pose proof (feed_chunks e taskId l evs _ _ _ Hlive Hev) as Hlive2.
  destruct (deliver_close e taskId l _ _ _ code time doneAt Hlive2)
    as (tm2 & t' & Hd & _ & Hr & _ & Hex & Hrest).
  eexists e, tm1, _, tm2. split; [exact Hb|]. split; [exact Hd|]. split.
  - unfold TaskManager.statusOf. unfold TaskManager.read in Hr. rewrite Hr. cbn.
    destruct code as [[| |]|]; destruct Hrest as (-> & _); reflexivity.
  - apply untracked_cancel, Hex.
Qed.

Lemma finished_task_is_not_cancelled_witness :
  exists e tm1 r tm2,
    TaskManager.executeTask_begin firstId cliConfig 42 (oneTask claude)
    = (Ok (TaskManager.AwaitExecutor e), tm1)
    /\ TaskManager.deliver e (CLIExecutor.Close (Some 0)) 1002 1003
         (feed e [(CLIExecutor.Stdout "hi", 1001)] tm1)
       = (Some r, tm2)
    /\ TaskManager.statusOf tm2 0 = Some TaskManager.completed
    /\ TaskManager.cancelTask firstId 1004 tm2 = (false, tm2).
Proof.
  apply (finished_task_is_not_cancelled (oneTask claude) firstId cliConfig 42 0
           (helloTask claude) [(CLIExecutor.Stdout "hi", 1001)] (Some 0) 1002 1003 1004);
    reflexivity.
Defined.

(** X21. [executeTask] does not look at the status.  Executing a task
    that is already running starts a second process and makes the map
    of executors point to the new executor only: [cancelTask] then kills
    the second process and not the first, which keeps running, and
    cancelling again returns false. *)
Theorem second_execution_orphans_first
        (tm : TaskManager.TaskManager) (taskId : string) (cfg : TaskManager.Config)
        (child child2 : Z) (l : nat) (t : TaskManager.Task) (time : Z)
        (Hcli : TaskManager.useDaemon cfg = false)
        (Hl : TaskManager.getTask taskId tm = Some l)
        (Ht : TaskManager.read tm l = Some t) :
  exists e1 tm1 e2 tm2 tm3 p1,
    TaskManager.executeTask_begin taskId cfg child tm
    = (Ok (TaskManager.AwaitExecutor e1), tm1)
    /\ TaskManager.executeTask_begin taskId cfg child2 tm1
       = (Ok (TaskManager.AwaitExecutor e2), tm2)
    /\ e1 <> e2
    /\ TaskManager.executors tm2 !! taskId = Some e2
    /\ TaskManager.cancelTask taskId time tm2 = (true, tm3)
    /\ TaskManager.procs tm3 !! e1 = Some p1
    /\ CLIExecutor.process (TaskManager.executor p1)
       = Some {| CLIExecutor.pid := child; CLIExecutor.killed := false |}
    /\ CLIExecutor.isRunning (TaskManager.executor p1) = true
    /\ (forall time', TaskManager.cancelTask taskId time' tm3 = (false, tm3)).
Proof.
  destruct (begin_serving taskId cfg child tm l t Hcli Hl Ht)
    as (tm1 & Hb1 & Hs1 & Htasks1 & _).
  destruct Hs1 as (cmd & args & Hp1 & Ht1 & He1 & Hl1).
  destruct (begin_serving taskId cfg child2 tm1 l _ Hcli Hl1 Ht1)
    as (tm2 & Hb2 & Hs2 & _ & _ & _ & Hprocs2).
  pose proof (lookup_lt_Some _ _ _ Hp1) as Hlt.
  destruct (cancel_serving _ _ _ _ _ _ _ _ time Hs2)
    as (tm3 & p' & Hc & _ & _ & _ & _ & _ & Hex & _ & Hframe).
  eexists _, tm1, _, tm2, tm3, _.
  split; [exact Hb1|]. split; [exact Hb2|]. split; [lia|].
  split; [destruct Hs2 as (? & ? & _ & _ & H & _); exact H|].
  split; [exact Hc|].
  split; [rewrite Hframe by lia; rewrite Hprocs2 by exact Hlt; exact Hp1|].
  split; [reflexivity|]. split; [reflexivity|].
  intros time'. apply untracked_cancel, Hex.
Qed.

Lemma second_execution_orphans_first_witness :
  exists e1 tm1 e2 tm2 tm3 p1,
    TaskManager.executeTask_begin firstId cliConfig 42 (oneTask claude)
    = (Ok (TaskManager.AwaitExecutor e1), tm1)
    /\ TaskManager.executeTask_begin firstId cliConfig 43 tm1
       = (Ok (TaskManager.AwaitExecutor e2), tm2)
    /\ e1 <> e2
    /\ TaskManager.executors tm2 !! firstId = Some e2
    /\ TaskManager.cancelTask firstId 1002 tm2 = (true, tm3)
    /\ TaskManager.procs tm3 !! e1 = Some p1
    /\ CLIExecutor.process (TaskManager.executor p1)
       = Some {| CLIExecutor.pid := 42; CLIExecutor.killed := false |}
    /\ CLIExecutor.isRunning (TaskManager.executor p1) = true
    /\ (forall time', TaskManager.cancelTask firstId time' tm3 = (false, tm3)).
Proof.
  apply (second_execution_orphans_first (oneTask claude) firstId cliConfig 42 43 0
           (helloTask claude) 1002); reflexivity.
Defined.

(** ** dispose *)

Lemma cancel_cancel ex : CLIExecutor.cancel (CLIExecutor.cancel ex) = CLIExecutor.cancel ex.
Proof.
  unfold CLIExecutor.cancel.
  destruct (CLIExecutor.process ex) as [pr|] eqn:Ep; [|rewrite Ep; reflexivity].
  destruct (CLIExecutor.isRunning ex) eqn:Er; cbn; [reflexivity|].
  rewrite Ep, Er. reflexivity.
Qed.

Lemma cancelProc_cancelProc p : cancelProc (cancelProc p) = cancelProc p.
Proof. unfold cancelProc. cbn. rewrite cancel_cancel. reflexivity. Qed.

Lemma dispose_procs tm :
  (forall e, TaskManager.procs (TaskManager.dispose tm) !! e = TaskManager.procs tm !! e
             \/ TaskManager.procs (TaskManager.dispose tm) !! e
                = cancelProc <$> TaskManager.procs tm !! e)
  /\ (forall taskId e,
        TaskManager.executors tm !! taskId = Some e ->
        TaskManager.procs (TaskManager.dispose tm) !! e
        = cancelProc <$> TaskManager.procs tm !! e)
  /\ (forall e,
        (forall taskId, TaskManager.executors tm !! taskId <> Some e) ->
        TaskManager.procs (TaskManager.dispose tm) !! e = TaskManager.procs tm !! e).
Proof.
  unfold TaskManager.dispose. cbn.
  fold cancelProc.
  apply (map_fold_weak_ind
           (fun (r : list TaskManager.Proc) (m : gmap string nat) =>
              (forall e, r !! e = TaskManager.procs tm !! e
                         \/ r !! e = cancelProc <$> TaskManager.procs tm !! e)
              /\ (forall taskId e, m !! taskId = Some e ->
                                   r !! e = cancelProc <$> TaskManager.procs tm !! e)
              /\ (forall e, (forall taskId, m !! taskId <> Some e) ->
                            r !! e = TaskManager.procs tm !! e))).
  - split; [auto|]. split; [intros taskId e H; rewrite lookup_empty in H; discriminate|auto].
  - intros i x m r Hi (Hany & Hin & Hout).
    assert (Hx : alter cancelProc x r !! x = cancelProc <$> TaskManager.procs tm !! x).
    { rewrite list_lookup_alter_eq. destruct (Hany x) as [-> | ->]; [reflexivity|].
      destruct (TaskManager.procs tm !! x); cbn; [rewrite cancelProc_cancelProc|]; reflexivity. }
    split; [|split].
    + intros e. destruct (decide (x = e)) as [<-|Hne]; [right; exact Hx|].
      rewrite list_lookup_alter_ne by exact Hne. apply Hany.
    + intros taskId e H. destruct (decide (x = e)) as [<-|Hne]; [exact Hx|].
      rewrite list_lookup_alter_ne by exact Hne.
      destruct (decide (i = taskId)) as [->|Hk].
      * rewrite lookup_insert_eq in H. congruence.
      * rewrite lookup_insert_ne in H by exact Hk. eapply Hin, H.
    + intros e H. assert (Hne : x <> e).
      { intros ->. apply (H i). apply lookup_insert_eq. }
      rewrite list_lookup_alter_ne by exact Hne. apply Hout.
      intros taskId Hm. apply (H taskId).
      destruct (decide (i = taskId)) as [->|Hk]; [congruence|].
      rewrite lookup_insert_ne by exact Hk. exact Hm.
Qed.

(** X22. What [dispose] does to the registry's records: it kills the
    process of every tracked executor and empties the map of executors.
    No task record is touched by it (a running task is still recorded as
    running), it emits no notification, executors that are not tracked
    are left alone, and every later [cancelTask] returns false. *)
Theorem dispose_kills_without_record
        (e : nat) (taskId : string) (l : nat) (child ms : Z) (buf : string)
        (t : TaskManager.Task) (tm : TaskManager.TaskManager)
        (Hs : serving e taskId l child ms buf t tm) :
  TaskManager.executors (TaskManager.dispose tm) = ∅
  /\ TaskManager.store (TaskManager.dispose tm) = TaskManager.store tm
  /\ TaskManager.tasks (TaskManager.dispose tm) = TaskManager.tasks tm
  /\ TaskManager.emitted (TaskManager.dispose tm) = TaskManager.emitted tm
  /\ (exists p',
        TaskManager.procs (TaskManager.dispose tm) !! e = Some p'
        /\ CLIExecutor.process (TaskManager.executor p')
           = Some {| CLIExecutor.pid := child; CLIExecutor.killed := true |}
        /\ CLIExecutor.isRunning (TaskManager.executor p') = false)
  /\ (forall e',
        (forall taskId', TaskManager.executors tm !! taskId' <> Some e') ->
        TaskManager.procs (TaskManager.dispose tm) !! e' = TaskManager.procs tm !! e')
  /\ TaskManager.read (TaskManager.dispose tm) l = Some t
  /\ (forall taskId' time',
        TaskManager.cancelTask taskId' time' (TaskManager.dispose tm)
        = (false, TaskManager.dispose tm)).
Proof.
  destruct (dispose_procs tm) as (_ & Hin & Hout).
  destruct Hs as (cmd & args & Hp & Ht & He & Hl).
  pose proof (Hin taskId e He) as Hpe. rewrite Hp in Hpe. cbn in Hpe.
  split; [reflexivity|]. split; [reflexivity|]. split; [reflexivity|].
  split; [reflexivity|]. split.
  { eexists. split; [exact Hpe|]. split; reflexivity. }
  split; [exact Hout|]. split; [exact Ht|].
  intros taskId' time'. apply untracked_cancel. apply lookup_empty.
Qed.

Lemma dispose_kills_without_record_witness :
  TaskManager.executors (TaskManager.dispose running1) = ∅
  /\ TaskManager.store (TaskManager.dispose running1) = TaskManager.store running1
  /\ TaskManager.tasks (TaskManager.dispose running1) = TaskManager.tasks running1
  /\ TaskManager.emitted (TaskManager.dispose running1) = TaskManager.emitted running1
  /\ (exists p',
        TaskManager.procs (TaskManager.dispose running1) !! 0%nat = Some p'
        /\ CLIExecutor.process (TaskManager.executor p')
           = Some {| CLIExecutor.pid := 42; CLIExecutor.killed := true |}
        /\ CLIExecutor.isRunning (TaskManager.executor p') = false)
  /\ (forall e',
        (forall taskId', TaskManager.executors running1 !! taskId' <> Some e') ->
        TaskManager.procs (TaskManager.dispose running1) !! e'
        = TaskManager.procs running1 !! e')
  /\ TaskManager.read (TaskManager.dispose running1) 0
     = Some (TaskManager.set_status TaskManager.running (helloTask claude))
  /\ (forall taskId' time',
        TaskManager.cancelTask taskId' time' (TaskManager.dispose running1)
        = (false, TaskManager.dispose running1)).
Proof.
  apply (dispose_kills_without_record 0 firstId 0 42 TaskManager.executeTimeout ""
           (TaskManager.set_status TaskManager.running (helloTask claude)) running1).
  eexists _, _. repeat split; reflexivity.
Defined.

(** ** The ids of tasks *)

Lemma idNumber_generate n time :
  idNumber ("task-" +:+ Str.ofZ n +:+ "-" +:+ Str.ofZ time) = Some n.
Proof.
  change (Str.parseInt (Str.ofZ n +:+ String "-" (Str.ofZ time)) = Some n).
  apply parseInt_ofZ_then. reflexivity.
Qed.

Lemma lookupTask_pair taskId l m :
  TaskManager.lookupTask taskId m = Some l -> (taskId, l) ∈ m.
Proof.
  induction m as [|[k l'] m IH]; cbn; [discriminate|].
  destruct (String.eqb_spec taskId k) as [->|Hne].
  - intros [= ->]. apply list_elem_of_here.
  - intros H. apply list_elem_of_further, IH, H.
Qed.

Lemma setTask_fresh taskId l m :
  TaskManager.lookupTask taskId m = None ->
  TaskManager.setTask taskId l m = (m ++ [(taskId, l)])%list.
Proof.
  induction m as [|[k l'] m IH]; cbn; [reflexivity|].
  destruct (String.eqb taskId k); [discriminate|]. intros H. rewrite (IH H). reflexivity.
Qed.

Lemma lookupTask_app taskId m m' l :
  TaskManager.lookupTask taskId m = Some l ->
  TaskManager.lookupTask taskId (m ++ m') = Some l.
Proof.
  induction m as [|[k l'] m IH]; cbn; [discriminate|].
  destruct (String.eqb taskId k); [auto|exact IH].
Qed.

Lemma lookupTask_last taskId m l :
  TaskManager.lookupTask taskId m = None ->
  TaskManager.lookupTask taskId (m ++ [(taskId, l)]) = Some l.
Proof.
  induction m as [|[k l'] m IH]; cbn.
  - rewrite String.eqb_refl. reflexivity.
  - destruct (String.eqb taskId k); [discriminate|exact IH].
Qed.

Lemma fresh_id tm time :
  wellFormed tm ->
  TaskManager.lookupTask
    ("task-" +:+ Str.ofZ (TaskManager.taskIdCounter tm + 1) +:+ "-" +:+ Str.ofZ time)
    (TaskManager.tasks tm) = None.
Proof.
  intros Hwf.
  destruct (TaskManager.lookupTask _ (TaskManager.tasks tm)) as [l|] eqn:E; [|reflexivity].
  apply lookupTask_pair, Hwf in E. destruct E as [(n & Hn & Hle) _].
  rewrite idNumber_generate in Hn. injection Hn as <-. lia.
Qed.

(** ** What the operations keep *)

Lemma foldl_onProgress_frame taskId l emits tm :
  let tm' := foldl (fun acc pr => TaskManager.onProgress taskId l pr acc) tm emits in
  TaskManager.tasks tm' = TaskManager.tasks tm
  /\ TaskManager.taskIdCounter tm' = TaskManager.taskIdCounter tm
  /\ length (TaskManager.store tm') = length (TaskManager.store tm).
Proof.
  revert tm. induction emits as [|pr emits IH]; intros tm; cbn; [auto|].
  destruct (IH (TaskManager.onProgress taskId l pr tm)) as (H1 & H2 & H3).
  cbn zeta in *. rewrite H1, H2, H3.
  unfold TaskManager.onProgress. destruct (CLIExecutor.type pr); cbn;
    rewrite ?length_alter; auto.
Qed.

Lemma executeTask_end_frame taskId l r time tm :
  let tm' := snd (TaskManager.executeTask_end taskId l r time tm) in
  TaskManager.tasks tm' = TaskManager.tasks tm
  /\ TaskManager.taskIdCounter tm' = TaskManager.taskIdCounter tm
  /\ length (TaskManager.store tm') = length (TaskManager.store tm).
Proof. destruct r; cbn; rewrite length_alter; auto. Qed.

Lemma step_frame free tm tm' :
  Step free tm tm' ->
  (exists a text idTime createdAt,
      tm' = snd (TaskManager.createTask a text idTime createdAt tm))
  \/ (TaskManager.tasks tm' = TaskManager.tasks tm
      /\ TaskManager.taskIdCounter tm' = TaskManager.taskIdCounter tm
      /\ length (TaskManager.store tm') = length (TaskManager.store tm)).
Proof.
  intros [a text idTime createdAt tm0 | taskId cfg child tm0 | e ev time doneAt tm0
          | a text taskId l doneAt tm0 d w | taskId time tm0 | tm0 | l f tm0 _].
  - left. eauto.
  - right. unfold TaskManager.executeTask_begin.
    destruct (TaskManager.lookupTask taskId (TaskManager.tasks tm0)) as [l|]; [|auto].
    cbn. destruct (alter _ l (TaskManager.store tm0) !! l) eqn:E; [|auto].
    destruct (TaskManager.useDaemon cfg); cbn; rewrite length_alter; auto.
  - right. unfold TaskManager.deliver.
    destruct (TaskManager.procs tm0 !! e) as [p|]; [|auto].
    destruct (CLIExecutor.handle ev time (TaskManager.executor p)) as [[ex1 emits] attempt].
    destruct (CLIExecutor.settle attempt ex1) as [ex2 settled].
    pose proof (foldl_onProgress_frame (TaskManager.forId p) (TaskManager.forTask p) emits
                  (TaskManager.with_procs
                     <[e := {| TaskManager.executor := ex2;
                               TaskManager.forId := TaskManager.forId p;
                               TaskManager.forTask := TaskManager.forTask p |}]> tm0)) as F.
    cbn zeta in F. cbn [TaskManager.with_procs TaskManager.tasks TaskManager.taskIdCounter
                        TaskManager.store] in F.
    destruct settled as [r|]; [|exact F].
    set (tm2 := foldl _ _ emits) in *.
    pose proof (executeTask_end_frame (TaskManager.forId p) (TaskManager.forTask p) r doneAt tm2)
      as G. cbn zeta in G.
    destruct (TaskManager.executeTask_end _ _ r doneAt tm2) as [r' tm3]. cbn [snd] in *.
    destruct F as (F1 & F2 & F3), G as (G1 & G2 & G3). split; [|split]; congruence.
  - right. unfold executeTask_daemon.
    destruct (sendPrompt a text d w) as [[r d'] w'].
    pose proof (executeTask_end_frame taskId l r doneAt tm0) as G. cbn zeta in G.
    destruct (TaskManager.executeTask_end taskId l r doneAt tm0) as [r' tm3]. exact G.
  - right. unfold TaskManager.cancelTask.
    destruct (TaskManager.executors tm0 !! taskId) as [e|]; [|auto].
    destruct (TaskManager.lookupTask taskId (TaskManager.tasks tm0)) as [l|]; [|auto].
    cbn. rewrite length_alter. auto.
  - right. cbn. auto.
  - right. cbn. rewrite length_alter. auto.
Qed.

Lemma createTask_wellFormed a text idTime createdAt tm :
  wellFormed tm -> wellFormed (snd (TaskManager.createTask a text idTime createdAt tm)).
Proof.
  intros Hwf k l. cbn.
  rewrite setTask_fresh by apply (fresh_id tm idTime Hwf).
  rewrite List.length_app. cbn. intros H. apply elem_of_app in H as [H|H].
  - destruct (Hwf k l H) as [(n & Hn & Hle) Hlt]. split; [exists n; split; [exact Hn|lia]|lia].
  - apply list_elem_of_singleton in H. injection H as -> ->. split; [|lia].
    eexists. split; [apply idNumber_generate|lia].
Qed.

Lemma reachable_wellFormed free tm : reachable free tm -> wellFormed tm.
Proof.
  unfold reachable. intros H. apply rtc_nsteps in H as [n H].
  revert tm H. induction n as [|n IH]; intros tm H.
  - inversion H; subst. intros k l Hin. cbn in Hin. apply elem_of_nil in Hin. contradiction.
  - apply nsteps_inv_r in H as (tm0 & H0 & Hstep). specialize (IH tm0 H0).
    destruct (step_frame free tm0 tm Hstep) as [(a & text & t1 & t2 & ->) | (Ht & Hc & Hs)].
    + apply createTask_wellFormed, IH.
    + intros k l. rewrite Ht, Hc, Hs. apply IH.
Qed.

Lemma reachable_step free tm tm' : reachable free tm -> Step free tm tm' -> reachable free tm'.
Proof. intros H S. eapply rtc_r; eassumption. Qed.

Lemma createTask_wf tm a text idTime createdAt :
  wellFormed tm ->
  let newId :=
    "task-" +:+ Str.ofZ (TaskManager.taskIdCounter tm + 1) +:+ "-" +:+ Str.ofZ idTime in
  let task := fst (TaskManager.createTask a text idTime createdAt tm) in
  let tm' := snd (TaskManager.createTask a text idTime createdAt tm) in
  TaskManager.getTask newId tm = None
  /\ TaskManager.getTask newId tm' = Some task
  /\ TaskManager.read tm task = None
  /\ TaskManager.read tm' task
     = Some {| TaskManager.id := newId; TaskManager.agent := a;
               TaskManager.prompt := text; TaskManager.status := TaskManager.pending;
               TaskManager.progress := 0; TaskManager.output := "";
               TaskManager.createdAt := createdAt; TaskManager.completedAt := None;
               TaskManager.error := None |}
  /\ TaskManager.getAllTasks tm' = (TaskManager.getAllTasks tm ++ [task])%list
  /\ (forall k l, TaskManager.getTask k tm = Some l ->
                  TaskManager.getTask k tm' = Some l
                  /\ TaskManager.read tm' l = TaskManager.read tm l)
  /\ TaskManager.executors tm' = TaskManager.executors tm
  /\ task = length (TaskManager.store tm).
Proof.
  intros Hwf.
  pose proof (fresh_id tm idTime Hwf) as Hfresh.
  cbn zeta.
  unfold TaskManager.getTask, TaskManager.read, TaskManager.getAllTasks. cbn.
  rewrite setTask_fresh by exact Hfresh.
  split; [exact Hfresh|]. split; [apply lookupTask_last, Hfresh|].
  split; [apply lookup_ge_None_2; lia|].
  split; [rewrite lookup_app_r, Nat.sub_diag by lia; reflexivity|].
  split; [rewrite fmap_app; reflexivity|].
  split.
  { intros k l Hk. split; [apply lookupTask_app, Hk|].
    apply lookupTask_pair, Hwf in Hk. destruct Hk as [_ Hlt].
    apply lookup_app_l, Hlt. }
  split; reflexivity.
Qed.

(** X13. Whatever was done with the registry before, [createTask]
    adds exactly one task, under an id that no task had, also when the
    clock has not moved since the last id was made (the counter in the
    id differs).  The new task is last in the map, it is pending with
    progress 0 and no output, and the tasks known before keep their ids
    and their records. *)
Theorem createTask_adds_a_fresh_task
        (free : bool) (tm : TaskManager.TaskManager)
        (a : AgentType) (text : string) (idTime createdAt : Z)
        (Hreach : reachable free tm) :
  let newId :=
    "task-" +:+ Str.ofZ (TaskManager.taskIdCounter tm + 1) +:+ "-" +:+ Str.ofZ idTime in
  let task := fst (TaskManager.createTask a text idTime createdAt tm) in
  let tm' := snd (TaskManager.createTask a text idTime createdAt tm) in
  TaskManager.getTask newId tm = None
  /\ TaskManager.getTask newId tm' = Some task
  /\ TaskManager.read tm task = None
  /\ TaskManager.read tm' task
     = Some {| TaskManager.id := newId; TaskManager.agent := a;
               TaskManager.prompt := text; TaskManager.status := TaskManager.pending;
               TaskManager.progress := 0; TaskManager.output := "";
               TaskManager.createdAt := createdAt; TaskManager.completedAt := None;
               TaskManager.error := None |}
  /\ TaskManager.getAllTasks tm' = (TaskManager.getAllTasks tm ++ [task])%list
  /\ (forall k l, TaskManager.getTask k tm = Some l ->
                  TaskManager.getTask k tm' = Some l
                  /\ TaskManager.read tm' l = TaskManager.read tm l)
  /\ TaskManager.executors tm' = TaskManager.executors tm
  /\ reachable free tm'.
Proof.
  destruct (createTask_wf tm a text idTime createdAt (reachable_wellFormed free tm Hreach))
    as (H1 & H2 & H3 & H4 & H5 & H6 & H7 & _).
  cbn zeta. repeat (split; [assumption|]).
  apply (reachable_step free tm _ Hreach). apply step_create.
Qed.

Lemma createTask_adds_a_fresh_task_witness :
  TaskManager.getTask "task-2-1000" (oneTask claude) = None
  /\ TaskManager.getTask "task-2-1000"
       (snd (TaskManager.createTask gemini "again" 1000 1000 (oneTask claude)))
     = Some 1%nat.
Proof.
  destruct (createTask_adds_a_fresh_task false (oneTask claude) gemini "again" 1000 1000)
    as (H1 & H2 & _).
  - eapply rtc_l; [apply step_create|apply rtc_refl].
  - split; [exact H1|exact H2].
Defined.

Lemma begin_wf tm taskId cfg child :
  wellFormed tm ->
  match TaskManager.getTask taskId tm with
  | Some l =>
      exists aw tm1 t,
        TaskManager.executeTask_begin taskId cfg child tm = (Ok aw, tm1)
        /\ TaskManager.read tm l = Some t
        /\ TaskManager.read tm1 l = Some (TaskManager.set_status TaskManager.running t)
        /\ aw = (if TaskManager.useDaemon cfg
                 then TaskManager.AwaitDaemon (TaskManager.agent t) (TaskManager.prompt t)
                        taskId l
                 else TaskManager.AwaitExecutor (length (TaskManager.procs tm)))
        /\ (TaskManager.executors tm1 !! taskId
            = if TaskManager.useDaemon cfg then TaskManager.executors tm !! taskId
              else Some (length (TaskManager.procs tm)))
        /\ TaskManager.tasks tm1 = TaskManager.tasks tm
        /\ TaskManager.store tm1
           = alter (TaskManager.set_status TaskManager.running) l (TaskManager.store tm)
  | None =>
      TaskManager.executeTask_begin taskId cfg child tm
      = (Throw ("Task " +:+ taskId +:+ " not found"), tm)
  end.
Proof.
  intros Hwf.
  unfold TaskManager.getTask, TaskManager.executeTask_begin, TaskManager.read.
  destruct (TaskManager.lookupTask taskId (TaskManager.tasks tm)) as [l|] eqn:E; [|reflexivity].
  apply lookupTask_pair, Hwf in E. destruct E as [_ Hlt].
  destruct (lookup_lt_is_Some_2 _ _ Hlt) as [t Ht].
  cbn. rewrite list_lookup_alter_eq, Ht. cbn.
  destruct (TaskManager.useDaemon cfg); eexists _, _, t;
    (split; [reflexivity|]); cbn; rewrite ?list_lookup_alter_eq, ?Ht; cbn.
  - repeat split; reflexivity.
  - split; [reflexivity|]. split; [reflexivity|].
    split; [reflexivity|]. split; [apply lookup_insert_eq|]. split; reflexivity.
Qed.

(** X14. [executeTask] rejects with Task <id> not found exactly for
    the ids that [getTask] does not know, and then changes nothing.  For
    a known id it sets the status to running and goes on to the daemon
    of the task's agent, or to a new executor that it tracks under the
    id, according to the configuration. *)
Theorem executeTask_knows_its_tasks
        (free : bool) (tm : TaskManager.TaskManager) (taskId : string)
        (cfg : TaskManager.Config) (child : Z)
        (Hreach : reachable free tm) :
  match TaskManager.getTask taskId tm with
  | Some l =>
      exists aw tm1 t,
        TaskManager.executeTask_begin taskId cfg child tm = (Ok aw, tm1)
        /\ TaskManager.read tm l = Some t
        /\ TaskManager.read tm1 l = Some (TaskManager.set_status TaskManager.running t)
        /\ aw = (if TaskManager.useDaemon cfg
                 then TaskManager.AwaitDaemon (TaskManager.agent t) (TaskManager.prompt t)
                        taskId l
                 else TaskManager.AwaitExecutor (length (TaskManager.procs tm)))
        /\ (TaskManager.executors tm1 !! taskId
            = if TaskManager.useDaemon cfg then TaskManager.executors tm !! taskId
              else Some (length (TaskManager.procs tm)))
  | None =>
      TaskManager.executeTask_begin taskId cfg child tm
      = (Throw ("Task " +:+ taskId +:+ " not found"), tm)
  end.
Proof.
  pose proof (begin_wf tm taskId cfg child (reachable_wellFormed free tm Hreach)) as H.
  destruct (TaskManager.getTask taskId tm) as [l|]; [|exact H].
  destruct H as (aw & tm1 & t & H1 & H2 & H3 & H4 & H5 & _).
  exists aw, tm1, t. auto.
Qed.

Lemma executeTask_knows_its_tasks_witness :
  TaskManager.executeTask_begin "task-7-0" cliConfig 42 (oneTask claude)
  = (Throw ("Task " +:+ "task-7-0" +:+ " not found"), oneTask claude).
Proof.
  apply (executeTask_knows_its_tasks false (oneTask claude) "task-7-0" cliConfig 42).
  eapply rtc_l; [apply step_create|apply rtc_refl].
Defined.

(** ** The input panel *)

Lemma dropTrailing_empty s : Str.dropTrailing s = "" -> blank s.
Proof.
  unfold blank. induction s as [|c s IH]; [reflexivity|].
  cbn [Str.dropTrailing hasChar].
  destruct (Str.dropTrailing s); [|discriminate].
  destruct (Str.isSpace c); [|discriminate]. intros _. cbn. apply IH. reflexivity.
Qed.

Lemma dropSpaces_blank_inv s : blank (Str.dropSpaces s) -> blank s.
Proof.
  unfold blank. induction s as [|c s IH]; [reflexivity|].
  cbn [Str.dropSpaces]. destruct (Str.isSpace c) eqn:E; [|intros H; exact H].
  intros H. cbn [hasChar]. rewrite E. apply IH, H.
Qed.

Lemma trim_empty s : Str.trim s = "" <-> blank s.
Proof.
  unfold Str.trim. split.
  - intros H. apply dropSpaces_blank_inv, dropTrailing_empty, H.
  - intros H. rewrite <- (append_nil_r s), dropSpaces_blank by exact H. reflexivity.
Qed.

Lemma trim_visible s :
  String.eqb (Str.trim s) "" = negb (hasChar visible s).
Proof.
  destruct (hasChar visible s) eqn:E; cbn.
  - apply String.eqb_neq. intros H. apply trim_empty in H. unfold blank in H.
    unfold visible in E. congruence.
  - apply String.eqb_eq, trim_empty, E.
Qed.

Lemma idOf_read tm l t :
  TaskManager.read tm l = Some t -> InputPanelProvider.idOf tm l = TaskManager.id t.
Proof. unfold InputPanelProvider.idOf. intros ->. reflexivity. Qed.

(** [_runTask] creates nothing for a prompt that holds white space
    only.  For any other prompt it creates one task, with the prompt as
    it was handed over, and starts it at once. *)
Lemma runTask_visible
        (free : bool) (tm : TaskManager.TaskManager)
        (a : AgentType) (prompt : string) (idTime createdAt : Z)
        (cfg : TaskManager.Config) (child : Z)
        (Hreach : reachable free tm) :
  if hasChar visible prompt then
    exists task aw tm' t,
      InputPanelProvider._runTask a prompt idTime createdAt cfg child tm
      = (Some (task, Ok aw), tm')
      /\ TaskManager.getAllTasks tm' = (TaskManager.getAllTasks tm ++ [task])%list
      /\ TaskManager.read tm task = None
      /\ TaskManager.read tm' task = Some t
      /\ TaskManager.agent t = a
      /\ TaskManager.prompt t = prompt
      /\ TaskManager.status t = TaskManager.running
      /\ (forall l, l <> task -> TaskManager.read tm' l = TaskManager.read tm l)
  else
    InputPanelProvider._runTask a prompt idTime createdAt cfg child tm = (None, tm).
Proof.
  unfold InputPanelProvider._runTask. rewrite trim_visible.
  destruct (hasChar visible prompt); [|reflexivity]. cbn [negb].
  pose proof (reachable_wellFormed free tm Hreach) as Hwf.
  destruct (createTask_wf tm a prompt idTime createdAt Hwf)
    as (_ & Hget & Hnew & Hread & Hall & _ & _ & Hlen).
  pose proof (createTask_wellFormed a prompt idTime createdAt tm Hwf) as Hwf1.
  cbn zeta in *.
  assert (Hstore : TaskManager.store (snd (TaskManager.createTask a prompt idTime createdAt tm))
                   = (TaskManager.store tm ++ [_])%list) by reflexivity.
  destruct (TaskManager.createTask a prompt idTime createdAt tm) as [task tm1] eqn:Ec.
  cbn [fst snd] in *.
  rewrite (idOf_read _ _ _ Hread). cbn [TaskManager.id].
  match type of Hget with
  | TaskManager.getTask ?k _ = _ => pose proof (begin_wf tm1 k cfg child Hwf1) as Hb
  end.
  rewrite Hget in Hb. destruct Hb as (aw & tm2 & t & Hb & Ht & Ht2 & _ & _ & Htasks & Hst2).
  rewrite Hb. rewrite Hread in Ht. injection Ht as <-.
  eexists task, aw, tm2, _. split; [reflexivity|].
  split; [unfold TaskManager.getAllTasks in *; rewrite Htasks; exact Hall|].
  split; [exact Hnew|]. split; [exact Ht2|].
  split; [reflexivity|]. split; [reflexivity|]. split; [reflexivity|].
  intros l Hne. unfold TaskManager.read. rewrite Hst2, Hstore.
  rewrite list_lookup_alter_ne by congruence.
  destruct (decide (l < length (TaskManager.store tm))%nat) as [Hlt|Hge].
  - apply lookup_app_l, Hlt.
  - rewrite lookup_ge_None_2 by (rewrite List.length_app; cbn; lia).
    symmetry. apply lookup_ge_None_2. lia.
Qed.

Lemma send_trims a value :
  InputPanelProvider.send (InputPanelProvider.radioValue a) value
  = if hasChar visible value then
      Some (match a with
            | claude => InputPanelProvider.runClaude (Str.trim value)
            | gemini => InputPanelProvider.runGemini (Str.trim value)
            end)
    else None.
Proof.
  unfold InputPanelProvider.send. cbn zeta. rewrite trim_visible.
  destruct (hasChar visible value); [|reflexivity]. destruct a; reflexivity.
Qed.

Lemma visible_trim value : hasChar visible (Str.trim value) = hasChar visible value.
Proof.
  pose proof (trim_visible (Str.trim value)) as H. rewrite trim_trim, trim_visible in H.
  destruct (hasChar visible value), (hasChar visible (Str.trim value));
    reflexivity || discriminate.
Qed.

(** X25. Sending from the input panel with one agent selected.  The
    script trims the text of the text area.  When nothing is left, it
    posts no message and the registry stays as it is.  Otherwise it
    posts the trimmed text, for which the handler creates one task of
    the agent selected, with the trimmed text as its prompt, and starts
    it at once: the call of [executeTask] finds the task and sets it
    running, and no other task is touched. *)
Theorem input_panel_runs_visible_prompts
        (free : bool) (tm : TaskManager.TaskManager)
        (a : AgentType) (value : string) (idTime createdAt idTime2 createdAt2 : Z)
        (cfg : TaskManager.Config) (child child2 : Z)
        (Hreach : reachable free tm) :
  if hasChar visible value then
    exists data task aw tm' t,
      InputPanelProvider.send (InputPanelProvider.radioValue a) value = Some data
      /\ InputPanelProvider.onDidReceiveMessage data idTime createdAt idTime2 createdAt2
           cfg child child2 tm
         = (InputPanelProvider.ranOne (Some (task, Ok aw)), tm')
      /\ TaskManager.getAllTasks tm' = (TaskManager.getAllTasks tm ++ [task])%list
      /\ TaskManager.read tm task = None
      /\ TaskManager.read tm' task = Some t
      /\ TaskManager.agent t = a
      /\ TaskManager.prompt t = Str.trim value
      /\ TaskManager.status t = TaskManager.running
      /\ (forall l, l <> task -> TaskManager.read tm' l = TaskManager.read tm l)
  else
    InputPanelProvider.send (InputPanelProvider.radioValue a) value = None.
Proof.
  rewrite send_trims.
  pose proof (runTask_visible free tm a (Str.trim value) idTime createdAt cfg child Hreach)
    as H.
  rewrite visible_trim in H.
  destruct (hasChar visible value); [|reflexivity].
  destruct H as (task & aw & tm' & t & Hrun & H).
  eexists _, task, aw, tm', t. split; [reflexivity|].
  split; [|exact H].
  destruct a; cbn [InputPanelProvider.onDidReceiveMessage]; rewrite Hrun; reflexivity.
Qed.

Lemma input_panel_runs_visible_prompts_witness :
  InputPanelProvider.send "claude" "   " = None
  /\ exists data task aw tm' t,
       InputPanelProvider.send "gemini" "  hello " = Some data
       /\ InputPanelProvider.onDidReceiveMessage data 2000 2000 2000 2000
            cliConfig 43 44 (oneTask claude)
          = (InputPanelProvider.ranOne (Some (task, Ok aw)), tm')
       /\ TaskManager.getAllTasks tm'
          = (TaskManager.getAllTasks (oneTask claude) ++ [task])%list
       /\ TaskManager.read (oneTask claude) task = None
       /\ TaskManager.read tm' task = Some t
       /\ TaskManager.agent t = gemini
       /\ TaskManager.prompt t = Str.trim "  hello "
       /\ TaskManager.status t = TaskManager.running
       /\ (forall l, l <> task ->
                     TaskManager.read tm' l = TaskManager.read (oneTask claude) l).
Proof.
  split.
  - apply (input_panel_runs_visible_prompts false (oneTask gemini) claude "   "
             2000 2000 2000 2000 cliConfig 43 44).
    eapply rtc_l; [apply step_create|apply rtc_refl].
  - apply (input_panel_runs_visible_prompts false (oneTask claude) gemini "  hello "
             2000 2000 2000 2000 cliConfig 43 44).
    eapply rtc_l; [apply step_create|apply rtc_refl].
Defined.

(** X26. Run Both, with a prompt that is not blank, creates a Claude
    task and then a Gemini task for the same prompt and starts both.
    The two tasks are distinct and have different ids, also when the
    clock reads the same for both, and each id resolves to its own
    task. *)
Theorem run_both_creates_two_tasks
        (free : bool) (tm : TaskManager.TaskManager)
        (prompt : string) (idTime1 createdAt1 idTime2 createdAt2 : Z)
        (cfg : TaskManager.Config) (child1 child2 : Z)
        (Hreach : reachable free tm)
        (Hvisible : hasChar visible prompt = true) :
  exists c g aw1 aw2 tm' tc tg,
    InputPanelProvider._runBoth prompt idTime1 createdAt1 idTime2 createdAt2
      cfg child1 child2 tm
    = (Some ((c, Ok aw1), (g, Ok aw2)), tm')
    /\ c <> g
    /\ TaskManager.getAllTasks tm' = (TaskManager.getAllTasks tm ++ [c; g])%list
    /\ TaskManager.read tm' c = Some tc
    /\ TaskManager.read tm' g = Some tg
    /\ TaskManager.id tc <> TaskManager.id tg
    /\ TaskManager.getTask (TaskManager.id tc) tm' = Some c
    /\ TaskManager.getTask (TaskManager.id tg) tm' = Some g
    /\ (TaskManager.agent tc, TaskManager.agent tg) = (claude, gemini)
    /\ (TaskManager.prompt tc, TaskManager.prompt tg) = (prompt, prompt)
    /\ (TaskManager.status tc, TaskManager.status tg)
       = (TaskManager.running, TaskManager.running).
Proof.
  unfold InputPanelProvider._runBoth. rewrite trim_visible, Hvisible. cbn [negb].
  pose proof (reachable_wellFormed free tm Hreach) as Hwf.
  destruct (createTask_wf tm claude prompt idTime1 createdAt1 Hwf)
    as (_ & Hget1 & Hnew1 & Hread1 & Hall1 & _ & _ & Hlen1).
  pose proof (createTask_wellFormed claude prompt idTime1 createdAt1 tm Hwf) as Hwf1.
  cbn zeta in *.
  assert (Hc1 : TaskManager.taskIdCounter
                  (snd (TaskManager.createTask claude prompt idTime1 createdAt1 tm))
                = TaskManager.taskIdCounter tm + 1) by reflexivity.
  assert (Hs1 : length (TaskManager.store
                          (snd (TaskManager.createTask claude prompt idTime1 createdAt1 tm)))
                = S (length (TaskManager.store tm))).
  { cbn. rewrite List.length_app. cbn. lia. }
  destruct (TaskManager.createTask claude prompt idTime1 createdAt1 tm) as [c tm1].
  cbn [fst snd] in *.
  destruct (createTask_wf tm1 gemini prompt idTime2 createdAt2 Hwf1)
    as (_ & Hget2 & Hnew2 & Hread2 & Hall2 & Hold2 & _ & Hlen2).
  pose proof (createTask_wellFormed gemini prompt idTime2 createdAt2 tm1 Hwf1) as Hwf2.
  cbn zeta in *.
  destruct (TaskManager.createTask gemini prompt idTime2 createdAt2 tm1) as [g tm2].
  cbn [fst snd] in *.
  destruct (Hold2 _ _ Hget1) as [Hget1' Hread1']. rewrite Hread1 in Hread1'.
  rewrite (idOf_read _ _ _ Hread1'). cbn [TaskManager.id].
  match type of Hget1' with
  | TaskManager.getTask ?k _ = _ => pose proof (begin_wf tm2 k cfg child1 Hwf2) as Hb
  end.
  rewrite Hget1' in Hb.
  destruct Hb as (aw1 & tm3 & t & Hb & Ht & Ht3 & _ & _ & Htasks3 & Hst3).
  rewrite Hb. rewrite Hread1' in Ht. injection Ht as <-.
  assert (Hcg : c <> g) by lia.
  assert (Hread3g : TaskManager.read tm3 g = TaskManager.read tm2 g).
  { unfold TaskManager.read. rewrite Hst3. apply list_lookup_alter_ne. exact Hcg. }
  rewrite Hread2 in Hread3g. rewrite (idOf_read _ _ _ Hread3g). cbn [TaskManager.id].
  assert (Hwf3 : wellFormed tm3).
  { intros k l. rewrite Htasks3, Hst3, length_alter.
    assert (Hc3 : TaskManager.taskIdCounter tm3 = TaskManager.taskIdCounter tm2).
    { unfold TaskManager.executeTask_begin in Hb.
      unfold TaskManager.getTask in Hget1'. rewrite Hget1' in Hb. cbn in Hb.
      destruct (alter _ c (TaskManager.store tm2) !! c); [|discriminate].
      destruct (TaskManager.useDaemon cfg); injection Hb as _ <-; reflexivity. }
    rewrite Hc3. apply Hwf2. }
  match type of Hget2 with
  | TaskManager.getTask ?k _ = _ => pose proof (begin_wf tm3 k cfg child2 Hwf3) as Hb2
  end.
  unfold TaskManager.getTask in Hb2 |- *. rewrite Htasks3 in Hb2.
  unfold TaskManager.getTask in Hget2. rewrite Hget2 in Hb2.
  destruct Hb2 as (aw2 & tm4 & t & Hb2 & Ht & Ht4 & _ & _ & Htasks4 & Hst4).
  rewrite Hb2. rewrite Hread3g in Ht. injection Ht as <-.
  eexists c, g, aw1, aw2, tm4, _, _. split; [reflexivity|].
  split; [exact Hcg|].
  split.
  { unfold TaskManager.getAllTasks in *. rewrite Htasks4, ?Htasks3, Hall2, Hall1.
    rewrite <- app_assoc. reflexivity. }
  split.
  { unfold TaskManager.read in *. rewrite Hst4, list_lookup_alter_ne by congruence.
    exact Ht3. }
  split; [exact Ht4|].
  cbn [TaskManager.id TaskManager.set_status TaskManager.agent TaskManager.prompt
       TaskManager.status].
  split.
  { intros E. apply (f_equal idNumber) in E. rewrite !idNumber_generate in E.
    injection E as E. lia. }
  split; [rewrite Htasks4, ?Htasks3; exact Hget1'|].
  split; [rewrite Htasks4, ?Htasks3; exact Hget2|].
  repeat split; reflexivity.
Qed.

Lemma run_both_creates_two_tasks_witness :
  exists c g aw1 aw2 tm' tc tg,
    InputPanelProvider._runBoth "hello" 1000 1000 1000 1000 cliConfig 42 43 TaskManager.empty
    = (Some ((c, Ok aw1), (g, Ok aw2)), tm')
    /\ c <> g
    /\ TaskManager.getAllTasks tm' = (TaskManager.getAllTasks TaskManager.empty ++ [c; g])%list
    /\ TaskManager.read tm' c = Some tc
    /\ TaskManager.read tm' g = Some tg
    /\ TaskManager.id tc <> TaskManager.id tg
    /\ TaskManager.getTask (TaskManager.id tc) tm' = Some c
    /\ TaskManager.getTask (TaskManager.id tg) tm' = Some g
    /\ (TaskManager.agent tc, TaskManager.agent tg) = (claude, gemini)
    /\ (TaskManager.prompt tc, TaskManager.prompt tg) = ("hello", "hello")
    /\ (TaskManager.status tc, TaskManager.status tg)
       = (TaskManager.running, TaskManager.running).
Proof.
  apply (run_both_creates_two_tasks false TaskManager.empty "hello" 1000 1000 1000 1000
           cliConfig 42 43).
  - apply rtc_refl.
  - reflexivity.
Defined.

(** ** The task views *)

Section Sorting.
Context {A : Type} (key : A -> Z).

Lemma insertBy_perm (x : A) (l : list A) :
  JsArray.insertBy (fun a b => key b - key a) x l ≡ₚ x :: l.
Proof.
  induction l as [|y l IH]; cbn; [reflexivity|].
  destruct (0 <? key y - key x); [|reflexivity].
  rewrite IH. apply Permutation_swap.
Qed.

Lemma sort_perm (l : list A) : JsArray.sort (fun a b => key b - key a) l ≡ₚ l.
Proof.
  induction l as [|x l IH]; cbn; [reflexivity|].
  rewrite insertBy_perm, IH. reflexivity.
Qed.

Lemma insertBy_sorted (x : A) (l : list A) :
  Sorted.StronglySorted (fun a b => key b <= key a) l ->
  Sorted.StronglySorted (fun a b => key b <= key a)
    (JsArray.insertBy (fun a b => key b - key a) x l).
Proof.
  induction 1 as [|y l Hs IH Hy]; cbn.
  - constructor; [constructor|constructor].
  - destruct (Z.ltb_spec 0 (key y - key x)) as [Hlt|Hge].
    + constructor; [exact IH|].
      rewrite insertBy_perm. constructor; [lia|exact Hy].
    + constructor; [constructor; assumption|].
      constructor; [lia|]. eapply Forall_impl; [exact Hy|]. cbn. intros z Hz. lia.
Qed.

Lemma sort_sorted (l : list A) :
  Sorted.StronglySorted (fun a b => key b <= key a)
    (JsArray.sort (fun a b => key b - key a) l).
Proof.
  induction l as [|x l IH]; cbn; [constructor|]. apply insertBy_sorted, IH.
Qed.

Lemma insertBy_stable (k : Z) (x : A) (l : list A) :
  filter (fun a => key a = k) (JsArray.insertBy (fun a b => key b - key a) x l)
  = filter (fun a => key a = k) (x :: l).
Proof.
  induction l as [|y l IH]; cbn [JsArray.insertBy]; [reflexivity|].
  destruct (Z.ltb_spec 0 (key y - key x)) as [Hlt|Hge]; [|reflexivity].
  rewrite !filter_cons in *. rewrite IH.
  destruct (decide (key y = k)) as [Ey|Ny]; [|reflexivity].
  destruct (decide (key x = k)) as [Ex|Nx]; [lia|reflexivity].
Qed.

Lemma sort_stable (k : Z) (l : list A) :
  filter (fun a => key a = k) (JsArray.sort (fun a b => key b - key a) l)
  = filter (fun a => key a = k) l.
Proof.
  induction l as [|x l IH]; cbn [JsArray.sort]; [reflexivity|].
  rewrite insertBy_stable, !filter_cons, IH. reflexivity.
Qed.

End Sorting.

(** X27. The task tree lists every task of the registry exactly
    once, newest first by creation time; tasks created at the same time
    stay in the order in which they were created. *)
Theorem tree_lists_newest_first (tm : TaskManager.TaskManager) :
  TaskTreeProvider.getChildren tm ≡ₚ TaskManager.getAllTasks tm
  /\ Sorted.StronglySorted (fun a b => createdTime tm b <= createdTime tm a)
       (TaskTreeProvider.getChildren tm)
  /\ forall time,
       filter (fun l => createdTime tm l = time) (TaskTreeProvider.getChildren tm)
       = filter (fun l => createdTime tm l = time) (TaskManager.getAllTasks tm).
Proof.
  unfold TaskTreeProvider.getChildren. split; [apply sort_perm|].
  split; [apply sort_sorted|]. intros time. apply sort_stable.
Qed.

(** ** What the registry keeps true of its records *)

Lemma sound_frame tm tm' :
  TaskManager.store tm' = TaskManager.store tm ->
  TaskManager.procs tm' = TaskManager.procs tm ->
  sound tm -> sound tm'.
Proof. unfold sound. intros -> ->. auto. Qed.

Lemma sound_update l f tm :
  sound tm ->
  (forall t, TaskManager.store tm !! l = Some t -> goodTask t ->
             goodTask (f t)
             /\ (TaskManager.status t <> TaskManager.pending ->
                 TaskManager.status (f t) <> TaskManager.pending)) ->
  sound (TaskManager.update l f tm).
Proof.
  intros [Hgood Hprocs] Hf. split.
  - intros l' t'. cbn. destruct (decide (l = l')) as [<-|Hne].
    + rewrite list_lookup_alter_eq.
      destruct (TaskManager.store tm !! l) as [t|] eqn:E; [|discriminate].
      intros [= <-]. apply (Hf t eq_refl), (Hgood l t E).
    + rewrite list_lookup_alter_ne by exact Hne. apply Hgood.
  - intros e p Hp. cbn in Hp. destruct (Hprocs e p Hp) as (t & Ht & Hs).
    cbn. destruct (decide (l = TaskManager.forTask p)) as [->|Hne].
    + rewrite list_lookup_alter_eq, Ht. cbn. eexists. split; [reflexivity|].
      apply (Hf t Ht (Hgood _ t Ht)), Hs.
    + rewrite list_lookup_alter_ne by exact Hne. eauto.
Qed.

Lemma sound_procs tm g :
  sound tm ->
  (forall e p', g (TaskManager.procs tm) !! e = Some p' ->
                exists p, TaskManager.procs tm !! e = Some p
                          /\ TaskManager.forTask p' = TaskManager.forTask p) ->
  sound (TaskManager.with_procs g tm).
Proof.
  intros [Hgood Hprocs] Hg. split; [exact Hgood|].
  intros e p' Hp'. cbn in Hp'. destruct (Hg e p' Hp') as (p & Hp & ->).
  apply (Hprocs e p Hp).
Qed.

Lemma sound_emit n tm : sound tm -> sound (TaskManager.emit n tm).
Proof. apply sound_frame; reflexivity. Qed.

Lemma sound_executors g tm : sound tm -> sound (TaskManager.with_executors g tm).
Proof. apply sound_frame; reflexivity. Qed.

Lemma good_end r time t :
  goodTask t ->
  goodTask (match r with
            | Ok result =>
                TaskManager.set_completedAt time
                  (TaskManager.set_progress 100
                     (TaskManager.set_status TaskManager.completed
                        (TaskManager.set_output result t)))
            | Throw message =>
                TaskManager.set_completedAt time
                  (TaskManager.set_error message
                     (TaskManager.set_status TaskManager.failed t))
            end).
Proof. intros (Hp & _). destruct r as [result|message]; good_fields. Qed.

Lemma sound_end taskId l r time tm :
  sound tm -> sound (snd (TaskManager.executeTask_end taskId l r time tm)).
Proof.
  intros H. unfold TaskManager.executeTask_end. cbn [snd].
  apply sound_executors.
  destruct r as [result|message]; apply sound_emit, sound_update; try exact H;
    intros t _ Hg.
  - split; [apply (good_end (Ok result) time t Hg)|discriminate].
  - split; [apply (good_end (Throw message) time t Hg)|discriminate].
Qed.

Lemma sound_onProgress taskId l pr tm t0 :
  sound tm ->
  TaskManager.store tm !! l = Some t0 -> TaskManager.status t0 <> TaskManager.pending ->
  sound (TaskManager.onProgress taskId l pr tm)
  /\ exists t1, TaskManager.store (TaskManager.onProgress taskId l pr tm) !! l = Some t1
                /\ TaskManager.status t1 <> TaskManager.pending.
Proof.
  intros H Ht0 Hs0. unfold TaskManager.onProgress.
  set (tm1 := TaskManager.update l _ tm).
  assert (H1 : sound tm1).
  { apply sound_update; [exact H|]. intros t Ht Hg. rewrite Ht0 in Ht. injection Ht as <-.
    destruct Hg as (Hp & Hc & He & _). split; [good_fields; auto|auto]. }
  assert (Ht1 : TaskManager.store tm1 !! l
                = Some (TaskManager.set_output
                          (TaskManager.output t0 +:+ CLIExecutor.data pr) t0)).
  { subst tm1. cbn. rewrite list_lookup_alter_eq, Ht0. reflexivity. }
  destruct (CLIExecutor.type pr).
  - split.
    + do 2 apply sound_emit. apply sound_update; [exact H1|].
      intros t Ht Hg. rewrite Ht1 in Ht. injection Ht as <-.
      destruct Hg as (Hp & Hc & He & _). cbn in *. split; [good_fields; auto|auto].
    + cbn. rewrite !list_lookup_alter_eq, Ht0. cbn. eexists. split; [reflexivity|exact Hs0].
  - split; [do 2 apply sound_emit; exact H1|].
    cbn. rewrite list_lookup_alter_eq, Ht0. cbn. eexists. split; [reflexivity|exact Hs0].
  - split; [do 2 apply sound_emit; exact H1|].
    cbn. rewrite list_lookup_alter_eq, Ht0. cbn. eexists. split; [reflexivity|exact Hs0].
Qed.

Lemma sound_foldl taskId l emits :
  forall tm t0,
    sound tm ->
    TaskManager.store tm !! l = Some t0 -> TaskManager.status t0 <> TaskManager.pending ->
    sound (foldl (fun acc pr => TaskManager.onProgress taskId l pr acc) tm emits).
Proof.
  induction emits as [|pr emits IH]; intros tm t0 H Ht0 Hs0; cbn; [exact H|].
  destruct (sound_onProgress taskId l pr tm t0 H Ht0 Hs0) as (H1 & t1 & Ht1 & Hs1).
  apply (IH _ t1 H1 Ht1 Hs1).
Qed.

Lemma sound_step tm tm' : Step false tm tm' -> sound tm -> sound tm'.
Proof.
  intros [a text idTime createdAt tm0 | taskId cfg child tm0 | e ev time doneAt tm0
          | a text taskId l doneAt tm0 d w | taskId time tm0 | tm0 | l f tm0 Hfree] H.
  - destruct H as [Hgood Hprocs]. split; cbn.
    + intros l t Hl. apply lookup_app_Some in Hl as [Hl | [_ Hl]]; [apply (Hgood l t Hl)|].
      apply list_lookup_singleton_Some in Hl as [_ <-]. good_fields.
    + intros e p Hp. destruct (Hprocs e p Hp) as (t & Ht & Hs). exists t.
      split; [apply lookup_app_l_Some, Ht|exact Hs].
  - unfold TaskManager.executeTask_begin.
    destruct (TaskManager.lookupTask taskId (TaskManager.tasks tm0)) as [l|]; [|exact H].
    set (tm1 := TaskManager.emit _ _).
    assert (H1 : sound tm1).
    { apply sound_emit, sound_update; [exact H|]. intros t _ (Hp & _).
      split; [good_fields|discriminate]. }
    destruct (TaskManager.store tm1 !! l) as [task|] eqn:Et; [|exact H].
    destruct (TaskManager.useDaemon cfg); cbn [snd]; [exact H1|].
    apply sound_executors. destruct H1 as [Hgood Hprocs]. split; [exact Hgood|].
    intros e p Hp. cbn in Hp. apply lookup_app_Some in Hp as [Hp | [_ Hp]].
    + apply (Hprocs e p Hp).
    + apply list_lookup_singleton_Some in Hp as [_ <-]. cbn.
      subst tm1. cbn in Et |- *. rewrite list_lookup_alter_eq in Et |- *.
      destruct (TaskManager.store tm0 !! l) as [t|]; [|discriminate].
      cbn. eexists. split; [reflexivity|discriminate].
  - unfold TaskManager.deliver.
    destruct (TaskManager.procs tm0 !! e) as [p|] eqn:Ep; [|exact H].
    destruct (CLIExecutor.handle ev time (TaskManager.executor p)) as [[ex1 emits] attempt].
    destruct (CLIExecutor.settle attempt ex1) as [ex2 settled].
    destruct (proj2 H e p Ep) as (t0 & Ht0 & Hs0).
    set (tm1 := TaskManager.with_procs _ tm0).
    assert (H1 : sound tm1).
    { apply sound_procs; [exact H|]. intros e' p' Hp'.
      destruct (decide (e = e')) as [<-|Hne].
      - rewrite list_lookup_insert_eq in Hp' by (eapply lookup_lt_Some, Ep).
        injection Hp' as <-. eauto.
      - rewrite list_lookup_insert_ne in Hp' by exact Hne. eauto. }
    pose proof (sound_foldl (TaskManager.forId p) (TaskManager.forTask p) emits tm1 t0 H1 Ht0 Hs0)
      as H2.
    destruct settled as [r|]; [|exact H2].
    pose proof (sound_end (TaskManager.forId p) (TaskManager.forTask p) r doneAt _ H2) as H3.
    destruct (TaskManager.executeTask_end _ _ r doneAt _) as [r' tm3]. exact H3.
  - unfold executeTask_daemon.
    destruct (sendPrompt a text d w) as [[r d'] w'].
    pose proof (sound_end taskId l r doneAt tm0 H) as H3.
    destruct (TaskManager.executeTask_end taskId l r doneAt tm0) as [r' tm3]. exact H3.
  - unfold TaskManager.cancelTask.
    destruct (TaskManager.executors tm0 !! taskId) as [e|]; [|exact H].
    destruct (TaskManager.lookupTask taskId (TaskManager.tasks tm0)) as [l|]; [|exact H].
    cbn [snd]. apply sound_emit, sound_executors, sound_update.
    + apply sound_procs; [exact H|]. intros e' p' Hp'.
      destruct (decide (e = e')) as [<-|Hne].
      * rewrite list_lookup_alter_eq in Hp'.
        destruct (TaskManager.procs tm0 !! e) as [p|]; [|discriminate].
        injection Hp' as <-. eauto.
      * rewrite list_lookup_alter_ne in Hp' by exact Hne. eauto.
    + intros t _ (Hp & _). split; [good_fields|discriminate].
  - unfold TaskManager.dispose. apply sound_executors, sound_procs; [exact H|].
    intros e p' Hp'. destruct (dispose_procs tm0) as (Hany & _).
    unfold TaskManager.dispose in Hany. cbn in Hany.
    destruct (Hany e) as [E|E]; rewrite E in Hp'; [eauto|].
    destruct (TaskManager.procs tm0 !! e) as [p|]; [|discriminate].
    injection Hp' as <-. eauto.
  - discriminate.
Qed.

Lemma reachable_sound tm : reachable false tm -> sound tm.
Proof.
  unfold reachable. intros H. apply rtc_nsteps in H as [n H].
  revert tm H. induction n as [|n IH]; intros tm H.
  - inversion H; subst. split.
    + intros l t Hl. cbn in Hl. rewrite lookup_nil in Hl. discriminate.
    + intros e p Hp. cbn in Hp. rewrite lookup_nil in Hp. discriminate.
  - apply nsteps_inv_r in H as (tm0 & H0 & Hstep). apply (sound_step tm0 tm Hstep), IH, H0.
Qed.

(** X24. As long as callers do not write to the task objects they
    were handed, every task record of the registry keeps these
    properties through all operations: the progress is between 0 and
    100; a completed, failed or cancelled task has a completion time; a
    failed task has an error; and a pending task is as [createTask] made
    it (no progress, no output, no completion time, no error). *)
Theorem task_records_stay_good
        (tm : TaskManager.TaskManager) (l : nat) (t : TaskManager.Task)
        (Hreach : reachable false tm)
        (Hread : TaskManager.read tm l = Some t) :
  0 <= TaskManager.progress t <= 100
  /\ (ended (TaskManager.status t) = true -> TaskManager.completedAt t <> None)
  /\ (TaskManager.status t = TaskManager.failed -> TaskManager.error t <> None)
  /\ (TaskManager.status t = TaskManager.pending ->
      TaskManager.progress t = 0 /\ TaskManager.output t = ""
      /\ TaskManager.completedAt t = None /\ TaskManager.error t = None).
Proof. apply (proj1 (reachable_sound tm Hreach) l t Hread). Qed.

Lemma finished1_reachable : reachable false finished1.
Proof.
  unfold reachable.
  eapply rtc_r; [eapply rtc_r; [eapply rtc_r; [eapply rtc_r; [apply rtc_refl|] |] |] |].
  - apply (step_create false claude "hello" 1000 1000).
  - apply (step_begin false firstId cliConfig 42).
  - apply (step_deliver false 0 (CLIExecutor.Stdout "hi") 1001 1001).
  - apply (step_deliver false 0 (CLIExecutor.Close (Some 0)) 1002 1003).
Defined.

Lemma task_records_stay_good_witness :
  0 <= 100 <= 100
  /\ (ended TaskManager.completed = true -> Some 1003 <> None)
  /\ (TaskManager.completed = TaskManager.failed -> @None string <> None)
  /\ (TaskManager.completed = TaskManager.pending ->
      100 = 0 /\ "hi" = "" /\ Some 1003 = None /\ @None string = None).
Proof.
  apply (task_records_stay_good finished1 0
           {| TaskManager.id := firstId; TaskManager.agent := claude;
              TaskManager.prompt := "hello"; TaskManager.status := TaskManager.completed;
              TaskManager.progress := 100; TaskManager.output := "hi";
              TaskManager.createdAt := 1000; TaskManager.completedAt := Some 1003;
              TaskManager.error := None |}).
  - exact finished1_reachable.
  - reflexivity.
Defined.

(** X28. The view of the running tasks and the view of the task
    history are served by the same provider, so both list the same
    items: every task of the registry exactly once, whatever its
    status, newest first by creation time.  A task that still runs is
    thus listed in the history, and a task that has ended among the
    running ones. *)
Theorem task_views_list_every_task (tm : TaskManager.TaskManager) :
  exists items,
    Extension.rootItems "multiAgent.taskHistory" tm = Some items
    /\ Extension.rootItems "multiAgent.runningTasks" tm = Some items
    /\ items ≡ₚ TaskManager.getAllTasks tm
    /\ Sorted.StronglySorted (fun a b => createdTime tm b <= createdTime tm a) items
    /\ (forall l, l ∈ TaskManager.getRunningTasks tm -> l ∈ items)
    /\ (forall l, l ∈ TaskManager.getCompletedTasks tm -> l ∈ items).
Proof.
  exists (TaskTreeProvider.getChildren tm).
  split; [reflexivity|]. split; [reflexivity|].
  assert (Hperm : TaskTreeProvider.getChildren tm ≡ₚ TaskManager.getAllTasks tm)
    by apply sort_perm.
  split; [exact Hperm|]. split; [apply sort_sorted|].
  split; intros l Hl; rewrite Hperm; apply list_elem_of_filter in Hl as [_ Hl]; exact Hl.
Qed.

(** A registry whose one task runs: the task is listed in the history. *)
Example history_lists_a_running_task :
  TaskManager.getRunningTasks running1 = [0%nat]
  /\ Extension.rootItems "multiAgent.taskHistory" running1 = Some [0%nat].
Proof. split; reflexivity. Qed.

(** ** The label of a tree item *)

Lemma substring_prefix n :
  forall s, exists rest,
    s = String.substring 0 n s +:+ rest
    /\ String.length (String.substring 0 n s) = Nat.min n (String.length s).
Proof.
  induction n as [|n IH]; intros [|c s]; cbn.
  - exists "". split; reflexivity.
  - exists (String c s). split; reflexivity.
  - exists "". split; reflexivity.
  - destruct (IH s) as (rest & E & L). exists rest.
    split; [change (String c s = String c (String.substring 0 n s +:+ rest));
            rewrite <- E; reflexivity|].
    rewrite L. reflexivity.
Qed.

Lemma substring_all n s : (String.length s <= n)%nat -> String.substring 0 n s = s.
Proof.
  revert s. induction n as [|n IH]; intros [|c s] H; cbn in *; try reflexivity; [lia|].
  rewrite IH by lia. reflexivity.
Qed.

(** X29. The label of a tree item is the prompt itself when it has at
    most 50 characters, and otherwise its first 50 characters followed
    by three dots; it is never longer than 53 characters. *)
Theorem label_shows_the_prompt (task : TaskManager.Task) :
  (String.length (TaskTreeItem.label task) <= 53)%nat
  /\ if (50 <? String.length (TaskManager.prompt task))%nat
     then exists head rest,
            TaskManager.prompt task = head +:+ rest
            /\ String.length head = 50%nat
            /\ TaskTreeItem.label task = head +:+ "..."
     else TaskTreeItem.label task = TaskManager.prompt task.
Proof.
  unfold TaskTreeItem.label.
  destruct (substring_prefix 50 (TaskManager.prompt task)) as (rest & E & L).
  destruct (Nat.ltb_spec 50 (String.length (TaskManager.prompt task))) as [Hlt|Hle].
  - split; [rewrite length_app, L; change (String.length "...") with 3%nat; lia|].
    eexists _, rest. split; [exact E|]. split; [rewrite L; lia|reflexivity].
  - rewrite substring_all by exact Hle. rewrite append_nil_r. split; [lia|reflexivity].
Qed.

(** ** A task handed to a daemon, to its end *)

(** X23. A task handed to a daemon ends as [sendPrompt] ends.  When
    it returns a text the task is completed, with that text as output
    and progress 100; when it throws the task is failed, its error is
    the message thrown, which starts with the agent's daemon error
    prefix, and its output and progress stay as they were.  Either way
    the completion time is set and no executor is tracked for the
    task. *)
Theorem daemon_task_ends
        (a : AgentType) (text taskId : string) (l : nat) (doneAt : Z)
        (tm : TaskManager.TaskManager) (d : Daemon) (w : World) (t : TaskManager.Task)
        (Ht : TaskManager.read tm l = Some t) :
  exists r tm' d' w' t',
    executeTask_daemon a text taskId l doneAt tm d w = (r, tm', d', w')
    /\ fst (fst (sendPrompt a text d w)) = r
    /\ TaskManager.read tm' l = Some t'
    /\ TaskManager.completedAt t' = Some doneAt
    /\ TaskManager.executors tm' !! taskId = None
    /\ match r with
       | Ok result =>
           TaskManager.status t' = TaskManager.completed
           /\ TaskManager.progress t' = 100
           /\ TaskManager.output t' = result
           /\ TaskManager.error t' = TaskManager.error t
       | Throw message =>
           TaskManager.status t' = TaskManager.failed
           /\ TaskManager.error t' = Some message
           /\ (exists cause, message = label a +:+ " daemon error: " +:+ cause)
           /\ TaskManager.output t' = TaskManager.output t
           /\ TaskManager.progress t' = TaskManager.progress t
       end.
Proof.
  unfold TaskManager.read in *. unfold executeTask_daemon.
  destruct (sendPrompt a text d w) as [[[result|message] d'] w'] eqn:E; cbn.
  - eexists _, _, _, _, _. split; [reflexivity|]. split; [reflexivity|].
    cbn. rewrite list_lookup_alter_eq, Ht. cbn.
    split; [reflexivity|]. split; [reflexivity|]. split; [apply lookup_delete_eq|].
    repeat split; reflexivity.
  - eexists _, _, _, _, _. split; [reflexivity|]. split; [reflexivity|].
    cbn. rewrite list_lookup_alter_eq, Ht. cbn.
    split; [reflexivity|]. split; [reflexivity|]. split; [apply lookup_delete_eq|].
    split; [reflexivity|]. split; [reflexivity|].
    split; [apply (sendPrompt_wrapped a text d w message d' w' E)|].
    split; reflexivity.
Qed.

Lemma daemon_task_ends_witness :
  exists r tm' d' w' t',
    executeTask_daemon gemini "hello" firstId 0 2000 daemon1 up broken = (r, tm', d', w')
    /\ fst (fst (sendPrompt gemini "hello" up broken)) = r
    /\ TaskManager.read tm' 0 = Some t'
    /\ TaskManager.completedAt t' = Some 2000
    /\ TaskManager.executors tm' !! firstId = None
    /\ match r with
       | Ok result =>
           TaskManager.status t' = TaskManager.completed
           /\ TaskManager.progress t' = 100
           /\ TaskManager.output t' = result
           /\ TaskManager.error t' = None
       | Throw message =>
           TaskManager.status t' = TaskManager.failed
           /\ TaskManager.error t' = Some message
           /\ (exists cause, message = label gemini +:+ " daemon error: " +:+ cause)
           /\ TaskManager.output t' = ""
           /\ TaskManager.progress t' = 0
       end.
Proof.
  apply (daemon_task_ends gemini "hello" firstId 0 2000 daemon1 up broken
           (TaskManager.set_status TaskManager.running (helloTask gemini))).
  reflexivity.
Defined.

Lemma runWslCommand_sleeps command d w :
  lag (snd (runWslCommand command d w)) = lag w
  /\ sleep_n (snd (runWslCommand command d w)) = sleep_n w.
Proof.
  unfold runWslCommand.
  destruct (exec_out w (exec_n w)) as [out|out msg]; [|destruct out]; split; reflexivity.
Qed.

(** X1. What [start] does: it lists the sessions, and when the
    session is listed it issues no other command.  Otherwise it issues
    the command that creates the session and, when that did not throw,
    sleeps before it sets the running flag, so that 3000 ms at least
    have passed when it returns.  It returns false exactly when one of
    the two commands threw, the daemon's fields then being as before;
    the mode is never changed. *)
Theorem start_commands (a : AgentType) (d : Daemon) (w : World) :
  exists r d' w',
    start a d w = (Ok r, d', w')
    /\ mode d' = mode d
    /\ match readable (exec_out w (exec_n w)) with
       | None =>
           r = false /\ d' = d
           /\ issued w' = (issued w ++ [wslLine (listCommand a)])%list
       | Some sessions =>
           if Str.includes sessions (SESSION_NAME a) then
             r = true /\ isRunning d' = true
             /\ issued w' = (issued w ++ [wslLine (listCommand a)])%list
           else
             issued w'
             = (issued w ++ [wslLine (listCommand a); wslLine (newSessionCommand a)])%list
             /\ match readable (exec_out w (S (exec_n w))) with
                | Some _ =>
                    r = true /\ isRunning d' = true
                    /\ now w + 3000 <= now w'
                | None => r = false /\ d' = d
                end
       end.
Proof.
  unfold start, try_catch, bind.
  destruct (runWslCommand_readable (listCommand a) d w)
    as (w1 & E1 & Hnow1 & Hout1 & Hn1 & Hiss1).
  rewrite E1.
  destruct (readable (exec_out w (exec_n w))) as [sessions|];
    [|eexists _, _, _; split; [reflexivity|]; auto].
  destruct (Str.includes sessions (SESSION_NAME a));
    [eexists _, _, _; split; [reflexivity|]; cbn; auto|].
  destruct (runWslCommand_readable (newSessionCommand a) d w1)
    as (w2 & E2 & Hnow2 & Hout2 & Hn2 & Hiss2).
  rewrite E2, Hout1, Hn1.
  assert (Hiss : issued w2
                 = (issued w ++ [wslLine (listCommand a); wslLine (newSessionCommand a)])%list).
  { rewrite Hiss2, Hiss1, <- app_assoc. reflexivity. }
  destruct (readable (exec_out w (S (exec_n w)))); eexists _, _, _;
    (split; [reflexivity|]); cbn; (split; [reflexivity|]); (split; [exact Hiss|]).
  - split; [reflexivity|]. split; [reflexivity|].
    pose proof (N2Z.is_nonneg (lag w2 (sleep_n w2))). lia.
  - split; reflexivity.
Qed.

(** ** A session that could not be started *)

Lemma start_failed a d w :
  startFails a w = true -> exists w', start a d w = (Ok false, d, w').
Proof.
  unfold start, startFails, try_catch, bind.
  destruct (runWslCommand_readable (listCommand a) d w) as (w1 & E1 & _ & Hout & Hn & _).
  rewrite E1.
  destruct (readable (exec_out w (exec_n w))) as [sessions|]; [|eexists; reflexivity].
  destruct (Str.includes sessions (SESSION_NAME a)); [discriminate|].
  destruct (runWslCommand_readable (newSessionCommand a) d w1) as (w2 & E2 & _).
  rewrite E2, Hout, Hn.
  destruct (readable (exec_out w (S (exec_n w)))); [discriminate|]. eexists; reflexivity.
Qed.

Lemma sendKey_stopped a key d w :
  isRunning d = false ->
  sendKey a key d w = (Throw (label a +:+ " daemon is not running"), d, w).
Proof. intros H. unfold sendKey, bind, get_isRunning. rewrite H. reflexivity. Qed.

Lemma sendKeys_stopped a keys d w :
  isRunning d = false -> keys <> [] ->
  sendKeys a keys d w = (Throw (label a +:+ " daemon is not running"), d, w).
Proof.
  intros H Hne. destruct keys as [|key [|key2 keys]]; [congruence| |].
  - apply sendKey_stopped, H.
  - change (sendKeys a (key :: key2 :: keys))
      with (do! sendKey a key in sendKeys a (key2 :: keys)).
    unfold bind. rewrite sendKey_stopped by exact H. reflexivity.
Qed.

(** X30. [sendPrompt] does not look at what [start] returns.  When
    the session is not up and cannot be started, the daemon stays as it
    was and [sendPrompt] goes on all the same: it clears the file, sends
    the prompt and polls.  It is only when a choice is to be answered
    that the missing session shows: the key is not sent, no command is
    issued, and the turn throws that the daemon is not running. *)
Theorem failed_start_is_ignored
        (a : AgentType) (prompt : string) (d : Daemon) (w : World)
        (before size : Z) (text : string) (choice : PendingChoice) (st : Poll) (w1 : World)
        (Hstopped : isRunning d = false)
        (Hfails : startFails a w = true)
        (Hauto : mode d = auto)
        (Hdet : detectChoice a text = Some choice) :
  (exists w0,
      ensureStarted a d w = (Ok tt, d, w0)
      /\ sendPrompt a prompt d w
         = try_catch
             (let! beforeSize := prepare a prompt in
              waitForOutputWithChoiceDetection a beforeSize (promptTimeout a))
             (fun msg => throw (label a +:+ " daemon error: " +:+ msg)) d w0)
  /\ react a before size text st d w1
     = (Throw (label a +:+ " daemon is not running"), d, w1).
Proof.
  split.
  - destruct (start_failed a d w Hfails) as (w0 & E). exists w0.
    assert (E0 : ensureStarted a d w = (Ok tt, d, w0)).
    { unfold ensureStarted, bind, get_isRunning. rewrite Hstopped. cbn [negb].
      rewrite E. reflexivity. }
    split; [exact E0|]. unfold sendPrompt. unfold bind at 1. rewrite E0. reflexivity.
  - destruct (preferred_detected a text choice Hdet) as (_ & Hkeys & Hresp).
    unfold react. rewrite Hdet. unfold bind at 1, get_mode. rewrite Hauto, Hresp.
    unfold bind. rewrite sendKeys_stopped; [reflexivity|exact Hstopped|].
    destruct Hkeys as [-> | [-> | ->]]; discriminate.
Qed.

Lemma failed_start_is_ignored_witness :
  (exists w0,
      ensureStarted gemini stopped broken = (Ok tt, stopped, w0)
      /\ sendPrompt gemini "hello" stopped broken
         = try_catch
             (let! beforeSize := prepare gemini "hello" in
              waitForOutputWithChoiceDetection gemini beforeSize (promptTimeout gemini))
             (fun msg => throw (label gemini +:+ " daemon error: " +:+ msg)) stopped w0)
  /\ react gemini 1 20 "Proceed? (y/n)" (initialPoll 1) stopped asking
     = (Throw (label gemini +:+ " daemon is not running"), stopped, asking).
Proof.
  apply (failed_start_is_ignored gemini "hello" stopped broken 1 20 "Proceed? (y/n)"
           {| options := ["y"; "n"]; prompt := "Yes or No?" |} (initialPoll 1) asking);
    reflexivity.
Defined.
